(** * Tab drag-and-drop across windows: store reducer, drag controller, tab strip

    A shallow embedding of
    - [app/browser/reducers/tabDraggingReducer.js] (module [Store]),
    - the draggable/detachable tab wrapper required by [tab.js] as
      [./makeDraggableAndDetachable] (module [DragController]),
    - the page-change debounce of [app/renderer/components/tabs/tabs.js]
      (module [TabStrip]), its pages (module [TabsPaging]) and the drag props
      of [tab.js] (module [DraggableTab]),
    followed by the properties established about them.

    Numbers.  Pixel coordinates and widths are JavaScript numbers, binary64
    floating-point values that may be fractional ([getBoundingClientRect]).
    A finite binary64 value is a rational, so these numbers are embedded as
    rationals [Q], and every addition, subtraction and division on them
    rounds its exact result to the nearest binary64 value, ties to even, as
    the machine does (module [Number]); comparisons are exact and
    [Math.floor] is [Qfloor].  [NaN], the infinities and the sign of zero
    have no counterpart: every number is finite, which is why divisors are
    required to be non-zero where the code divides, and results are taken to
    stay below the largest binary64 value.  Window ids, tab ids, tab indexes,
    list sizes and window positions are integers far below 2^53, on which
    the machine's arithmetic is exact; they are [Z], [N] or [nat].  Logging
    ([console.*], [process.stdout.write]) is left out. *)

From Stdlib Require Import ZArith QArith Qround Qabs Qpower Bool List Lia Lqa.
From Stdlib Require PrimFloat FloatOps SpecFloat.
Import ListNotations.

Local Open Scope Z_scope.

(** ** JavaScript numbers: binary64 arithmetic on rationals *)

Module Number.

(** [2 ^ e] for an integer exponent. *)
Definition pow2 (e : Z) : Q := (2 ^ e)%Q.

(** The binary exponent of a positive rational: the [e] with
    [2 ^ e <= q < 2 ^ (e + 1)].  The quotient of a numerator in
    [2 ^ a, 2 ^ (a + 1)) by a denominator in [2 ^ b, 2 ^ (b + 1)) lies
    between [2 ^ (a - b - 1)] and [2 ^ (a - b + 1)]. *)
Definition ilog2 (q : Q) : Z :=
  let e := Z.log2 (Qnum q) - Z.log2 (Zpos (Qden q)) in
  if Qle_bool (pow2 e) q then e else e - 1.

(** The nearest integer, the even one of two that are equally near. *)
Definition roundHalfEven (q : Q) : Z :=
  let f := Qfloor q in
  match (q - inject_Z f ?= 1 # 2)%Q with
  | Lt => f
  | Gt => f + 1
  | Eq => if Z.even f then f else f + 1
  end.

(** The nearest binary64 value.  A value of binary exponent [e] is a
    multiple of [2 ^ (e - 52)] (53 significant bits), and no value is finer
    than [2 ^ -1074] (the subnormal numbers). *)
Definition round (q : Q) : Q :=
  match (q ?= 0)%Q with
  | Eq => 0%Q
  | c =>
      let a := Qabs q in
      let ulp := pow2 (Z.max (ilog2 a - 52) (-1074)) in
      let r := Qred (inject_Z (roundHalfEven (a / ulp)) * ulp) in
      match c with
      | Lt => Qopp r
      | _ => r
      end
  end.

(** [a + b], [a - b] and [a / b] on JavaScript numbers. *)
Definition add (a b : Q) : Q := round (a + b).
Definition sub (a b : Q) : Q := round (a - b).
Definition div (a b : Q) : Q := round (a / b).

(** The number a decimal literal of the source or of an example stands for:
    270.8 is [literal (2708 # 10)]. *)
Definition literal (q : Q) : Q := round q.

(** The rational a finite primitive float of the kernel stands for, to
    compare the operations above with the machine's. *)
Definition ofFloat (f : PrimFloat.float) : option Q :=
  match FloatOps.Prim2SF f with
  | SpecFloat.S754_zero _ => Some 0%Q
  | SpecFloat.S754_finite s m e =>
      Some (Qred ((if s then - (1) else 1) * inject_Z (Zpos m) * pow2 e))
  | _ => None
  end.

#[global] Arguments round : simpl never.
#[global] Arguments add : simpl never.
#[global] Arguments sub : simpl never.
#[global] Arguments div : simpl never.
#[global] Arguments literal : simpl never.

End Number.

(** Binary64 values to compare [Number] with the machine on. *)
Module Binary64.
Import PrimFloat.

#[local] Set Warnings "-inexact-float".

(** Pairs of binary64 values, as the kernel's primitive floats: integers,
    fractions that are not binary fractions, a tie, large and tiny
    magnitudes, subnormal numbers. *)
Definition samples : list (float * float) :=
  [(1483, 270.8); (1212.2, 876.2); (2072, 115); (1957, 105.2); (109, 43.6);
   (87.2, 43.6); (0.1, 0.2); (1, 3); (-7.3, 2.9); (640, 35.5);
   (9007199254740993, 1); (4503599627370497, 0.5); (123456789.123, 0.000001234);
   (1e300, 1e-5); (1e-320, 3); (5e-324, 2); (1e-308, 1e-308);
   (2.2250738585072014e-308, 1.1)]%float.

(** The operation [model] of [Number] gives on a pair what the operation
    [machine] of the kernel gives. *)
Definition agrees (machine : float -> float -> float) (model : Q -> Q -> Q)
  (ab : float * float) : bool :=
  match Number.ofFloat (fst ab), Number.ofFloat (snd ab),
        Number.ofFloat (machine (fst ab) (snd ab)) with
  | Some a, Some b, Some c => Qeq_bool (model a b) c
  | _, _, _ => false
  end.

End Binary64.

(** ** The drag state store: [tabDraggingReducer.js] *)

Module Store.

Definition WindowId := Z.
Definition TabId := Z.

(** A frame record is opaque to the drag logic; it is carried around and
    handed to [tabs.moveTo].  It is identified here by its key. *)
Definition Frame := Z.

Record Point : Type := mkPoint { x : Q; y : Q }.

(** Modelled from the spec: the [dragSourceData] payload of the drag-started
    event.  It is built by [appActions.tabDragStarted], which is not part of
    the sources; [tab.js] ([onDragStart]) passes it the window id, the frame,
    the tab id, the client and screen position of the pointer, the size of the
    tab, the pointer offset within the tab and the single-tab flag.  The keys
    are the ones the data model lists as fixed at drag start and that the
    reducer and [tab.js] read without ever writing them first. *)
Module DragSourceData.
Record t : Type := mk {
  sourceTabId : option TabId;
  originalWindowId : WindowId;
  currentWindowId : WindowId;
  originClientX : Q;
  originClientY : Q;
  originScreenX : Q;
  originScreenY : Q;
  relativeXDragStart : Q;
  relativeYDragStart : Q;
  tabWidth : Q;
  originatedFromSingleTabWindow : bool;
  frame : Frame
}.
End DragSourceData.

(** The session, [state.get('tabDragData')]: an Immutable map in the code.
    A key that may be absent is an [option]; [has(k)] is [k d <> None].  The
    values written under the optional keys are always numbers, so [has(k)]
    and [get(k) != null] agree on them.  [detachRequestedWindowId] is tested
    by the single-tab-move handler but written nowhere. *)
Record DragData : Type := mkDragData {
  sourceTabId : option TabId;
  originalWindowId : WindowId;
  currentWindowId : WindowId;
  originClientX : Q;
  originClientY : Q;
  originScreenX : Q;
  originScreenY : Q;
  relativeXDragStart : Q;
  relativeYDragStart : Q;
  tabWidth : Q;
  originatedFromSingleTabWindow : bool;
  frame : Frame;
  frameTopHeight : Q;
  frameLeftWidth : Q;
  bufferWindowId : option WindowId;
  dragDetachedWindowId : option WindowId;
  displayIndexRequested : option Z;
  dragWindowClientX : option Q;
  dragWindowClientY : option Q;
  attachRequestedWindowId : option WindowId;
  detachToRequestedWindowId : option WindowId;
  detachRequestedWindowId : option WindowId;
  detachedFromWindowId : option WindowId;
  detachedFromTabX : option Q;
  detachedFromTabY : option Q
}.

Definition set_currentWindowId (v : WindowId) (d : DragData) : DragData :=
  {| sourceTabId := sourceTabId d; originalWindowId := originalWindowId d;
     currentWindowId := v; originClientX := originClientX d;
     originClientY := originClientY d; originScreenX := originScreenX d;
     originScreenY := originScreenY d; relativeXDragStart := relativeXDragStart d;
     relativeYDragStart := relativeYDragStart d; tabWidth := tabWidth d;
     originatedFromSingleTabWindow := originatedFromSingleTabWindow d; frame := frame d;
     frameTopHeight := frameTopHeight d; frameLeftWidth := frameLeftWidth d;
     bufferWindowId := bufferWindowId d; dragDetachedWindowId := dragDetachedWindowId d;
     displayIndexRequested := displayIndexRequested d;
     dragWindowClientX := dragWindowClientX d; dragWindowClientY := dragWindowClientY d;
     attachRequestedWindowId := attachRequestedWindowId d;
     detachToRequestedWindowId := detachToRequestedWindowId d;
     detachRequestedWindowId := detachRequestedWindowId d;
     detachedFromWindowId := detachedFromWindowId d;
     detachedFromTabX := detachedFromTabX d; detachedFromTabY := detachedFromTabY d |}.

Definition set_bufferWindowId (v : option WindowId) (d : DragData) : DragData :=
  {| sourceTabId := sourceTabId d; originalWindowId := originalWindowId d;
     currentWindowId := currentWindowId d; originClientX := originClientX d;
     originClientY := originClientY d; originScreenX := originScreenX d;
     originScreenY := originScreenY d; relativeXDragStart := relativeXDragStart d;
     relativeYDragStart := relativeYDragStart d; tabWidth := tabWidth d;
     originatedFromSingleTabWindow := originatedFromSingleTabWindow d; frame := frame d;
     frameTopHeight := frameTopHeight d; frameLeftWidth := frameLeftWidth d;
     bufferWindowId := v; dragDetachedWindowId := dragDetachedWindowId d;
     displayIndexRequested := displayIndexRequested d;
     dragWindowClientX := dragWindowClientX d; dragWindowClientY := dragWindowClientY d;
     attachRequestedWindowId := attachRequestedWindowId d;
     detachToRequestedWindowId := detachToRequestedWindowId d;
     detachRequestedWindowId := detachRequestedWindowId d;
     detachedFromWindowId := detachedFromWindowId d;
     detachedFromTabX := detachedFromTabX d; detachedFromTabY := detachedFromTabY d |}.

Definition set_dragDetachedWindowId (v : option WindowId) (d : DragData) : DragData :=
  {| sourceTabId := sourceTabId d; originalWindowId := originalWindowId d;
     currentWindowId := currentWindowId d; originClientX := originClientX d;
     originClientY := originClientY d; originScreenX := originScreenX d;
     originScreenY := originScreenY d; relativeXDragStart := relativeXDragStart d;
     relativeYDragStart := relativeYDragStart d; tabWidth := tabWidth d;
     originatedFromSingleTabWindow := originatedFromSingleTabWindow d; frame := frame d;
     frameTopHeight := frameTopHeight d; frameLeftWidth := frameLeftWidth d;
     bufferWindowId := bufferWindowId d; dragDetachedWindowId := v;
     displayIndexRequested := displayIndexRequested d;
     dragWindowClientX := dragWindowClientX d; dragWindowClientY := dragWindowClientY d;
     attachRequestedWindowId := attachRequestedWindowId d;
     detachToRequestedWindowId := detachToRequestedWindowId d;
     detachRequestedWindowId := detachRequestedWindowId d;
     detachedFromWindowId := detachedFromWindowId d;
     detachedFromTabX := detachedFromTabX d; detachedFromTabY := detachedFromTabY d |}.

Definition set_displayIndexRequested (v : option Z) (d : DragData) : DragData :=
  {| sourceTabId := sourceTabId d; originalWindowId := originalWindowId d;
     currentWindowId := currentWindowId d; originClientX := originClientX d;
     originClientY := originClientY d; originScreenX := originScreenX d;
     originScreenY := originScreenY d; relativeXDragStart := relativeXDragStart d;
     relativeYDragStart := relativeYDragStart d; tabWidth := tabWidth d;
     originatedFromSingleTabWindow := originatedFromSingleTabWindow d; frame := frame d;
     frameTopHeight := frameTopHeight d; frameLeftWidth := frameLeftWidth d;
     bufferWindowId := bufferWindowId d; dragDetachedWindowId := dragDetachedWindowId d;
     displayIndexRequested := v; dragWindowClientX := dragWindowClientX d;
     dragWindowClientY := dragWindowClientY d;
     attachRequestedWindowId := attachRequestedWindowId d;
     detachToRequestedWindowId := detachToRequestedWindowId d;
     detachRequestedWindowId := detachRequestedWindowId d;
     detachedFromWindowId := detachedFromWindowId d;
     detachedFromTabX := detachedFromTabX d; detachedFromTabY := detachedFromTabY d |}.

Definition set_dragWindowClientX (v : option Q) (d : DragData) : DragData :=
  {| sourceTabId := sourceTabId d; originalWindowId := originalWindowId d;
     currentWindowId := currentWindowId d; originClientX := originClientX d;
     originClientY := originClientY d; originScreenX := originScreenX d;
     originScreenY := originScreenY d; relativeXDragStart := relativeXDragStart d;
     relativeYDragStart := relativeYDragStart d; tabWidth := tabWidth d;
     originatedFromSingleTabWindow := originatedFromSingleTabWindow d; frame := frame d;
     frameTopHeight := frameTopHeight d; frameLeftWidth := frameLeftWidth d;
     bufferWindowId := bufferWindowId d; dragDetachedWindowId := dragDetachedWindowId d;
     displayIndexRequested := displayIndexRequested d; dragWindowClientX := v;
     dragWindowClientY := dragWindowClientY d;
     attachRequestedWindowId := attachRequestedWindowId d;
     detachToRequestedWindowId := detachToRequestedWindowId d;
     detachRequestedWindowId := detachRequestedWindowId d;
     detachedFromWindowId := detachedFromWindowId d;
     detachedFromTabX := detachedFromTabX d; detachedFromTabY := detachedFromTabY d |}.

Definition set_dragWindowClientY (v : option Q) (d : DragData) : DragData :=
  {| sourceTabId := sourceTabId d; originalWindowId := originalWindowId d;
     currentWindowId := currentWindowId d; originClientX := originClientX d;
     originClientY := originClientY d; originScreenX := originScreenX d;
     originScreenY := originScreenY d; relativeXDragStart := relativeXDragStart d;
     relativeYDragStart := relativeYDragStart d; tabWidth := tabWidth d;
     originatedFromSingleTabWindow := originatedFromSingleTabWindow d; frame := frame d;
     frameTopHeight := frameTopHeight d; frameLeftWidth := frameLeftWidth d;
     bufferWindowId := bufferWindowId d; dragDetachedWindowId := dragDetachedWindowId d;
     displayIndexRequested := displayIndexRequested d;
     dragWindowClientX := dragWindowClientX d; dragWindowClientY := v;
     attachRequestedWindowId := attachRequestedWindowId d;
     detachToRequestedWindowId := detachToRequestedWindowId d;
     detachRequestedWindowId := detachRequestedWindowId d;
     detachedFromWindowId := detachedFromWindowId d;
     detachedFromTabX := detachedFromTabX d; detachedFromTabY := detachedFromTabY d |}.

Definition set_attachRequestedWindowId (v : option WindowId) (d : DragData) : DragData :=
  {| sourceTabId := sourceTabId d; originalWindowId := originalWindowId d;
     currentWindowId := currentWindowId d; originClientX := originClientX d;
     originClientY := originClientY d; originScreenX := originScreenX d;
     originScreenY := originScreenY d; relativeXDragStart := relativeXDragStart d;
     relativeYDragStart := relativeYDragStart d; tabWidth := tabWidth d;
     originatedFromSingleTabWindow := originatedFromSingleTabWindow d; frame := frame d;
     frameTopHeight := frameTopHeight d; frameLeftWidth := frameLeftWidth d;
     bufferWindowId := bufferWindowId d; dragDetachedWindowId := dragDetachedWindowId d;
     displayIndexRequested := displayIndexRequested d;
     dragWindowClientX := dragWindowClientX d; dragWindowClientY := dragWindowClientY d;
     attachRequestedWindowId := v;
     detachToRequestedWindowId := detachToRequestedWindowId d;
     detachRequestedWindowId := detachRequestedWindowId d;
     detachedFromWindowId := detachedFromWindowId d;
     detachedFromTabX := detachedFromTabX d; detachedFromTabY := detachedFromTabY d |}.

Definition set_detachToRequestedWindowId (v : option WindowId) (d : DragData) : DragData :=
  {| sourceTabId := sourceTabId d; originalWindowId := originalWindowId d;
     currentWindowId := currentWindowId d; originClientX := originClientX d;
     originClientY := originClientY d; originScreenX := originScreenX d;
     originScreenY := originScreenY d; relativeXDragStart := relativeXDragStart d;
     relativeYDragStart := relativeYDragStart d; tabWidth := tabWidth d;
     originatedFromSingleTabWindow := originatedFromSingleTabWindow d; frame := frame d;
     frameTopHeight := frameTopHeight d; frameLeftWidth := frameLeftWidth d;
     bufferWindowId := bufferWindowId d; dragDetachedWindowId := dragDetachedWindowId d;
     displayIndexRequested := displayIndexRequested d;
     dragWindowClientX := dragWindowClientX d; dragWindowClientY := dragWindowClientY d;
     attachRequestedWindowId := attachRequestedWindowId d; detachToRequestedWindowId := v;
     detachRequestedWindowId := detachRequestedWindowId d;
     detachedFromWindowId := detachedFromWindowId d;
     detachedFromTabX := detachedFromTabX d; detachedFromTabY := detachedFromTabY d |}.

Definition set_detachedFromWindowId (v : option WindowId) (d : DragData) : DragData :=
  {| sourceTabId := sourceTabId d; originalWindowId := originalWindowId d;
     currentWindowId := currentWindowId d; originClientX := originClientX d;
     originClientY := originClientY d; originScreenX := originScreenX d;
     originScreenY := originScreenY d; relativeXDragStart := relativeXDragStart d;
     relativeYDragStart := relativeYDragStart d; tabWidth := tabWidth d;
     originatedFromSingleTabWindow := originatedFromSingleTabWindow d; frame := frame d;
     frameTopHeight := frameTopHeight d; frameLeftWidth := frameLeftWidth d;
     bufferWindowId := bufferWindowId d; dragDetachedWindowId := dragDetachedWindowId d;
     displayIndexRequested := displayIndexRequested d;
     dragWindowClientX := dragWindowClientX d; dragWindowClientY := dragWindowClientY d;
     attachRequestedWindowId := attachRequestedWindowId d;
     detachToRequestedWindowId := detachToRequestedWindowId d;
     detachRequestedWindowId := detachRequestedWindowId d; detachedFromWindowId := v;
     detachedFromTabX := detachedFromTabX d; detachedFromTabY := detachedFromTabY d |}.

Definition set_detachedFromTabX (v : option Q) (d : DragData) : DragData :=
  {| sourceTabId := sourceTabId d; originalWindowId := originalWindowId d;
     currentWindowId := currentWindowId d; originClientX := originClientX d;
     originClientY := originClientY d; originScreenX := originScreenX d;
     originScreenY := originScreenY d; relativeXDragStart := relativeXDragStart d;
     relativeYDragStart := relativeYDragStart d; tabWidth := tabWidth d;
     originatedFromSingleTabWindow := originatedFromSingleTabWindow d; frame := frame d;
     frameTopHeight := frameTopHeight d; frameLeftWidth := frameLeftWidth d;
     bufferWindowId := bufferWindowId d; dragDetachedWindowId := dragDetachedWindowId d;
     displayIndexRequested := displayIndexRequested d;
     dragWindowClientX := dragWindowClientX d; dragWindowClientY := dragWindowClientY d;
     attachRequestedWindowId := attachRequestedWindowId d;
     detachToRequestedWindowId := detachToRequestedWindowId d;
     detachRequestedWindowId := detachRequestedWindowId d;
     detachedFromWindowId := detachedFromWindowId d; detachedFromTabX := v;
     detachedFromTabY := detachedFromTabY d |}.

Definition set_detachedFromTabY (v : option Q) (d : DragData) : DragData :=
  {| sourceTabId := sourceTabId d; originalWindowId := originalWindowId d;
     currentWindowId := currentWindowId d; originClientX := originClientX d;
     originClientY := originClientY d; originScreenX := originScreenX d;
     originScreenY := originScreenY d; relativeXDragStart := relativeXDragStart d;
     relativeYDragStart := relativeYDragStart d; tabWidth := tabWidth d;
     originatedFromSingleTabWindow := originatedFromSingleTabWindow d; frame := frame d;
     frameTopHeight := frameTopHeight d; frameLeftWidth := frameLeftWidth d;
     bufferWindowId := bufferWindowId d; dragDetachedWindowId := dragDetachedWindowId d;
     displayIndexRequested := displayIndexRequested d;
     dragWindowClientX := dragWindowClientX d; dragWindowClientY := dragWindowClientY d;
     attachRequestedWindowId := attachRequestedWindowId d;
     detachToRequestedWindowId := detachToRequestedWindowId d;
     detachRequestedWindowId := detachRequestedWindowId d;
     detachedFromWindowId := detachedFromWindowId d;
     detachedFromTabX := detachedFromTabX d; detachedFromTabY := v |}.

Definition stateKey_of (p : DragSourceData.t) (frameTopHeight frameLeftWidth : Q) : DragData :=
  {| sourceTabId := DragSourceData.sourceTabId p;
     originalWindowId := DragSourceData.originalWindowId p;
     currentWindowId := DragSourceData.currentWindowId p;
     originClientX := DragSourceData.originClientX p;
     originClientY := DragSourceData.originClientY p;
     originScreenX := DragSourceData.originScreenX p;
     originScreenY := DragSourceData.originScreenY p;
     relativeXDragStart := DragSourceData.relativeXDragStart p;
     relativeYDragStart := DragSourceData.relativeYDragStart p;
     tabWidth := DragSourceData.tabWidth p;
     originatedFromSingleTabWindow := DragSourceData.originatedFromSingleTabWindow p;
     frame := DragSourceData.frame p;
     frameTopHeight := frameTopHeight;
     frameLeftWidth := frameLeftWidth;
     bufferWindowId := None; dragDetachedWindowId := None;
     displayIndexRequested := None;
     dragWindowClientX := None; dragWindowClientY := None;
     attachRequestedWindowId := None; detachToRequestedWindowId := None;
     detachRequestedWindowId := None; detachedFromWindowId := None;
     detachedFromTabX := None; detachedFromTabY := None |}.

(** The application state as far as this reducer reads or writes it: the
    session under [stateKey] and the table of tabs with their windows, which
    the reducer only reads. *)
Record AppState : Type := mkAppState {
  tabDragData : option DragData;
  tabs : list (TabId * WindowId)
}.

Definition set_tabDragData (v : option DragData) (s : AppState) : AppState :=
  {| tabDragData := v; tabs := tabs s |}.

(** [state.mergeIn([stateKey], ...)], [state.setIn([stateKey, k], v)] and
    [state.deleteIn([stateKey, k])] on an existing session. *)
Definition updateIn (f : DragData -> DragData) (s : AppState) : AppState :=
  match tabDragData s with
  | Some d => set_tabDragData (Some (f d)) s
  | None => s
  end.

Definition WINDOW_ID_NONE : WindowId := -1.

Fixpoint lookupTab (l : list (TabId * WindowId)) (t : TabId) : option WindowId :=
  match l with
  | [] => None
  | (t', w) :: l' => if t' =? t then Some w else lookupTab l' t
  end.

(** Modelled from the spec: [tabState.getWindowId(state, tabId)], "query the
    current window owning a given tab"; [tabState] is not part of the
    sources.  A tab id that is missing or unknown has no window. *)
Definition getWindowId (s : AppState) (t : option TabId) : WindowId :=
  match t with
  | Some t =>
      match lookupTab (tabs s) t with
      | Some w => w
      | None => WINDOW_ID_NONE
      end
  | None => WINDOW_ID_NONE
  end.

(** Modelled from the spec: the accessors of [tabDraggingState.app], which is
    not part of the sources; they read the session under [stateKey], and
    [delete] removes it. *)
Definition getDragData (s : AppState) : option DragData := tabDragData s.

Definition getSourceTabId (s : AppState) : option TabId :=
  match tabDragData s with
  | Some d => sourceTabId d
  | None => None
  end.

Definition getDragDetachedWindowId (s : AppState) : option WindowId :=
  match tabDragData s with
  | Some d => dragDetachedWindowId d
  | None => None
  end.

Definition sourceFrame (s : AppState) : option Frame :=
  match tabDragData s with
  | Some d => Some (frame d)
  | None => None
  end.

Definition delete (s : AppState) : AppState := set_tabDragData None s.

(** *** The world outside the store *)

(** What the reducer can observe of an Electron window. *)
Record Window : Type := mkWindow {
  getPosition : Z * Z;
  getSize : Z * Z;
  isVisible : bool
}.

(** The operating-system side at the moment a transition (or a deferred
    callback) runs.  [fromId] is [BrowserWindow.fromId], [None] for a window
    that does not exist: calling a method on it throws.
    [getWindowClientPointAtCursor] and
    [getWindowPositionForClientPointAtCursor] belong to [browserWindowUtil],
    [createBufferWindow] and [getDragBufferWindow] to [windows]; neither
    module is part of the sources, so what they return is a parameter;
    [getWindowClientPointAtCursor] is [None] when it throws (it is handed
    whatever [BrowserWindow.fromId] returned, possibly no window). *)
Record Env : Type := mkEnv {
  isWindows : bool;
  fromId : WindowId -> option Window;
  getCursorScreenPoint : Point;
  getWindowClientPointAtCursor : WindowId -> option Point;
  getWindowPositionForClientPointAtCursor : Point -> Z * Z;
  createBufferWindow : WindowId;
  getDragBufferWindow : option (WindowId * Window)
}.

Record FrameOpts : Type := mkFrameOpts {
  ofFrame : option Frame;
  index : option Z
}.

Definition frameOptsFromFrame (f : option Frame) : FrameOpts :=
  {| ofFrame := f; index := None |}.

Set Warnings "-register-all".

(** Side effects, in the order the code issues them.  A deferred callback
    ([setImmediate], [setTimeout], the completion callback of [tabs.moveTo])
    runs later, against the world as it is then; [None] is a callback that
    throws. *)
Inductive Effect : Type :=
| CreateBufferWindow (id : WindowId)
| SetPosition (w : WindowId) (wx wy : Z)
| SetSize (w : WindowId) (width height : Z)
| SetIgnoreMouseEvents (w : WindowId) (ignore : bool)
| SetAlwaysOnTop (w : WindowId) (flag : bool)
| BlurWindow (w : WindowId)
| FocusWindow (w : WindowId)
| HideWindow (w : WindowId)
| ShowWindow (w : WindowId)
| SetWindowIsDragBuffer (w : WindowId)
| ClearWindowIsDragBuffer
| SetTabIndex (t : TabId) (frameIndex : Z)
| MoveTo (t : option TabId) (opts : FrameOpts) (checkMaximized : option bool)
         (w : WindowId) (done : Env -> option (list Effect))
| SetImmediate (callback : Env -> option (list Effect))
| SetTimeout (ms : Z) (callback : Env -> option (list Effect)).

Inductive Action : Type :=
| APP_SET_STATE
| APP_TAB_DRAG_STARTED (dragSourceData : DragSourceData.t)
| APP_TAB_DRAG_CANCELLED
| APP_TAB_DRAG_COMPLETE
| APP_TAB_DRAG_CHANGE_WINDOW_DISPLAY_INDEX
    (senderWindowId : WindowId) (destinationDisplayIndex destinationFrameIndex : Z)
    (requiresMouseUpdate : bool)
| APP_TAB_ATTACHED
| APP_TAB_DRAG_SINGLE_TAB_MOVED (tabX tabY : Q) (windowId : WindowId)
| APP_TAB_DRAG_MOUSEOVER_OTHER_WINDOW_TAB (senderWindowId : WindowId) (frameIndex : option Z)
| APP_TAB_DRAG_DETACH_REQUESTED (tabX tabY : Q)
| APP_OTHER.

(** The result of one call of the reducer: the state it returns and the
    effects it issued, or an exception, with the effects issued before it. *)
Inductive Outcome : Type :=
| Returned (s : AppState) (fx : list Effect)
| Threw (fx : list Effect).

Definition has {A : Type} (o : option A) : bool :=
  match o with
  | Some _ => true
  | None => false
  end.

(** *** Deferred callbacks *)

(** [APP_TAB_DRAG_STARTED], source window with several tabs: move the buffer
    window to the position of the source window. *)
Definition positionBufferWindow (sourceWindowId bufferWindow : WindowId) (winX winY : Z)
  : Env -> option (list Effect) :=
  fun env' =>
    match fromId env' sourceWindowId with
    | None => None
    | Some sourceWindow =>
        let '(width, height) := getSize sourceWindow in
        Some [SetPosition bufferWindow winX winY; SetSize bufferWindow width height]
    end.

(** [APP_TAB_DRAG_STARTED], single-tab window: let mouse events through. *)
Definition ignoreMouseEventsAndBlur (isWin : bool) (sourceWindowId : WindowId)
  : Env -> option (list Effect) :=
  fun env' =>
    match fromId env' sourceWindowId with
    | None => None
    | Some _ =>
        Some (SetIgnoreMouseEvents sourceWindowId true ::
              (if isWin
               then [BlurWindow sourceWindowId; SetAlwaysOnTop sourceWindowId true]
               else []))
    end.

(** [APP_TAB_DRAG_SINGLE_TAB_MOVED]: move the entire window, keeping its
    position relative to the tab and the mouse cursor. *)
Definition windowY (mouseScreenPos : Point) (tabY : Q) (dragSourceData : DragData) : Z :=
  Qfloor
    (Number.sub
       (Number.sub (Number.sub (y mouseScreenPos) tabY) (frameTopHeight dragSourceData))
       (relativeYDragStart dragSourceData)).

Definition windowX (mouseScreenPos : Point) (tabX : Q) (dragSourceData : DragData) : Z :=
  Qfloor
    (Number.sub
       (Number.sub (Number.sub (x mouseScreenPos) tabX) (frameLeftWidth dragSourceData))
       (relativeXDragStart dragSourceData)).

Definition moveSingleTabWindow (dragSourceData : DragData) (tabX tabY : Q)
  : Env -> option (list Effect) :=
  fun env' =>
    let mouseScreenPos := getCursorScreenPoint env' in
    let win := currentWindowId dragSourceData in
    match fromId env' win with
    | None => None
    | Some _ =>
        Some [SetPosition win (windowX mouseScreenPos tabX dragSourceData)
                              (windowY mouseScreenPos tabY dragSourceData);
              SetIgnoreMouseEvents win true;
              SetImmediate (fun _ => Some [SetIgnoreMouseEvents win false])]
    end.

(** [APP_TAB_DRAG_MOUSEOVER_OTHER_WINDOW_TAB]: hand the tab to the window
    whose tab was moused over, and keep the detached window as drag buffer. *)
Definition attachToSenderWindow (sourceTabId : TabId) (frameOpts : FrameOpts)
  (detachedWindowId senderWindowId : WindowId) : Env -> option (list Effect) :=
  fun env' =>
    match fromId env' detachedWindowId with
    | None => None
    | Some _ =>
        Some [SetWindowIsDragBuffer detachedWindowId;
              SetIgnoreMouseEvents detachedWindowId false;
              SetAlwaysOnTop detachedWindowId false;
              FocusWindow senderWindowId;
              MoveTo (Some sourceTabId) frameOpts None senderWindowId
                (fun env'' =>
                   match fromId env'' senderWindowId with
                   | None => None
                   | Some senderWindow =>
                       let '(wx, wy) := getPosition senderWindow in
                       let '(width, height) := getSize senderWindow in
                       Some [SetSize detachedWindowId width height;
                             SetPosition detachedWindowId wx wy]
                   end)]
    end.

(** [APP_TAB_DRAG_DETACH_REQUESTED]: move the tab to the buffer window and,
    50 ms after the move completed, show that window under the cursor. *)
Definition showBufferWindow (isWin : bool) (dragSourceData : DragData) (tabX : Q)
  (bufferWindow : WindowId) : Env -> option (list Effect) :=
  fun env' =>
    let relativeTabX := relativeXDragStart dragSourceData in
    let relativeClientY := originClientY dragSourceData in
    let newPoint :=
      getWindowPositionForClientPointAtCursor env'
        {| x := Number.add relativeTabX tabX; y := relativeClientY |} in
    Some (ShowWindow bufferWindow ::
          (if isWin then [BlurWindow bufferWindow; SetAlwaysOnTop bufferWindow true] else [])
          ++ [SetPosition bufferWindow (fst newPoint) (snd newPoint)]).

Definition moveToBufferWindow (isWin : bool) (dragSourceData : DragData) (tabX : Q)
  (bufferWindow : option (WindowId * Window)) : Env -> option (list Effect) :=
  fun _ =>
    match bufferWindow with
    | None => None
    | Some (id, _) =>
        Some [MoveTo (sourceTabId dragSourceData)
                (frameOptsFromFrame (Some (frame dragSourceData))) (Some false) id
                (fun _ => Some [SetTimeout 50 (showBufferWindow isWin dragSourceData tabX id)])]
    end.

(** *** The reducer *)

Definition reducer (env : Env) (state : AppState) (action : Action) : Outcome :=
  match action with
  | APP_SET_STATE =>
      (* in case of a crash during drag, the previous drag state is discarded *)
      Returned (delete state) []
  | APP_TAB_DRAG_STARTED dragSourceData =>
      let sourceWindowId := DragSourceData.originalWindowId dragSourceData in
      let clientX := DragSourceData.originClientX dragSourceData in
      let clientY := DragSourceData.originClientY dragSourceData in
      let screenX := DragSourceData.originScreenX dragSourceData in
      let screenY := DragSourceData.originScreenY dragSourceData in
      match fromId env sourceWindowId with
      | None => Threw []
      | Some sourceWindow =>
          let '(winX, winY) := getPosition sourceWindow in
          let frameTopHeight :=
            Number.sub (Number.sub screenY clientY) (inject_Z winY) in
          let frameLeftWidth :=
            Number.sub (Number.sub screenX clientX) (inject_Z winX) in
          (* replace state data *)
          let state :=
            set_tabDragData
              (Some (stateKey_of dragSourceData frameTopHeight frameLeftWidth)) state in
          if negb (DragSourceData.originatedFromSingleTabWindow dragSourceData) then
            let bufferWindow := createBufferWindow env in
            let state := updateIn (set_bufferWindowId (Some bufferWindow)) state in
            Returned state
              [CreateBufferWindow bufferWindow;
               SetImmediate (positionBufferWindow sourceWindowId bufferWindow winX winY)]
          else
            let state := updateIn (set_dragDetachedWindowId (Some sourceWindowId)) state in
            Returned state
              [SetImmediate (ignoreMouseEventsAndBlur (isWindows env) sourceWindowId)]
      end
  | APP_TAB_DRAG_CANCELLED =>
      let detachedWindowId := getDragDetachedWindowId state in
      let hideBuffer :=
        match getDragBufferWindow env with
        | Some (bufferWin, w) => if isVisible w then [HideWindow bufferWin] else []
        | None => []
        end in
      match detachedWindowId with
      | Some id =>
          match fromId env id with
          | None => Threw []
          | Some _ =>
              Returned (set_tabDragData None state)
                ([SetIgnoreMouseEvents id false; SetAlwaysOnTop id false] ++ hideBuffer)
          end
      | None => Returned (set_tabDragData None state) hideBuffer
      end
  | APP_TAB_DRAG_COMPLETE =>
      let detachedWindowId := getDragDetachedWindowId state in
      let hideBuffer :=
        match getDragBufferWindow env with
        | Some (bufferWin, w) =>
            if isVisible w
            then [HideWindow bufferWin; SetIgnoreMouseEvents bufferWin false]
            else []
        | None => []
        end in
      match detachedWindowId with
      | Some id =>
          match fromId env id with
          | None => Threw []
          | Some _ =>
              Returned (set_tabDragData None state)
                ([SetIgnoreMouseEvents id false; SetAlwaysOnTop id false; FocusWindow id]
                 ++ hideBuffer)
          end
      | None => Returned (set_tabDragData None state) hideBuffer
      end
  | APP_TAB_DRAG_CHANGE_WINDOW_DISPLAY_INDEX
      senderWindowId destinationDisplayIndex destinationFrameIndex requiresMouseUpdate =>
      match tabDragData state with
      | None => Returned state []
      | Some dragSourceData =>
          match sourceTabId dragSourceData with
          | None => Returned state []
          | Some sourceTabId =>
              let attachRequested := has (attachRequestedWindowId dragSourceData) in
              let detachRequested := has (detachToRequestedWindowId dragSourceData) in
              if attachRequested || detachRequested then Returned state []
              else
                let tabCurrentWindowId := currentWindowId dragSourceData in
                if negb (senderWindowId =? tabCurrentWindowId) then Returned state []
                else
                  let scheduled :=
                    [SetImmediate (fun _ => Some [SetTabIndex sourceTabId destinationFrameIndex])] in
                  if requiresMouseUpdate then
                    let currentWindowId := getWindowId state (Some sourceTabId) in
                    match getWindowClientPointAtCursor env currentWindowId with
                    | None => Threw []
                    | Some cursorWindowPoint =>
                        Returned
                          (updateIn
                             (fun d =>
                                set_dragWindowClientY (Some (y cursorWindowPoint))
                                  (set_dragWindowClientX (Some (x cursorWindowPoint))
                                     (set_displayIndexRequested
                                        (Some destinationDisplayIndex) d)))
                             state)
                          scheduled
                    end
                  else
                    Returned
                      (updateIn (set_displayIndexRequested (Some destinationDisplayIndex))
                         state)
                      scheduled
          end
      end
  | APP_TAB_ATTACHED =>
      match tabDragData state with
      | None => Returned state []
      | Some dragSourceData =>
          let sourceTabId := sourceTabId dragSourceData in
          let attachDestinationWindowId := attachRequestedWindowId dragSourceData in
          let detachToRequestedWindowId := detachToRequestedWindowId dragSourceData in
          (* which window is tab attached to right now *)
          let currentWindowId := getWindowId state sourceTabId in
          match attachDestinationWindowId with
          | Some attachDestinationWindowId =>
              if negb (currentWindowId =? attachDestinationWindowId) then
                (* still waiting for tab attach *)
                Returned state []
              else
                match getWindowClientPointAtCursor env currentWindowId with
                | None => Threw []
                | Some cursorWindowPoint =>
                    Returned
                      (updateIn
                         (fun d =>
                            set_dragWindowClientY (Some (y cursorWindowPoint))
                              (set_dragWindowClientX (Some (x cursorWindowPoint))
                                 (set_currentWindowId currentWindowId
                                    (set_dragDetachedWindowId None
                                       (set_displayIndexRequested None
                                          (set_attachRequestedWindowId None d))))))
                         state)
                      []
                end
          | None =>
              match detachToRequestedWindowId with
              | Some detachToRequestedWindowId =>
                  if negb (currentWindowId =? detachToRequestedWindowId) then
                    (* phantom action from previous window: wait for the correct event *)
                    Returned state []
                  else
                    Returned
                      (updateIn
                         (fun d =>
                            set_dragDetachedWindowId (Some currentWindowId)
                              (set_currentWindowId currentWindowId
                                 (set_displayIndexRequested None
                                    (set_detachToRequestedWindowId None
                                       (set_detachedFromWindowId None d)))))
                         state)
                      []
              | None => Returned state []
              end
          end
      end
  | APP_TAB_DRAG_SINGLE_TAB_MOVED tabX tabY windowId =>
      match tabDragData state with
      | None => Returned state []
      | Some dragSourceData =>
          let sourceTabId := sourceTabId dragSourceData in
          let currentWindowId := currentWindowId dragSourceData in
          if has (attachRequestedWindowId dragSourceData) then Returned state []
          else if has (detachRequestedWindowId dragSourceData) then Returned state []
          else if has (detachToRequestedWindowId dragSourceData) then Returned state []
          else
            let actualWindowId := getWindowId state sourceTabId in
            if negb (currentWindowId =? actualWindowId) then Returned state []
            else
              let eventSourceWindowId := windowId in
              if negb (currentWindowId =? eventSourceWindowId) then Returned state []
              else
                Returned state [SetImmediate (moveSingleTabWindow dragSourceData tabX tabY)]
      end
  | APP_TAB_DRAG_MOUSEOVER_OTHER_WINDOW_TAB senderWindowId frameIndex =>
      let dragData := getDragData state in
      match getSourceTabId state, dragData with
      | Some sourceTabId, Some dragData =>
          if has (attachRequestedWindowId dragData) then Returned state []
          else if has (detachToRequestedWindowId dragData) then Returned state []
          else
            (* must be in a 'detached' state *)
            match getDragDetachedWindowId state with
            | None => Returned state []
            | Some detachedWindowId =>
                match frameIndex with
                | None => Returned state []
                | Some destinationFrameIndex =>
                    match getWindowClientPointAtCursor env senderWindowId with
                    | None => Threw []
                    | Some cursorWindowPoint =>
                        let state :=
                          updateIn
                            (fun d =>
                               set_bufferWindowId (Some detachedWindowId)
                                 (set_attachRequestedWindowId (Some senderWindowId)
                                    (set_dragWindowClientY (Some (y cursorWindowPoint))
                                       (set_dragWindowClientX (Some (x cursorWindowPoint)) d))))
                            state in
                        let frameOpts :=
                          {| ofFrame := ofFrame (frameOptsFromFrame (sourceFrame state));
                             index := Some destinationFrameIndex |} in
                        Returned state
                          [SetImmediate
                             (attachToSenderWindow sourceTabId frameOpts
                                detachedWindowId senderWindowId)]
                    end
                end
            end
      | _, _ => Returned state []
      end
  | APP_TAB_DRAG_DETACH_REQUESTED tabX tabY =>
      match tabDragData state with
      | None => Returned state []
      | Some dragSourceData =>
          let sourceTabId := sourceTabId dragSourceData in
          let currentWindowId := getWindowId state sourceTabId in
          (* attach the tab to the buffer window *)
          let bufferWindow := getDragBufferWindow env in
          let issued :=
            [ClearWindowIsDragBuffer;
             SetImmediate
               (moveToBufferWindow (isWindows env) dragSourceData tabX bufferWindow)] in
          match bufferWindow with
          | None => Threw issued
          | Some (id, _) =>
              Returned
                (updateIn
                   (fun d =>
                      set_detachToRequestedWindowId (Some id)
                        (set_detachedFromWindowId (Some currentWindowId)
                           (set_detachedFromTabY (Some tabY)
                              (set_detachedFromTabX (Some tabX) d))))
                   state)
                issued
          end
      end
  | APP_OTHER => Returned state []
  end.


(** *** Sequences of store events *)

(** The store applies the events it receives one after the other, each
    against the world as it is at that moment.  An exception ends the run. *)
Fixpoint run (state : AppState) (events : list (Env * Action)) : option AppState :=
  match events with
  | [] => Some state
  | (env, action) :: events' =>
      match reducer env state action with
      | Returned state' _ => run state' events'
      | Threw _ => None
      end
  end.


Definition isDragStarted (a : Action) : bool :=
  match a with
  | APP_TAB_DRAG_STARTED _ => true
  | _ => false
  end.


(** The events after which the code leaves no session. *)
Definition removesSession (a : Action) : bool :=
  match a with
  | APP_SET_STATE | APP_TAB_DRAG_CANCELLED | APP_TAB_DRAG_COMPLETE => true
  | _ => false
  end.


(** The same, computed from left to right. *)
Definition lifecycle (ends : Action -> bool) (expected : bool) (a : Action) : bool :=
  if isDragStarted a then true else if ends a then false else expected.


(** The states the store can be in: it starts without a session (the reducer
    discards one on [APP_SET_STATE], before anything else happens), every
    event goes through the reducer, and the other reducers of the
    application change the table of tabs but not the session. *)
Inductive reachable : AppState -> Prop :=
| reachable_init : forall tabs0,
    reachable {| tabDragData := None; tabs := tabs0 |}
| reachable_reducer : forall env state action state' fx,
    reachable state ->
    reducer env state action = Returned state' fx ->
    reachable state'
| reachable_tabs : forall state tabs',
    reachable state ->
    reachable {| tabDragData := tabDragData state; tabs := tabs' |}.

(** One of the three "requested" markers is present on the session. *)
Definition anyRequestedMarker (d : DragData) : bool :=
  has (attachRequestedWindowId d) || has (detachToRequestedWindowId d)
  || has (detachedFromWindowId d).

(** The two markers the handlers of the reducer test. *)
Definition attachOrDetachPending (d : DragData) : bool :=
  has (attachRequestedWindowId d) || has (detachToRequestedWindowId d).

(** The markers of a detach come and go together: [detachedFromWindowId] is
    written only along with [detachToRequestedWindowId] and deleted only
    along with it. *)
Definition markersPaired (state : AppState) : Prop :=
  forall d, tabDragData state = Some d ->
    has (detachedFromWindowId d) = true -> has (detachToRequestedWindowId d) = true.

(** The offsets a session is created with, and the key
    [detachRequestedWindowId], which a session is created without. *)
Definition geometry (d : DragData) : Q * Q * Q * Q * option WindowId :=
  (frameLeftWidth d, frameTopHeight d, relativeXDragStart d, relativeYDragStart d,
   detachRequestedWindowId d).


(** *** A concrete scene

    Two windows, 1 and 2, both at (100, 50) on screen; tab 7 lives in
    window 1; the pointer went down at client (300, 20), screen (408, 122),
    35 px into the tab. *)
Definition exampleWindow : Window :=
  {| getPosition := (100, 50); getSize := (1024, 768); isVisible := true |}.

Definition exampleEnv : Env :=
  {| isWindows := false;
     fromId := fun id => if (id =? 1) || (id =? 2) then Some exampleWindow else None;
     getCursorScreenPoint := {| x := 640; y := 120 |};
     getWindowClientPointAtCursor :=
       fun id => if (id =? 1) || (id =? 2) then Some {| x := 532; y := 18 |} else None;
     getWindowPositionForClientPointAtCursor :=
       fun pt => (Qfloor (640 - x pt), Qfloor (120 - y pt));
     createBufferWindow := 2;
     getDragBufferWindow := Some (2, exampleWindow) |}.

Definition examplePayload (singleTab : bool) : DragSourceData.t :=
  {| DragSourceData.sourceTabId := Some 7;
     DragSourceData.originalWindowId := 1;
     DragSourceData.currentWindowId := 1;
     DragSourceData.originClientX := 300;
     DragSourceData.originClientY := 20;
     DragSourceData.originScreenX := 408;
     DragSourceData.originScreenY := 122;
     DragSourceData.relativeXDragStart := 35;
     DragSourceData.relativeYDragStart := 12;
     DragSourceData.tabWidth := 180;
     DragSourceData.originatedFromSingleTabWindow := singleTab;
     DragSourceData.frame := 3 |}.



Definition exampleInitial : AppState := {| tabDragData := None; tabs := [(7, 1)] |}.

(** The session right after the drag started. *)
Definition exampleData (singleTab : bool) : DragData :=
  let d := stateKey_of (examplePayload singleTab) 52 8 in
  if singleTab then set_dragDetachedWindowId (Some 1) d
  else set_bufferWindowId (Some 2) d.

Definition exampleStarted (singleTab : bool) : AppState :=
  {| tabDragData := Some (exampleData singleTab); tabs := [(7, 1)] |}.

(** The single-tab window dragged over a tab of window 2: an attach to
    window 2 is pending. *)
Definition exampleAttachPending : AppState :=
  {| tabDragData :=
       Some (set_bufferWindowId (Some 1)
               (set_attachRequestedWindowId (Some 2)
                  (set_dragWindowClientY (Some 18%Q)
                     (set_dragWindowClientX (Some 532%Q) (exampleData true)))));
     tabs := [(7, 1)] |}.


(** *** More vocabulary for the store *)

(** What a session is created with and keeps: the tab, the window the drag
    started in, the pointer at that moment, the grab offsets, the width of
    the tab, the single-tab flag and the frame. *)
Definition identity (d : DragData)
  : option TabId * WindowId * Q * Q * Q * Q * Q * Q * Q * bool * Frame :=
  (sourceTabId d, originalWindowId d, originClientX d, originClientY d,
   originScreenX d, originScreenY d, relativeXDragStart d, relativeYDragStart d,
   tabWidth d, originatedFromSingleTabWindow d, frame d).

(** The three markers of a transition in flight. *)
Definition markers (d : DragData)
  : option WindowId * option WindowId * option WindowId :=
  (attachRequestedWindowId d, detachToRequestedWindowId d, detachedFromWindowId d).

(** The other reducers of the application move the tab to another window:
    the table of tabs changes, the session does not. *)
Definition withTabs (tabs' : list (TabId * WindowId)) (state : AppState) : AppState :=
  {| tabDragData := tabDragData state; tabs := tabs' |}.

Definition isTabAttached (a : Action) : bool :=
  match a with
  | APP_TAB_ATTACHED => true
  | _ => false
  end.

(** The events that do nothing but read the session. *)
Definition needsSession (a : Action) : bool :=
  match a with
  | APP_TAB_DRAG_CHANGE_WINDOW_DISPLAY_INDEX _ _ _ _
  | APP_TAB_ATTACHED
  | APP_TAB_DRAG_SINGLE_TAB_MOVED _ _ _
  | APP_TAB_DRAG_MOUSEOVER_OTHER_WINDOW_TAB _ _
  | APP_TAB_DRAG_DETACH_REQUESTED _ _
  | APP_OTHER => true
  | _ => false
  end.

(** A session of a single-tab window dragged on its own: nothing pending,
    [detached] is the window that follows the cursor. *)
Definition draggingDetached (d : DragData) (t : TabId) (detached : WindowId) : Prop :=
  sourceTabId d = Some t /\
  attachRequestedWindowId d = None /\
  detachToRequestedWindowId d = None /\
  dragDetachedWindowId d = Some detached.

(** The two markers of a detach are present together or not at all. *)
Definition detachMarkersTogether (state : AppState) : Prop :=
  forall d, tabDragData state = Some d ->
    has (detachedFromWindowId d) = has (detachToRequestedWindowId d).

End Store.

(** ** The per-window drag controller: [makeDraggableAndDetachable] *)

Module DragController.

Local Open Scope Q_scope.

Definition DRAG_DETACH_PX_THRESHOLD_X : Q := 60.
Definition DRAG_DETACH_MS_TIME_BUFFER : Z := 0.
Definition DRAG_DETACH_PX_THRESHOLD_INITIAL : Q := 44.
Definition DRAG_DETACH_PX_THRESHOLD_POSTSORT : Q := 80.
Definition DRAG_PAGEMOVE_PX_THRESHOLD : Q := 38.

(** [a < b] and [a > b] on numbers. *)
Definition Qlt_bool (a b : Q) : bool := negb (Qle_bool b a).

(** What the handlers receive: a mouse event of the DOM, with all its
    coordinates, or the object literal [{ clientX, clientY }] that the
    component builds itself when it replays the last known pointer position;
    [x] and [y] are undefined on the latter. *)
Inductive MouseEvent : Type :=
| DomMouseEvent (x y clientX clientY screenX screenY : Q)
| ClientPoint (clientX clientY : Q).

Definition clientX (e : MouseEvent) : Q :=
  match e with
  | DomMouseEvent _ _ cx _ _ _ => cx
  | ClientPoint cx _ => cx
  end.

Definition clientY (e : MouseEvent) : Q :=
  match e with
  | DomMouseEvent _ _ _ cy _ _ => cy
  | ClientPoint _ cy => cy
  end.

Definition translateEventFromSendMouseMoveInput (receivedEvent : MouseEvent) : MouseEvent :=
  match receivedEvent with
  | DomMouseEvent x y _ _ screenX screenY =>
      if Qeq_bool x 1 && Qeq_bool y 99
      then ClientPoint screenX screenY
      else receivedEvent
  | ClientPoint _ _ => receivedEvent
  end.

(** The props of the wrapped tab that the drag logic reads.  The two counts
    are sizes of lists ([currentTabs.size], [unpinnedTabs.size]). *)
Record Props : Type := mkProps {
  dragSingleTab : bool;
  dragProcessMoves : bool;
  dragCanDetach : bool;
  relativeXDragStart : Q;
  detachedFromTabX : option Q;
  displayIndex : Z;
  totalTabCount : N;
  firstTabDisplayIndex : Z;
  displayedTabCount : N;
  tabPageIndex : Z
}.

(** [parentClientRect], as [evaluateDraggingTabWidth] of [tab.js] builds it:
    the box spanned by the draggable tabs of the strip, and the width of the
    window. *)
Record ParentClientRect : Type := mkParentClientRect {
  x : Q;
  y : Q;
  left : Q;
  top : Q;
  width : Q;
  height : Q;
  offsetDifference : Q;
  windowWidth : Q
}.

(** The DOM element of the tab, as far as it is read. *)
Record Element : Type := mkElement {
  offsetLeft : Q;
  getBoundingClientRect : Q * Q
}.

(** The fields of the component instance ([this.*]).  [draggingDetachTimeout]
    is the handle returned by [window.setTimeout], of which the code only
    tests whether it is set; [detachTimer] is the browser's side of it: the
    callback that is waiting to run, with the [tabLeft] it closed over,
    [None] once it ran or was cleared. *)
Record Tab : Type := mkTab {
  elementRef : option Element;
  parentClientRect : option ParentClientRect;
  draggingTabWidth : option Q;
  nonDraggingTabWidth : option Q;
  suspendOrderChangeUntilUpdate : bool;
  draggingDetachThreshold : Q;
  draggingDetachTimeout : bool;
  hasRequestedDetach : bool;
  dragTabMouseMoveFrame : bool;
  currentMouseX : option Q;
  singleTabPosition : option (Q * Q);
  detachTimer : option Q
}.

Definition set_suspendOrderChangeUntilUpdate (v : bool) (t : Tab) : Tab :=
  {| elementRef := elementRef t; parentClientRect := parentClientRect t;
     draggingTabWidth := draggingTabWidth t; nonDraggingTabWidth := nonDraggingTabWidth t;
     suspendOrderChangeUntilUpdate := v;
     draggingDetachThreshold := draggingDetachThreshold t;
     draggingDetachTimeout := draggingDetachTimeout t;
     hasRequestedDetach := hasRequestedDetach t;
     dragTabMouseMoveFrame := dragTabMouseMoveFrame t; currentMouseX := currentMouseX t;
     singleTabPosition := singleTabPosition t; detachTimer := detachTimer t |}.

Definition set_draggingDetachThreshold (v : Q) (t : Tab) : Tab :=
  {| elementRef := elementRef t; parentClientRect := parentClientRect t;
     draggingTabWidth := draggingTabWidth t; nonDraggingTabWidth := nonDraggingTabWidth t;
     suspendOrderChangeUntilUpdate := suspendOrderChangeUntilUpdate t;
     draggingDetachThreshold := v; draggingDetachTimeout := draggingDetachTimeout t;
     hasRequestedDetach := hasRequestedDetach t;
     dragTabMouseMoveFrame := dragTabMouseMoveFrame t; currentMouseX := currentMouseX t;
     singleTabPosition := singleTabPosition t; detachTimer := detachTimer t |}.

Definition set_draggingDetachTimeout (v : bool) (t : Tab) : Tab :=
  {| elementRef := elementRef t; parentClientRect := parentClientRect t;
     draggingTabWidth := draggingTabWidth t; nonDraggingTabWidth := nonDraggingTabWidth t;
     suspendOrderChangeUntilUpdate := suspendOrderChangeUntilUpdate t;
     draggingDetachThreshold := draggingDetachThreshold t; draggingDetachTimeout := v;
     hasRequestedDetach := hasRequestedDetach t;
     dragTabMouseMoveFrame := dragTabMouseMoveFrame t; currentMouseX := currentMouseX t;
     singleTabPosition := singleTabPosition t; detachTimer := detachTimer t |}.

Definition set_hasRequestedDetach (v : bool) (t : Tab) : Tab :=
  {| elementRef := elementRef t; parentClientRect := parentClientRect t;
     draggingTabWidth := draggingTabWidth t; nonDraggingTabWidth := nonDraggingTabWidth t;
     suspendOrderChangeUntilUpdate := suspendOrderChangeUntilUpdate t;
     draggingDetachThreshold := draggingDetachThreshold t;
     draggingDetachTimeout := draggingDetachTimeout t; hasRequestedDetach := v;
     dragTabMouseMoveFrame := dragTabMouseMoveFrame t; currentMouseX := currentMouseX t;
     singleTabPosition := singleTabPosition t; detachTimer := detachTimer t |}.

Definition set_dragTabMouseMoveFrame (v : bool) (t : Tab) : Tab :=
  {| elementRef := elementRef t; parentClientRect := parentClientRect t;
     draggingTabWidth := draggingTabWidth t; nonDraggingTabWidth := nonDraggingTabWidth t;
     suspendOrderChangeUntilUpdate := suspendOrderChangeUntilUpdate t;
     draggingDetachThreshold := draggingDetachThreshold t;
     draggingDetachTimeout := draggingDetachTimeout t;
     hasRequestedDetach := hasRequestedDetach t; dragTabMouseMoveFrame := v;
     currentMouseX := currentMouseX t; singleTabPosition := singleTabPosition t;
     detachTimer := detachTimer t |}.

Definition set_currentMouseX (v : option Q) (t : Tab) : Tab :=
  {| elementRef := elementRef t; parentClientRect := parentClientRect t;
     draggingTabWidth := draggingTabWidth t; nonDraggingTabWidth := nonDraggingTabWidth t;
     suspendOrderChangeUntilUpdate := suspendOrderChangeUntilUpdate t;
     draggingDetachThreshold := draggingDetachThreshold t;
     draggingDetachTimeout := draggingDetachTimeout t;
     hasRequestedDetach := hasRequestedDetach t;
     dragTabMouseMoveFrame := dragTabMouseMoveFrame t; currentMouseX := v;
     singleTabPosition := singleTabPosition t; detachTimer := detachTimer t |}.

Definition set_singleTabPosition (v : option (Q * Q)) (t : Tab) : Tab :=
  {| elementRef := elementRef t; parentClientRect := parentClientRect t;
     draggingTabWidth := draggingTabWidth t; nonDraggingTabWidth := nonDraggingTabWidth t;
     suspendOrderChangeUntilUpdate := suspendOrderChangeUntilUpdate t;
     draggingDetachThreshold := draggingDetachThreshold t;
     draggingDetachTimeout := draggingDetachTimeout t;
     hasRequestedDetach := hasRequestedDetach t;
     dragTabMouseMoveFrame := dragTabMouseMoveFrame t; currentMouseX := currentMouseX t;
     singleTabPosition := v; detachTimer := detachTimer t |}.

Definition set_detachTimer (v : option Q) (t : Tab) : Tab :=
  {| elementRef := elementRef t; parentClientRect := parentClientRect t;
     draggingTabWidth := draggingTabWidth t; nonDraggingTabWidth := nonDraggingTabWidth t;
     suspendOrderChangeUntilUpdate := suspendOrderChangeUntilUpdate t;
     draggingDetachThreshold := draggingDetachThreshold t;
     draggingDetachTimeout := draggingDetachTimeout t;
     hasRequestedDetach := hasRequestedDetach t;
     dragTabMouseMoveFrame := dragTabMouseMoveFrame t; currentMouseX := currentMouseX t;
     singleTabPosition := singleTabPosition t; detachTimer := v |}.

Definition set_parentClientRect (v : option ParentClientRect) (t : Tab) : Tab :=
  {| elementRef := elementRef t; parentClientRect := v;
     draggingTabWidth := draggingTabWidth t; nonDraggingTabWidth := nonDraggingTabWidth t;
     suspendOrderChangeUntilUpdate := suspendOrderChangeUntilUpdate t;
     draggingDetachThreshold := draggingDetachThreshold t;
     draggingDetachTimeout := draggingDetachTimeout t;
     hasRequestedDetach := hasRequestedDetach t;
     dragTabMouseMoveFrame := dragTabMouseMoveFrame t; currentMouseX := currentMouseX t;
     singleTabPosition := singleTabPosition t; detachTimer := detachTimer t |}.

Definition set_draggingTabWidth (v : option Q) (t : Tab) : Tab :=
  {| elementRef := elementRef t; parentClientRect := parentClientRect t;
     draggingTabWidth := v; nonDraggingTabWidth := nonDraggingTabWidth t;
     suspendOrderChangeUntilUpdate := suspendOrderChangeUntilUpdate t;
     draggingDetachThreshold := draggingDetachThreshold t;
     draggingDetachTimeout := draggingDetachTimeout t;
     hasRequestedDetach := hasRequestedDetach t;
     dragTabMouseMoveFrame := dragTabMouseMoveFrame t; currentMouseX := currentMouseX t;
     singleTabPosition := singleTabPosition t; detachTimer := detachTimer t |}.

Definition set_nonDraggingTabWidth (v : option Q) (t : Tab) : Tab :=
  {| elementRef := elementRef t; parentClientRect := parentClientRect t;
     draggingTabWidth := draggingTabWidth t; nonDraggingTabWidth := v;
     suspendOrderChangeUntilUpdate := suspendOrderChangeUntilUpdate t;
     draggingDetachThreshold := draggingDetachThreshold t;
     draggingDetachTimeout := draggingDetachTimeout t;
     hasRequestedDetach := hasRequestedDetach t;
     dragTabMouseMoveFrame := dragTabMouseMoveFrame t; currentMouseX := currentMouseX t;
     singleTabPosition := singleTabPosition t; detachTimer := detachTimer t |}.

(** A number that is neither missing nor zero. *)
Definition truthy (o : option Q) : option Q :=
  match o with
  | Some w => if Qeq_bool w 0 then None else Some w
  | None => None
  end.

(** What the component asks of its surroundings: the callbacks passed in as
    props, the animation frame in which [dragTab] moves the element, the
    animation frame in which [evaluateDraggingTabWidth] measures the tab and
    the strip, and the style that positions the element. *)
Inductive Callback : Type :=
| OnRequestDetach (itemX itemY : Q)
| OnDragChangeIndex (props : Props) (destinationIndex : Z)
| OnDragMoveSingleItem (itemX itemY : Q)
| RequestAnimationFrame (e : MouseEvent)
| RequestAnimationFrameEvaluate
| SetDraggingDeltaX (deltaX : Q).

(** What [evaluateDraggingItemAndParentSize] ([evaluateDraggingTabWidth] of
    [tab.js]) returns for the element when it is called: a measurement of
    the DOM. *)
Record ItemSizeDetails : Type := mkItemSizeDetails {
  sizeDraggingTabWidth : Q;
  sizeNonDraggingTabWidth : option Q;
  sizeParentClientRect : option ParentClientRect
}.

(** [evaluateDraggingTabWidth]: nothing without an element, and nothing
    when the evaluation gives nothing. *)
Definition evaluateDraggingTabWidth (itemSizeDetails : option ItemSizeDetails) (t : Tab)
  : Tab :=
  match elementRef t with
  | None => t
  | Some _ =>
      match itemSizeDetails with
      | Some details =>
          set_parentClientRect (sizeParentClientRect details)
            (set_nonDraggingTabWidth (sizeNonDraggingTabWidth details)
               (set_draggingTabWidth (Some (sizeDraggingTabWidth details)) t))
      | None => t
      end
  end.

(** [attachDragSortHandlers]: an animation frame is requested that will
    measure the tab, the threshold starts at its initial value, and the
    element of a tab that is alone in its window is put where the tab was
    detached from.  Registering [onTabDraggingMouseMove] for the mouse moves
    of the window is what makes the [MouseMove] events below occur.  Without
    an element the style cannot be set: the method throws there, after
    everything else is done. *)
Definition attachDragSortHandlers (props : Props) (t : Tab) : Tab * list Callback :=
  let t := set_draggingDetachThreshold DRAG_DETACH_PX_THRESHOLD_INITIAL t in
  (t,
   RequestAnimationFrameEvaluate
   :: match truthy (detachedFromTabX props), elementRef t with
      | Some detachedFromTabX, Some _ =>
          if dragSingleTab props then [SetDraggingDeltaX detachedFromTabX] else []
      | _, _ => []
      end).

Definition detectDragIndexPosition (props : Props) (rect : ParentClientRect)
  (tabWidth dragTabWidth tabLeft : Q) : Z :=
  let lastIndex := (Z.of_N (totalTabCount props) - 1)%Z in
  let tabRight := Number.add tabLeft dragTabWidth in
  if Qlt_bool tabLeft (Number.sub 0 DRAG_PAGEMOVE_PX_THRESHOLD) then
    (* past the pagemove left threshold: last index of the previous page *)
    Z.max 0 (firstTabDisplayIndex props - 1)
  else if Qlt_bool (Number.add (width rect) DRAG_PAGEMOVE_PX_THRESHOLD) tabRight then
    (* past the pagemove right threshold: first index of the next page *)
    Z.min lastIndex (firstTabDisplayIndex props + Z.of_N (displayedTabCount props))
  else
    let groupIndexOfTabLeft :=
      (Qfloor (Number.div (Number.sub tabLeft (Number.div tabWidth 2)) tabWidth) + 1)%Z in
    Z.max 0
      (Z.min (Z.of_N (totalTabCount props) - 1)
         (firstTabDisplayIndex props + groupIndexOfTabLeft)).

Definition isOutsideBounds (rect : ParentClientRect) (draggingDetachThreshold : Q)
  (e : MouseEvent) : bool :=
  Qlt_bool (clientX e) (Number.sub 0 DRAG_DETACH_PX_THRESHOLD_X)
  || Qlt_bool (Number.add (windowWidth rect) DRAG_DETACH_PX_THRESHOLD_X) (clientX e)
  || Qlt_bool (clientY e) (Number.sub (y rect) draggingDetachThreshold)
  || Qlt_bool (Number.add (Number.add (y rect) (height rect)) draggingDetachThreshold)
       (clientY e).

Section Handlers.

(** The reply of the consumer to [props.onDragChangeIndex]: whether it
    will make the change asynchronously. *)
Variable onDragChangeIndex : Props -> Z -> bool.

Definition detectSortChange (props : Props) (t : Tab) (rect : ParentClientRect)
  (tabWidth dragTabWidth tabLeft : Q) : Tab * list Callback :=
  let destinationIndex :=
    detectDragIndexPosition props rect tabWidth dragTabWidth tabLeft in
  let t :=
    if onDragChangeIndex props destinationIndex
    then set_suspendOrderChangeUntilUpdate true t
    else t in
  let t :=
    if negb (displayIndex props =? destinationIndex)%Z
    then set_draggingDetachThreshold DRAG_DETACH_PX_THRESHOLD_POSTSORT t
    else t in
  (t, [OnDragChangeIndex props destinationIndex]).

Definition onTabDraggingMouseMoveDetectSortChange (props : Props) (t : Tab)
  (e : MouseEvent) : Tab * list Callback :=
  match parentClientRect t, truthy (draggingTabWidth t) with
  | Some rect, Some dragTabWidth =>
      if suspendOrderChangeUntilUpdate t then (t, [])
      else
        let tabWidth :=
          match truthy (nonDraggingTabWidth t) with
          | Some w => w
          | None => dragTabWidth
          end in
        let tabLeft :=
          Number.sub (Number.sub (clientX e) (left rect)) (relativeXDragStart props) in
        if dragCanDetach props then
          if isOutsideBounds rect (draggingDetachThreshold t) e then
            (* start a timeout, unless one was started already *)
            if draggingDetachTimeout t then (t, [])
            else (set_detachTimer (Some tabLeft) (set_draggingDetachTimeout true t), [])
          else
            (* not outside, so reset the timer *)
            let t :=
              if draggingDetachTimeout t
              then set_detachTimer None (set_draggingDetachTimeout false t)
              else t in
            detectSortChange props t rect tabWidth dragTabWidth tabLeft
        else detectSortChange props t rect tabWidth dragTabWidth tabLeft
  | _, _ => (t, [])
  end.

(** The callback of the detach timer.  It reads [parentClientRect] when it
    runs, and throws after setting the flag if there is none. *)
Definition detachTimeoutCallback (props : Props) (t : Tab) (tabLeft : Q)
  : Tab * list Callback :=
  let t := set_hasRequestedDetach true t in
  match parentClientRect t with
  | Some rect => (t, [OnRequestDetach tabLeft (top rect)])
  | None => (t, [])
  end.

Definition onTabDraggingMoveSingleTabWindow (props : Props) (t : Tab)
  : Tab * list Callback :=
  match elementRef t with
  | None => (t, [])
  | Some element =>
      let position :=
        match singleTabPosition t with
        | Some position => position
        | None => getBoundingClientRect element
        end in
      (set_singleTabPosition (Some position) t,
       [OnDragMoveSingleItem (fst position) (snd position)])
  end.

(** [throttle(f, 1)] lets a call through at once when the previous one is
    at least 1 ms old; the calls are taken to be that far apart. *)
Definition onTabDraggingMouseMove (props : Props) (t : Tab) (e : MouseEvent)
  : Tab * list Callback :=
  let e := translateEventFromSendMouseMoveInput e in
  let '(t, frame) :=
    if negb (dragSingleTab props) then
      if dragTabMouseMoveFrame t then (t, [])
      else (set_dragTabMouseMoveFrame true t, [RequestAnimationFrame e])
    else (t, []) in
  let '(t, asked) :=
    if dragProcessMoves props then
      if negb (dragSingleTab props) then
        if negb (hasRequestedDetach t)
        then onTabDraggingMouseMoveDetectSortChange props t e
        else (t, [])
      else onTabDraggingMoveSingleTabWindow props t
    else (t, []) in
  (t, frame ++ asked).

Definition dragTab (props : Props) (t : Tab) (e : MouseEvent) : Tab * list Callback :=
  let t := set_currentMouseX (Some (clientX e)) t in
  match elementRef t, parentClientRect t with
  | Some element, Some rect =>
      let t := set_dragTabMouseMoveFrame false t in
      let relativeLeft := relativeXDragStart props in
      let currentX := Number.sub (offsetLeft element) (offsetDifference rect) in
      let deltaX :=
        Number.sub (Number.sub (Number.sub (clientX e) (left rect)) currentX)
          relativeLeft in
      (t, [SetDraggingDeltaX deltaX])
  | _, _ => (t, [])
  end.

(** [componentDidUpdate] after the display index changed mid-drag: the
    element is moved to where the mouse was last seen, and the mouse-move
    handler may compute indexes again. *)
Definition displayIndexChanged (props : Props) (t : Tab) : Tab * list Callback :=
  let '(t, moved) :=
    match truthy (currentMouseX t) with
    | Some mouseX =>
        let '(t, moved) := dragTab props t (ClientPoint mouseX 0) in
        (set_currentMouseX None t, moved)
    | None => (t, [])
    end in
  (set_suspendOrderChangeUntilUpdate false t, moved).

(** What happens to a dragging tab: the mouse-move handler is called (by the
    window for a mouse move, or by an animation frame that replays the last
    known position), an animation frame runs [dragTab], the detach timer runs
    out, the tab is rendered at a new display index, or an animation frame
    requested earlier runs [evaluateDraggingTabWidth], which measures what
    the DOM has then. *)
Inductive Event : Type :=
| MouseMove (e : MouseEvent)
| AnimationFrame (e : MouseEvent)
| DetachTimeout
| DisplayIndexChanged
| EvaluateFrame (itemSizeDetails : option ItemSizeDetails).

Definition step (props : Props) (t : Tab) (ev : Event) : Tab * list Callback :=
  match ev with
  | MouseMove e => onTabDraggingMouseMove props t e
  | AnimationFrame e => dragTab props t e
  | DetachTimeout =>
      match detachTimer t with
      | Some tabLeft => detachTimeoutCallback props (set_detachTimer None t) tabLeft
      | None => (t, [])
      end
  | DisplayIndexChanged => displayIndexChanged props t
  | EvaluateFrame itemSizeDetails => (evaluateDraggingTabWidth itemSizeDetails t, [])
  end.

(** A sequence of events, each with the props the component has then. *)
Fixpoint run (t : Tab) (events : list (Props * Event)) : Tab * list Callback :=
  match events with
  | [] => (t, [])
  | (props, ev) :: events' =>
      let '(t1, asked1) := step props t ev in
      let '(t2, asked2) := run t1 events' in
      (t2, asked1 ++ asked2)
  end.

End Handlers.

Definition isRequestDetach (c : Callback) : bool :=
  match c with
  | OnRequestDetach _ _ => true
  | _ => false
  end.

Definition detachIntents (asked : list Callback) : nat :=
  length (filter isRequestDetach asked).

(** A tab that processes moves: sizes known, not waiting for an index change,
    no detach asked for, over a strip [rect] and with detach threshold
    [threshold]. *)
Definition ready (rect : ParentClientRect) (threshold : Q) (t : Tab) : Prop :=
  parentClientRect t = Some rect /\
  truthy (draggingTabWidth t) <> None /\
  suspendOrderChangeUntilUpdate t = false /\
  draggingDetachThreshold t = threshold /\
  hasRequestedDetach t = false.

(** ... with no detach timer, *)
Definition idle (rect : ParentClientRect) (threshold : Q) (t : Tab) : Prop :=
  ready rect threshold t /\ draggingDetachTimeout t = false /\ detachTimer t = None.

(** ... with the detach timer waiting, *)
Definition armed (rect : ParentClientRect) (threshold : Q) (t : Tab) : Prop :=
  ready rect threshold t /\ draggingDetachTimeout t = true /\ detachTimer t <> None.

(** and a tab that has asked for a detach. *)
Definition detachRequested (t : Tab) : Prop :=
  hasRequestedDetach t = true /\ detachTimer t = None.

(** The props of a tab that is not pinned, is not alone in its window and
    is dragged in the window that processes the moves. *)
Definition sortsAndDetaches (props : Props) : Prop :=
  dragSingleTab props = false /\
  dragProcessMoves props = true /\
  dragCanDetach props = true.

(** The pointer of a mouse move is outside the bounds. *)
Definition outsideOf (rect : ParentClientRect) (threshold : Q) (e : MouseEvent) : bool :=
  isOutsideBounds rect threshold (translateEventFromSendMouseMoveInput e).

Definition mouseMoves (props : Props) (moves : list MouseEvent) : list (Props * Event) :=
  map (fun e => (props, MouseMove e)) moves.

Definition isMouseMove (pe : Props * Event) : bool :=
  match snd pe with
  | MouseMove _ => true
  | _ => false
  end.

(** The page description of the props is sound, and an index is one of a
    tab of the window. *)
Definition pageOk (props : Props) : Prop :=
  (0 <= firstTabDisplayIndex props <= Z.of_N (totalTabCount props) - 1)%Z.

Definition inRange (props : Props) (destinationIndex : Z) : Prop :=
  (0 <= destinationIndex <= Z.of_N (totalTabCount props) - 1)%Z.

(** An index that [detectDragIndexPosition] computes for these props, with
    a tab width that is not zero. *)
Definition computedBy (props : Props) (d : Z) : Prop :=
  exists rect tabWidth dragTabWidth tabLeft,
    ~ tabWidth == 0 /\
    d = detectDragIndexPosition props rect tabWidth dragTabWidth tabLeft.

(** The pointer is outside the bounds of the strip, the box spanned by its
    tabs: by more than 60 px horizontally, or by more than the threshold
    vertically. *)
Definition outsideStripBounds (rect : ParentClientRect) (threshold : Q) (e : MouseEvent)
  : Prop :=
  clientX e < left rect - 60 \/ left rect + width rect + 60 < clientX e \/
  clientY e < y rect - threshold \/ y rect + height rect + threshold < clientY e.

(** The scene of the detach threshold: a strip 30 px high at 100 px from
    the top of a window 1200 px wide, tabs 180 px wide, a tab grabbed 35 px
    from its left edge and not pinned. *)
Definition exampleRect : ParentClientRect :=
  {| x := 70; y := 100; left := 70; top := 100; width := 900; height := 30;
     offsetDifference := 0; windowWidth := 1200 |}.

Definition exampleProps : Props :=
  {| dragSingleTab := false; dragProcessMoves := true; dragCanDetach := true;
     relativeXDragStart := 35; detachedFromTabX := None; displayIndex := 1;
     totalTabCount := 12;
     firstTabDisplayIndex := 0; displayedTabCount := 5; tabPageIndex := 0 |}.

(** The same tab when it is the last one shown on the page. *)
Definition examplePropsAtPageEnd : Props :=
  {| dragSingleTab := false; dragProcessMoves := true; dragCanDetach := true;
     relativeXDragStart := 35; detachedFromTabX := None; displayIndex := 4;
     totalTabCount := 12;
     firstTabDisplayIndex := 0; displayedTabCount := 5; tabPageIndex := 0 |}.

Definition exampleTab : Tab :=
  fst (attachDragSortHandlers exampleProps
    {| elementRef := Some {| offsetLeft := 250; getBoundingClientRect := (250, 100) |};
       parentClientRect := Some exampleRect;
       draggingTabWidth := Some 180;
       nonDraggingTabWidth := Some 180;
       suspendOrderChangeUntilUpdate := false;
       draggingDetachThreshold := 0;
       draggingDetachTimeout := false;
       hasRequestedDetach := false;
       dragTabMouseMoveFrame := false;
       currentMouseX := None;
       singleTabPosition := None;
       detachTimer := None |}).

(** *** The rest of the component *)

(** [removeDragSortHandlers], as far as the fields go that the handlers
    read: sizes and cached position are forgotten, the wait for an index
    change is over, and a detach timer whose handle is set is cleared.  The
    handle itself is left as it is, and so is [hasRequestedDetach].  The
    threshold becomes [null], which counts as 0 in the arithmetic of
    [isOutsideBounds].  The window no longer calls the mouse-move handler,
    but animation frames requested before are not cancelled; the animation
    with which [tabFinishedDragging] lets the element glide back touches
    styles only. *)
Definition removeDragSortHandlers (t : Tab) : Tab :=
  let t := set_draggingTabWidth None t in
  let t := set_parentClientRect None t in
  let t := set_singleTabPosition None t in
  let t := set_suspendOrderChangeUntilUpdate false t in
  if draggingDetachTimeout t
  then set_draggingDetachThreshold 0 (set_detachTimer None t)
  else t.

Definition isChangeIndex (c : Callback) : bool :=
  match c with
  | OnDragChangeIndex _ _ => true
  | _ => false
  end.

Definition isAnimationFrameRequest (c : Callback) : bool :=
  match c with
  | RequestAnimationFrame _ => true
  | _ => false
  end.

Definition isMoveSingleItem (c : Callback) : bool :=
  match c with
  | OnDragMoveSingleItem _ _ => true
  | _ => false
  end.

(** The timer and its handle agree: a callback is waiting only while the
    handle is set. *)
Definition timerHasHandle (t : Tab) : Prop :=
  detachTimer t <> None -> draggingDetachTimeout t = true.

Definition isEvaluateFrame (pe : Props * Event) : bool :=
  match snd pe with
  | EvaluateFrame _ => true
  | _ => false
  end.
End DragController.

(** ** The tab strip coordinator: paging during a drag, [tabs.js] *)

Module TabStrip.
Import DragController.

(** time to wait before moving page during a tab drag *)
Definition DRAG_PAGEMOVE_MS_TIME_BUFFER : Z := 1000.

(** The actions the strip dispatches ([windowActions], [appActions]). *)
Inductive Dispatched : Type :=
| tabDragChangeGroupDisplayIndex (isPinned : bool) (destinationIndex : Z)
| tabDragPausingForPageChange (pageIndex : Z)
| tabDragNotPausingForPageChange
| tabDragDetachRequested (itemX itemY : Q)
| tabDragSingleTabMoved (itemX itemY : Q) (windowId : Z).

Definition onRequestDetachTab (itemX itemY : Q) : list Dispatched :=
  [tabDragDetachRequested itemX itemY].

Definition onDragMoveSingleTabWindow (getCurrentWindowId : Z) (itemX itemY : Q)
  : list Dispatched :=
  [tabDragSingleTabMoved itemX itemY getCurrentWindowId].

(** [draggingMoveTabPageTimeout]: the pending page change, if any, with the
    time at which its timer is due and the destination its callback closed
    over.  The callback clears the variable itself, so the variable is set
    exactly while the timer is waiting. *)
Record PageMove : Type := mkPageMove {
  due : Z;
  destination : Z
}.

Definition clearDragPageIndexMoveTimeout (draggingMoveTabPageTimeout : option PageMove)
  : option PageMove * list Dispatched :=
  match draggingMoveTabPageTimeout with
  | Some _ => (None, [tabDragNotPausingForPageChange])
  | None => (None, [])
  end.

Definition beginOrContinueTimeoutForDragPageIndexMove (now : Z)
  (destinationIndex currentTabPageIndex firstTabDisplayIndex : Z)
  (draggingMoveTabPageTimeout : option PageMove)
  : option PageMove * list Dispatched :=
  match draggingMoveTabPageTimeout with
  | None =>
      let waitingForPageIndex :=
        currentTabPageIndex + (if destinationIndex >? firstTabDisplayIndex then 1 else -1) in
      (Some {| due := now + DRAG_PAGEMOVE_MS_TIME_BUFFER; destination := destinationIndex |},
       [tabDragPausingForPageChange waitingForPageIndex])
  | Some pending => (Some pending, [])
  end.

(** The callback of the page-change timer. *)
Definition pageMoveTimeoutCallback (pending : PageMove)
  (draggingMoveTabPageTimeout : option PageMove) : option PageMove * list Dispatched :=
  let '(timeout, notPausing) := clearDragPageIndexMoveTimeout draggingMoveTabPageTimeout in
  (timeout, notPausing ++ [tabDragChangeGroupDisplayIndex false (destination pending)]).

Definition onDragChangeIndex (now : Z) (props : Props) (destinationIndex : Z)
  (draggingMoveTabPageTimeout : option PageMove)
  : bool * option PageMove * list Dispatched :=
  if negb (displayIndex props =? destinationIndex) then
    (* only allow to drag to a different page if we hang here for a while *)
    let lastIndexOnCurrentPage :=
      firstTabDisplayIndex props + Z.of_N (displayedTabCount props) - 1 in
    let firstIndexOnCurrentPage := firstTabDisplayIndex props in
    let isDraggingToPreviousPage := destinationIndex <? firstIndexOnCurrentPage in
    let isDraggingToNextPage := destinationIndex >? lastIndexOnCurrentPage in
    let isDraggingToDifferentPage := isDraggingToPreviousPage || isDraggingToNextPage in
    if isDraggingToDifferentPage then
      (* first, make sure the tab has moved to the index just next to the threshold *)
      let '(shouldPauseDraggingUntilUpdate, moved) :=
        if isDraggingToNextPage && negb (displayIndex props =? lastIndexOnCurrentPage) then
          (true, [tabDragChangeGroupDisplayIndex false lastIndexOnCurrentPage])
        else if isDraggingToPreviousPage
                && negb (displayIndex props =? firstIndexOnCurrentPage) then
          (true, [tabDragChangeGroupDisplayIndex false firstIndexOnCurrentPage])
        else (false, []) in
      (* make sure the user wants to change page by enforcing a pause *)
      let '(timeout, pausing) :=
        beginOrContinueTimeoutForDragPageIndexMove now destinationIndex
          (tabPageIndex props) (firstTabDisplayIndex props) draggingMoveTabPageTimeout in
      (shouldPauseDraggingUntilUpdate, timeout, moved ++ pausing)
    else
      (* a different index within the same page: move immediately *)
      let '(timeout, notPausing) :=
        clearDragPageIndexMoveTimeout draggingMoveTabPageTimeout in
      (true, timeout, notPausing ++ [tabDragChangeGroupDisplayIndex false destinationIndex])
  else
    (* no longer want to change tab page *)
    let '(timeout, notPausing) :=
      clearDragPageIndexMoveTimeout draggingMoveTabPageTimeout in
    (false, timeout, notPausing).

(** The reply handed back to the drag controller. *)
Definition reply (props : Props) (destinationIndex : Z) : bool :=
  fst (fst (onDragChangeIndex 0 props destinationIndex None)).

(** What happens to the strip during a drag, at a time in milliseconds: the
    drag controller asks for a destination index, or the event loop gets to
    run whatever timer is due. *)
Inductive Event : Type :=
| DragChangeIndex (props : Props) (destinationIndex : Z)
| Timers.

Definition step (now : Z) (timeout : option PageMove) (ev : Event)
  : option PageMove * list Dispatched :=
  match ev with
  | DragChangeIndex props destinationIndex =>
      let '(_, timeout', dispatched) :=
        onDragChangeIndex now props destinationIndex timeout in
      (timeout', dispatched)
  | Timers =>
      match timeout with
      | Some pending =>
          if due pending <=? now
          then pageMoveTimeoutCallback pending timeout
          else (timeout, [])
      | None => (None, [])
      end
  end.

Fixpoint run (timeout : option PageMove) (events : list (Z * Event))
  : option PageMove * list Dispatched :=
  match events with
  | [] => (timeout, [])
  | (now, ev) :: events' =>
      let '(timeout1, dispatched1) := step now timeout ev in
      let '(timeout2, dispatched2) := run timeout1 events' in
      (timeout2, dispatched1 ++ dispatched2)
  end.

(** The display index the tab is at once the dispatched index changes have
    been carried out, when it was at [displayIndex] before. *)
Fixpoint displayIndexAfter (displayIndex : Z) (dispatched : list Dispatched) : Z :=
  match dispatched with
  | [] => displayIndex
  | tabDragChangeGroupDisplayIndex _ destinationIndex :: dispatched' =>
      displayIndexAfter destinationIndex dispatched'
  | _ :: dispatched' => displayIndexAfter displayIndex dispatched'
  end.

Definition changesIndexTo (dispatched : list Dispatched) : list Z :=
  flat_map
    (fun a => match a with
              | tabDragChangeGroupDisplayIndex _ destinationIndex => [destinationIndex]
              | _ => []
              end)
    dispatched.

Definition isTimers (ev : Z * Event) : bool :=
  match snd ev with
  | Timers => true
  | DragChangeIndex _ _ => false
  end.

(** *** Counting what the strip dispatches *)

Definition isPausing (a : Dispatched) : bool :=
  match a with
  | tabDragPausingForPageChange _ => true
  | _ => false
  end.

Definition isNotPausing (a : Dispatched) : bool :=
  match a with
  | tabDragNotPausingForPageChange => true
  | _ => false
  end.

Definition pausings (dispatched : list Dispatched) : nat :=
  length (filter isPausing dispatched).

Definition notPausings (dispatched : list Dispatched) : nat :=
  length (filter isNotPausing dispatched).

(** 1 while a page change is pending, 0 otherwise. *)
Definition waiting (timeout : option PageMove) : nat :=
  match timeout with
  | Some _ => 1
  | None => 0
  end.

(** The destination is on another page than the one displayed. *)
Definition onAnotherPage (props : Props) (destinationIndex : Z) : Prop :=
  destinationIndex < firstTabDisplayIndex props \/
  firstTabDisplayIndex props + Z.of_N (displayedTabCount props) - 1 < destinationIndex.

End TabStrip.

(** ** The pages of the tab strip: [mergeProps] and the page buttons of [tabs.js] *)

Module TabsPaging.

Local Open Scope nat_scope.

(** The props of [Tabs] that describe the page.  The page index and the
    number of tabs per page are counts; the tabs are frame records of any
    kind. *)
Record PageProps (A : Type) : Type := mkPageProps {
  currentTabs : list A;
  partOfFullPageSet : bool;
  onNextPage : bool;
  onPreviousPage : bool;
  firstTabDisplayIndex : nat;
  totalTabCount : nat;
  totalPages : nat
}.

Arguments currentTabs {A} _.
Arguments partOfFullPageSet {A} _.
Arguments onNextPage {A} _.
Arguments onPreviousPage {A} _.
Arguments firstTabDisplayIndex {A} _.
Arguments totalTabCount {A} _.
Arguments totalPages {A} _.

(** [Math.ceil(size / tabsPerTabPage)] for a positive [tabsPerTabPage]. *)
Definition ceilDiv (size tabsPerTabPage : nat) : nat :=
  (size + tabsPerTabPage - 1) / tabsPerTabPage.

(** [list.slice(begin, end)] for [0 <= begin <= end]. *)
Definition slice {A : Type} (l : list A) (first last : nat) : list A :=
  firstn (last - first) (skipn first l).

(** [mergeProps]: the slice of the unpinned tabs that the page shows.  The
    frames are objects, so [.filter(tab => tab)] keeps them all. *)
Definition mergeProps {A : Type} (pageIndex tabsPerTabPage : nat) (unpinnedTabs : list A)
  : PageProps A :=
  let startingFrameIndex := pageIndex * tabsPerTabPage in
  let currentTabs := slice unpinnedTabs startingFrameIndex
                       (startingFrameIndex + tabsPerTabPage) in
  let totalPages := ceilDiv (length unpinnedTabs) tabsPerTabPage in
  {| currentTabs := currentTabs;
     partOfFullPageSet := length currentTabs =? tabsPerTabPage;
     onNextPage := (tabsPerTabPage <=? length currentTabs) && (pageIndex + 1 <? totalPages);
     onPreviousPage := 0 <? pageIndex;
     firstTabDisplayIndex := startingFrameIndex;
     totalTabCount := length unpinnedTabs;
     totalPages := totalPages |}.

(** What [render] hands to the tab at position [tabDisplayIndex] of the
    page, written into the props the drag controller reads. *)
Definition tabProps {A : Type} (page : PageProps A) (tabDisplayIndex : nat)
  (displayedTabIndex : nat) (others : DragController.Props) : DragController.Props :=
  {| DragController.dragSingleTab := DragController.dragSingleTab others;
     DragController.dragProcessMoves := DragController.dragProcessMoves others;
     DragController.dragCanDetach := DragController.dragCanDetach others;
     DragController.relativeXDragStart := DragController.relativeXDragStart others;
     DragController.detachedFromTabX := DragController.detachedFromTabX others;
     DragController.displayIndex :=
       Z.of_nat (tabDisplayIndex + firstTabDisplayIndex page);
     DragController.totalTabCount := N.of_nat (totalTabCount page);
     DragController.firstTabDisplayIndex := Z.of_nat (firstTabDisplayIndex page);
     DragController.displayedTabCount := N.of_nat (length (currentTabs page));
     DragController.tabPageIndex := Z.of_nat displayedTabIndex |}.

(** The click handlers [onPrevPage] and [onNextPage] of the page buttons:
    the page index handed to [windowActions.setTabPageIndex], if any.  The
    second one is named [onNextPageClick] here, [onNextPage] being the prop
    of the same name above. *)
Definition onPrevPage (tabPageIndex : nat) : option nat :=
  if tabPageIndex =? 0 then None else Some (tabPageIndex - 1).

Definition onNextPageClick (tabPageIndex totalPages : nat) : option nat :=
  if tabPageIndex + 1 =? totalPages then None else Some (tabPageIndex + 1).

End TabsPaging.

(** ** The drag props of a tab: [mergeStateToDraggableProps] of [tab.js] *)

Module DraggableTab.
Import Store.

Section Props.

(** [tabState.isTabDragging(state, tabId)]; [tabState] is not part of the
    sources, so the props are defined for any such test. *)
Variable isTabDragging : AppState -> TabId -> bool.

Definition dragIntendedWindowId (state : AppState) : option WindowId :=
  match tabDragData state with
  | Some dragSourceData => Some (currentWindowId dragSourceData)
  | None => None
  end.

(** [props.dragProcessMoves] of the tab [tabId] rendered in window
    [windowId]: whether the tab reacts to the mouse moves of the drag by
    asking for index changes or detaches. *)
Definition dragProcessMoves (state : AppState) (windowId : WindowId) (tabId : TabId)
  : bool :=
  match tabDragData state with
  | Some dragSourceData =>
      if isTabDragging state tabId then
        negb (has (attachRequestedWindowId dragSourceData))
        && negb (has (detachedFromWindowId dragSourceData))
        && (currentWindowId dragSourceData =? windowId)
        && (getWindowId state (Some tabId) =? windowId)
      else false
  | None => false
  end.

End Props.

(** A test that takes the dragged tab to be the one the session names. *)
Definition exampleIsTabDragging (state : AppState) (tabId : TabId) : bool :=
  match getSourceTabId state with
  | Some sourceTabId => sourceTabId =? tabId
  | None => false
  end.

End DraggableTab.

(** * Properties of the number model *)

Module NumberFacts.
Import Number.

Local Open Scope Q_scope.

Lemma pow2_pos e : 0 < pow2 e.
Proof. apply Qpower_0_lt. reflexivity. Qed.

Lemma pow2_add a b : pow2 (a + b) == pow2 a * pow2 b.
Proof. apply Qpower_plus. discriminate. Qed.

Lemma pow2_succ a : pow2 (a + 1) == 2 * pow2 a.
Proof. rewrite pow2_add. unfold pow2 at 2. rewrite Qpower_1_r. ring. Qed.

Lemma pow2_le a b : (a <= b)%Z -> pow2 a <= pow2 b.
Proof. intros H. apply Qpower_le_compat_l; [ exact H | discriminate ]. Qed.

Lemma pow2_inject (k : Z) : (0 <= k)%Z -> inject_Z (2 ^ k) == pow2 k.
Proof. intros H. unfold pow2. now rewrite Zpower_Qpower. Qed.

Lemma bracket_aux (x N D A B P : Q) :
  0 < D -> x * D == N -> 0 < B -> 0 < P -> P * B == A ->
  A <= N -> N < 2 * A -> B <= D -> D < 2 * B ->
  x < 2 * P /\ P <= 2 * x.
Proof.
  intros HD Hx HB HP HA H1 H2 H3 H4. split.
  - (* x*D = N < 2A = 2PB <= 2PD *)
    apply Qnot_le_lt. intros Hc.
    assert (2 * P * D <= x * D) by (apply Qmult_le_compat_r; [ exact Hc | lra ]).
    assert (P * B <= P * D) by (rewrite !(Qmult_comm P); apply Qmult_le_compat_r; lra).
    lra.
  - apply Qnot_lt_le. intros Hc.
    assert (2 * x * D <= P * D) by (apply Qmult_le_compat_r; lra).
    assert (P * D < P * (2 * B)) by (rewrite !(Qmult_comm P); apply Qmult_lt_compat_r; lra).
    lra.
Qed.

Lemma ilog2_bracket q :
  0 < q -> pow2 (ilog2 q) <= q /\ q < pow2 (ilog2 q + 1).
Proof.
  intros Hq. destruct q as [n d].
  assert (Hn : (0 < n)%Z) by (unfold Qlt in Hq; simpl in Hq; lia).
  unfold ilog2. cbn [Qnum Qden].
  set (a := Z.log2 n). set (b := Z.log2 (Zpos d)).
  assert (Ha : (0 <= a)%Z) by apply Z.log2_nonneg.
  assert (Hb : (0 <= b)%Z) by apply Z.log2_nonneg.
  destruct (Z.log2_spec n Hn) as [Ha1 Ha2]. fold a in Ha1, Ha2.
  destruct (Z.log2_spec (Zpos d) (Pos2Z.is_pos d)) as [Hb1 Hb2]. fold b in Hb1, Hb2.
  rewrite <- Z.add_1_r in Ha2, Hb2.
  assert (HA1 : pow2 a <= inject_Z n)
    by (rewrite <- pow2_inject by lia; now rewrite <- Zle_Qle).
  assert (HA2 : inject_Z n < pow2 (a + 1))
    by (rewrite <- pow2_inject by lia; now rewrite <- Zlt_Qlt).
  assert (HB1 : pow2 b <= inject_Z (Zpos d))
    by (rewrite <- pow2_inject by lia; now rewrite <- Zle_Qle).
  assert (HB2 : inject_Z (Zpos d) < pow2 (b + 1))
    by (rewrite <- pow2_inject by lia; now rewrite <- Zlt_Qlt).
  rewrite pow2_succ in HA2, HB2.
  assert (HD : 0 < inject_Z (Zpos d)) by (rewrite <- (Zlt_Qlt 0); lia).
  assert (Hx : (n # d) * inject_Z (Zpos d) == inject_Z n).
  { rewrite (Qmake_Qdiv n d). field. lra. }
  pose proof (pow2_pos b) as Pb. pose proof (pow2_pos (a - b)) as Pab.
  assert (E : pow2 (a - b) * pow2 b == pow2 a).
  { rewrite <- pow2_add. now replace (a - b + b)%Z with a by lia. }
  destruct (bracket_aux (n # d) (inject_Z n) (inject_Z (Zpos d)) (pow2 a) (pow2 b)
              (pow2 (a - b)) HD Hx Pb Pab E HA1 HA2 HB1 HB2) as [Hup Hlow].
  destruct (Qle_bool (pow2 (a - b)) (n # d)) eqn:Ecmp.
  - apply Qle_bool_iff in Ecmp. split; [ exact Ecmp | ].
    now rewrite pow2_succ.
  - assert (Hlt : n # d < pow2 (a - b)).
    { apply Qnot_le_lt. intros Hc. apply Qle_bool_iff in Hc. congruence. }
    replace (a - b - 1 + 1)%Z with (a - b)%Z by lia.
    split; [ | exact Hlt ].
    assert (E2 : pow2 (a - b) == 2 * pow2 (a - b - 1)).
    { rewrite <- pow2_succ. now replace (a - b - 1 + 1)%Z with (a - b)%Z by lia. }
    lra.
Qed.

Lemma roundHalfEven_spec x :
  Qabs (inject_Z (roundHalfEven x) - x) <= 1 # 2 /\
  (Qabs (inject_Z (roundHalfEven x) - x) == 1 # 2 -> Z.even (roundHalfEven x) = true) /\
  (forall k : Z, inject_Z k <= x -> (k <= roundHalfEven x)%Z) /\
  (forall k : Z, x <= inject_Z k -> (roundHalfEven x <= k)%Z).
Proof.
  unfold roundHalfEven.
  pose proof (Qfloor_le x) as Hle. pose proof (Qlt_floor x) as Hlt.
  set (f := Qfloor x) in *.
  rewrite inject_Z_plus in Hlt. change (inject_Z 1) with 1 in Hlt.
  assert (Hbelow : forall k : Z, inject_Z k <= x -> (k <= f)%Z).
  { intros k Hk. apply Z.lt_succ_r. rewrite Zlt_Qlt.
    unfold Z.succ. rewrite inject_Z_plus. change (inject_Z 1) with 1. lra. }
  assert (Habove : forall k : Z, x <= inject_Z k -> (f <= k)%Z).
  { intros k Hk. rewrite Zle_Qle. lra. }
  assert (Habove' : forall k : Z, x <= inject_Z k -> ~ x == inject_Z f -> (f + 1 <= k)%Z).
  { intros k Hk Hne.
    assert (inject_Z f < inject_Z k) by lra.
    rewrite <- Zlt_Qlt in H. lia. }
  destruct (x - inject_Z f ?= 1 # 2) eqn:Ecmp.
  - apply Qeq_alt in Ecmp.
    destruct (Z.even f) eqn:Eeven.
    + repeat split.
      * apply Qabs_case; intros; lra.
      * intros _. exact Eeven.
      * exact Hbelow.
      * exact Habove.
    + rewrite inject_Z_plus. change (inject_Z 1) with 1. repeat split.
      * apply Qabs_case; intros; lra.
      * intros _. rewrite Z.even_add, Eeven. reflexivity.
      * intros k Hk. specialize (Hbelow k Hk). lia.
      * intros k Hk. apply Habove'; [ exact Hk | lra ].
  - apply Qlt_alt in Ecmp. repeat split.
    + apply Qabs_case; intros; lra.
    + intros Hc. revert Hc. apply Qabs_case; intros; lra.
    + exact Hbelow.
    + exact Habove.
  - apply Qgt_alt in Ecmp.
    rewrite inject_Z_plus. change (inject_Z 1) with 1. repeat split.
    + apply Qabs_case; intros; lra.
    + intros Hc. revert Hc. apply Qabs_case; intros; lra.
    + intros k Hk. specialize (Hbelow k Hk). lia.
    + intros k Hk. apply Habove'; [ exact Hk | lra ].
Qed.

(** [round] is rounding to the nearest binary64 value, ties to even, below
    the overflow threshold.  For a positive [q] of binary exponent [e], the
    binary64 values around [q] are the multiples of
    [ulp = 2 ^ max (e - 52) (-1074)] with a factor of at most 53 bits;
    [round q] is such a multiple, no other multiple is nearer to [q]
    (the distance is at most half an [ulp]), and when [q] is half-way
    between two of them the factor chosen is even. *)
Theorem round_nearest_even q :
  0 < q ->
  let e := ilog2 q in
  let ulp := pow2 (Z.max (e - 52) (-1074)) in
  pow2 e <= q /\ q < pow2 (e + 1) /\
  exists m : Z,
    round q == inject_Z m * ulp /\
    Qabs (round q - q) <= ulp / 2 /\
    (Qabs (round q - q) == ulp / 2 -> Z.even m = true) /\
    (0 <= m <= 2 ^ 53)%Z.
Proof.
  intros Hq e ulp.
  destruct (ilog2_bracket q Hq) as [Hlow Hup]. fold e in Hlow, Hup.
  split; [ exact Hlow | ]. split; [ exact Hup | ].
  assert (Hulp : 0 < ulp) by apply pow2_pos.
  assert (Habs : Qabs q = q).
  { destruct q as [n d]. unfold Qlt in Hq. simpl in Hq.
    unfold Qabs. f_equal. lia. }
  exists (roundHalfEven (q / ulp)).
  assert (Hround : round q == inject_Z (roundHalfEven (q / ulp)) * ulp).
  { unfold round. rewrite Habs. fold e. fold ulp.
    assert (Hc : (q ?= 0) = Gt) by now apply Qgt_alt.
    rewrite Hc. apply Qred_correct. }
  destruct (roundHalfEven_spec (q / ulp)) as (Hnear & Htie & Hbelow & Habove).
  set (m := roundHalfEven (q / ulp)) in *.
  assert (Hdiff : round q - q == (inject_Z m - q / ulp) * ulp).
  { rewrite Hround. field. lra. }
  assert (Hmul : Qabs (round q - q) == Qabs (inject_Z m - q / ulp) * ulp).
  { rewrite Hdiff, Qabs_Qmult. rewrite (Qabs_pos ulp) by lra. reflexivity. }
  assert (Hhalf : ulp / 2 == (1 # 2) * ulp) by field.
  rewrite Hhalf.
  split; [ exact Hround | ]. split; [ | split ].
  - rewrite Hmul.
    assert (Qabs (inject_Z m - q / ulp) * ulp <= (1 # 2) * ulp)
      by (apply Qmult_le_compat_r; [ exact Hnear | lra ]).
    lra.
  - intros Hc. apply Htie. rewrite Hmul in Hc.
    apply (Qmult_inj_r _ _ ulp); [ lra | exact Hc ].
  - split.
    + apply (Hbelow 0%Z). change (inject_Z 0) with 0.
      apply Qle_shift_div_l; [ exact Hulp | lra ].
    + apply (Habove (2 ^ 53)%Z).
      apply Qle_shift_div_r; [ exact Hulp | ].
      assert (Hge : pow2 (e - 52) <= ulp) by (apply pow2_le; lia).
      assert (E53 : inject_Z (2 ^ 53) * pow2 (e - 52) == pow2 (e + 1)).
      { rewrite pow2_inject by lia. rewrite <- pow2_add.
        now replace (53 + (e - 52))%Z with (e + 1)%Z by lia. }
      assert (inject_Z (2 ^ 53) * pow2 (e - 52) <= inject_Z (2 ^ 53) * ulp).
      { rewrite !(Qmult_comm (inject_Z (2 ^ 53))).
        apply Qmult_le_compat_r; [ exact Hge | ]. now rewrite <- (Zle_Qle 0). }
      lra.
Qed.

Lemma round_opp q : round (- q) = - round q.
Proof.
  unfold round.
  assert (Habs : Qabs (- q) = Qabs q).
  { destruct q as [n d]. unfold Qabs, Qopp. simpl. f_equal. lia. }
  rewrite Habs.
  destruct (q ?= 0) eqn:Ec.
  - apply Qeq_alt in Ec.
    assert (Ec' : (- q ?= 0) = Eq) by (apply (proj1 (Qeq_alt _ _)); lra). now rewrite Ec'.
  - apply Qlt_alt in Ec.
    assert (Ec' : (- q ?= 0) = Gt) by (apply (proj1 (Qgt_alt _ _)); lra). rewrite Ec'.
    destruct (Qred _) as [n d]. unfold Qopp. simpl. f_equal. lia.
  - apply Qgt_alt in Ec.
    assert (Ec' : (- q ?= 0) = Lt) by (apply (proj1 (Qlt_alt _ _)); lra). now rewrite Ec'.
Qed.

End NumberFacts.

(** *** The number model and the machine *)

Module Binary64Facts.
Import PrimFloat Binary64.

#[local] Set Warnings "-inexact-float".

(** On the samples the operations of [Number] give what the machine gives. *)
Lemma operations_agree_with_binary64 :
  forallb (agrees PrimFloat.add Number.add) samples = true /\
  forallb (agrees PrimFloat.sub Number.sub) samples = true /\
  forallb (agrees PrimFloat.div Number.div) samples = true.
Proof. repeat split; vm_compute; reflexivity. Qed.

(** A decimal literal stands for the binary64 value nearest to it. *)
Lemma literal_agrees_with_binary64 :
  Number.ofFloat 270.8%float = Some (Number.literal (2708 # 10)) /\
  Number.ofFloat 876.2%float = Some (Number.literal (8762 # 10)) /\
  Number.ofFloat 43.6%float = Some (Number.literal (436 # 10)) /\
  Number.ofFloat 0.1%float = Some (Number.literal (1 # 10)).
Proof. repeat split; vm_compute; reflexivity. Qed.

(** Integers up to 2^53 in magnitude and binary fractions are numbers as
    they are; 2^53 + 1 is not. *)
Lemma round_exact_samples :
  Number.round 0 = 0%Q /\ Number.round 1 = 1%Q /\ Number.round (- (60)) = (- (60))%Q /\
  Number.round 9007199254740992 = 9007199254740992%Q /\
  Number.round (3 # 8) = (3 # 8)%Q /\
  Number.round 9007199254740993 = 9007199254740992%Q.
Proof. repeat split; vm_compute; reflexivity. Qed.

End Binary64Facts.

(** * Properties of the drag state store *)

Module StoreFacts.
Import Store.

Lemma has_true_iff {A : Type} (o : option A) : has o = true <-> o <> None.
Proof. destruct o; simpl; split; congruence. Qed.

Lemma has_false_iff {A : Type} (o : option A) : has o = false <-> o = None.
Proof. destruct o; simpl; split; congruence. Qed.

Lemma updateIn_some f state d :
  tabDragData state = Some d ->
  updateIn f state = set_tabDragData (Some (f d)) state.
Proof. intros H. unfold updateIn. now rewrite H. Qed.

Lemma set_tabDragData_same state :
  set_tabDragData (tabDragData state) state = state.
Proof. now destruct state. Qed.

(** C3: with an active session, an index change sent by a window other than
    the session's current window returns the state as it was and issues
    nothing: no field is written, no reindex is scheduled. *)
Theorem C3_stale_window_guard :
  forall env state d senderWindowId destinationDisplayIndex destinationFrameIndex
         requiresMouseUpdate,
    tabDragData state = Some d ->
    senderWindowId <> currentWindowId d ->
    reducer env state
      (APP_TAB_DRAG_CHANGE_WINDOW_DISPLAY_INDEX senderWindowId destinationDisplayIndex
         destinationFrameIndex requiresMouseUpdate)
    = Returned state [].
Proof.
  intros env state d sender ddi dfi rmu Hd Hne.
  unfold reducer. rewrite Hd.
  destruct (sourceTabId d); [ | reflexivity ].
  destruct (has (attachRequestedWindowId d) || has (detachToRequestedWindowId d));
    [ reflexivity | ].
  apply Z.eqb_neq in Hne. now rewrite Hne.
Qed.


(** Case analysis on whatever a stuck [match] or [if] of the reducer is
    waiting for. *)
Ltac break_match_hyp H :=
  match type of H with
  | context [match ?e with _ => _ end] =>
      let E := fresh "E" in destruct e eqn:E
  end.

Ltac break_match_goal :=
  match goal with
  | |- context [match ?e with _ => _ end] =>
      let E := fresh "E" in destruct e eqn:E
  end.

Ltac returned H := inversion H; subst; clear H.

Lemma reducer_markersPaired env state action state' fx :
  reducer env state action = Returned state' fx ->
  markersPaired state -> markersPaired state'.
Proof.
  intros H Inv d' Hd'.
  destruct action; unfold reducer, getSourceTabId, getDragData,
    getDragDetachedWindowId, delete in H;
    repeat break_match_hyp H; try discriminate; returned H;
    try (now apply Inv);
    try (erewrite updateIn_some in Hd' by eassumption);
    simpl in Hd'; try discriminate;
    try (injection Hd' as <-; simpl; try reflexivity; try congruence;
         try (now apply Inv)).
Qed.

Lemma reachable_markersPaired state : reachable state -> markersPaired state.
Proof.
  induction 1 as [tabs0 | env state action state' fx _ IH Hstep | state tabs' _ IH].
  - intros d Hd. discriminate.
  - eapply reducer_markersPaired; eassumption.
  - intros d Hd. simpl in Hd. now apply IH.
Qed.

(** The two handlers, when one of the markers they test is present. *)
Lemma change_index_ignored_while_pending env state d sender ddi dfi rmu :
  tabDragData state = Some d ->
  attachOrDetachPending d = true ->
  reducer env state (APP_TAB_DRAG_CHANGE_WINDOW_DISPLAY_INDEX sender ddi dfi rmu)
  = Returned state [].
Proof.
  intros Hd Hp. unfold attachOrDetachPending in Hp.
  unfold reducer. rewrite Hd. destruct (sourceTabId d); [ | reflexivity ].
  now rewrite Hp.
Qed.

Lemma single_tab_moved_ignored_while_pending env state d tabX tabY windowId :
  tabDragData state = Some d ->
  attachOrDetachPending d = true ->
  reducer env state (APP_TAB_DRAG_SINGLE_TAB_MOVED tabX tabY windowId)
  = Returned state [].
Proof.
  intros Hd Hp. unfold attachOrDetachPending in Hp.
  unfold reducer. rewrite Hd.
  destruct (has (attachRequestedWindowId d)); [ reflexivity | ].
  destruct (has (detachRequestedWindowId d)); [ reflexivity | ].
  simpl in Hp. now rewrite Hp.
Qed.


(** C4: in every state the store can reach, as soon as one of the markers
    [attachRequestedWindowId], [detachToRequestedWindowId],
    [detachedFromWindowId] is present on the session, an index change and a
    single-tab move leave the state as it is and schedule nothing. *)
Theorem C4_requested_markers_defer_moves :
  forall state d,
    reachable state ->
    tabDragData state = Some d ->
    anyRequestedMarker d = true ->
    forall env,
      (forall senderWindowId destinationDisplayIndex destinationFrameIndex
              requiresMouseUpdate,
          reducer env state
            (APP_TAB_DRAG_CHANGE_WINDOW_DISPLAY_INDEX senderWindowId
               destinationDisplayIndex destinationFrameIndex requiresMouseUpdate)
          = Returned state [])
      /\
      (forall tabX tabY windowId,
          reducer env state (APP_TAB_DRAG_SINGLE_TAB_MOVED tabX tabY windowId)
          = Returned state []).
Proof.
  intros state d Hreach Hd Hmark env.
  assert (Hp : attachOrDetachPending d = true).
  { unfold anyRequestedMarker in Hmark. unfold attachOrDetachPending.
    apply orb_true_iff in Hmark as [Hmark | Hfrom]; [ exact Hmark | ].
    apply (reachable_markersPaired state Hreach d Hd) in Hfrom.
    rewrite Hfrom. apply orb_true_r. }
  split; intros.
  - now apply change_index_ignored_while_pending with (d := d).
  - now apply single_tab_moved_ignored_while_pending with (d := d).
Qed.


(** Once a confirmation has been applied, neither marker is left when only
    the one it confirms was pending. *)
Lemma attach_confirmation_applied env state d target pt :
  tabDragData state = Some d ->
  attachRequestedWindowId d = Some target ->
  getWindowId state (sourceTabId d) = target ->
  getWindowClientPointAtCursor env target = Some pt ->
  reducer env state APP_TAB_ATTACHED
  = Returned
      (set_tabDragData
         (Some (set_dragWindowClientY (Some (y pt))
                  (set_dragWindowClientX (Some (x pt))
                     (set_currentWindowId target
                        (set_dragDetachedWindowId None
                           (set_displayIndexRequested None
                              (set_attachRequestedWindowId None d)))))))
         state)
      [].
Proof.
  intros Hd Ha Hw Hpt. unfold reducer. rewrite Hd, Ha, Hw, Z.eqb_refl. simpl.
  rewrite Hpt. now rewrite (updateIn_some _ state d Hd).
Qed.

Lemma detach_confirmation_applied env state d target :
  tabDragData state = Some d ->
  attachRequestedWindowId d = None ->
  detachToRequestedWindowId d = Some target ->
  getWindowId state (sourceTabId d) = target ->
  reducer env state APP_TAB_ATTACHED
  = Returned
      (set_tabDragData
         (Some (set_dragDetachedWindowId (Some target)
                  (set_currentWindowId target
                     (set_displayIndexRequested None
                        (set_detachToRequestedWindowId None
                           (set_detachedFromWindowId None d))))))
         state)
      [].
Proof.
  intros Hd Ha Ht Hw. unfold reducer. rewrite Hd, Ha, Ht, Hw, Z.eqb_refl. simpl.
  now rewrite (updateIn_some _ state d Hd).
Qed.

Lemma tab_attached_without_markers env state d :
  tabDragData state = Some d ->
  attachRequestedWindowId d = None ->
  detachToRequestedWindowId d = None ->
  reducer env state APP_TAB_ATTACHED = Returned state [].
Proof.
  intros Hd Ha Ht. unfold reducer. now rewrite Hd, Ha, Ht.
Qed.

(** C5: a tab-attached confirmation delivered to a session whose attach and
    detach markers are already cleared returns the state as it was.  This is
    the state an applied confirmation leaves behind: after the confirmation
    of an attach (no detach pending), and after the confirmation of a detach,
    a second delivery changes nothing, wherever the cursor is by then. *)
Theorem C5_tab_attached_redelivery_is_noop :
  forall env state d,
    tabDragData state = Some d ->
    attachRequestedWindowId d = None ->
    detachToRequestedWindowId d = None ->
    reducer env state APP_TAB_ATTACHED = Returned state []
    /\
    (forall env0 state0 d0 target,
        tabDragData state0 = Some d0 ->
        (attachRequestedWindowId d0 = Some target /\
         detachToRequestedWindowId d0 = None /\
         getWindowClientPointAtCursor env0 target <> None
         \/
         attachRequestedWindowId d0 = None /\
         detachToRequestedWindowId d0 = Some target) ->
        getWindowId state0 (sourceTabId d0) = target ->
        exists applied,
          reducer env0 state0 APP_TAB_ATTACHED = Returned applied [] /\
          applied <> state0 /\
          reducer env applied APP_TAB_ATTACHED = Returned applied []).
Proof.
  intros env state d Hd Ha Ht. split.
  - now apply tab_attached_without_markers with (d := d).
  - intros env0 state0 d0 target Hd0 Hcase Hw.
    destruct Hcase as [(Ha0 & Ht0 & Hpt) | (Ha0 & Ht0)].
    + destruct (getWindowClientPointAtCursor env0 target) as [pt | ] eqn:Ept;
        [ | congruence ].
      eexists. split; [ | split ].
      * eapply attach_confirmation_applied; eassumption.
      * intros Heq. apply (f_equal tabDragData) in Heq. simpl in Heq.
        rewrite Hd0 in Heq. injection Heq as Heq.
        apply (f_equal attachRequestedWindowId) in Heq. simpl in Heq. congruence.
      * eapply tab_attached_without_markers; simpl; try reflexivity. exact Ht0.
    + eexists. split; [ | split ].
      * eapply detach_confirmation_applied; eassumption.
      * intros Heq. apply (f_equal tabDragData) in Heq. simpl in Heq.
        rewrite Hd0 in Heq. injection Heq as Heq.
        apply (f_equal detachToRequestedWindowId) in Heq. simpl in Heq. congruence.
      * eapply tab_attached_without_markers; simpl; try reflexivity. exact Ha0.
Qed.



(** *** Geometry of the single-tab window move *)


(** No other event writes them, and no other event creates a session. *)
Lemma reducer_geometry env state action state' fx d' :
  reducer env state action = Returned state' fx ->
  isDragStarted action = false ->
  tabDragData state' = Some d' ->
  exists d, tabDragData state = Some d /\ geometry d' = geometry d.
Proof.
  intros H Hns Hd'.
  destruct action; try discriminate Hns;
    unfold reducer, getSourceTabId, getDragData, getDragDetachedWindowId, delete in H;
    repeat break_match_hyp H; try discriminate; returned H;
    try (simpl in Hd'; discriminate);
    try (erewrite updateIn_some in Hd' by eassumption; simpl in Hd';
         injection Hd' as <-; eexists; split; reflexivity);
    try (match goal with
         | E : tabDragData ?s = _, H' : tabDragData ?s = Some _ |- _ =>
             rewrite E in H'; try discriminate H';
             injection H' as <-; eexists; split; reflexivity
         end);
    try (eexists; split; [ eassumption | reflexivity ]).
Qed.

Lemma run_geometry events : forall state state' d',
  Forall (fun ea => isDragStarted (snd ea) = false) events ->
  run state events = Some state' ->
  tabDragData state' = Some d' ->
  exists d, tabDragData state = Some d /\ geometry d' = geometry d.
Proof.
  induction events as [ | [env action] events IH]; intros state state' d' Hall Hrun Hd'.
  - simpl in Hrun. injection Hrun as <-. now exists d'.
  - simpl in Hrun. inversion Hall as [ | ? ? Hns Hall']; subst. simpl in Hns.
    destruct (reducer env state action) as [state1 fx1 | ] eqn:Hstep; [ | discriminate ].
    destruct (IH state1 state' d' Hall' Hrun Hd') as (d1 & Hd1 & Hg1).
    destruct (reducer_geometry env state action state1 fx1 d1 Hstep Hns Hd1)
      as (d & Hd & Hg).
    exists d. split; [ exact Hd | congruence ].
Qed.




(** *** Lifetime of the session *)

Lemma reducer_lifecycle env state action state' fx :
  reducer env state action = Returned state' fx ->
  has (tabDragData state') = lifecycle removesSession (has (tabDragData state)) action.
Proof.
  intros H.
  destruct action; unfold lifecycle; simpl;
    unfold reducer, getSourceTabId, getDragData, getDragDetachedWindowId, delete in H;
    repeat break_match_hyp H; try discriminate; returned H;
    try reflexivity;
    try (erewrite updateIn_some by eassumption; reflexivity);
    try (match goal with E : tabDragData _ = _ |- _ => now rewrite E end).
Qed.

Lemma run_lifecycle events : forall state state',
  run state events = Some state' ->
  has (tabDragData state')
  = fold_left (lifecycle removesSession) (map snd events) (has (tabDragData state)).
Proof.
  induction events as [ | [env action] events IH]; intros state state' Hrun.
  - simpl in Hrun. now injection Hrun as <-.
  - simpl in Hrun. simpl.
    destruct (reducer env state action) as [state1 fx1 | ] eqn:Hstep; [ | discriminate ].
    rewrite <- (reducer_lifecycle _ _ _ _ _ Hstep). now apply IH.
Qed.






(** *** The theorems at the concrete scene *)

Example exampleStarted_step singleTab :
  exists fx,
    reducer exampleEnv exampleInitial (APP_TAB_DRAG_STARTED (examplePayload singleTab))
    = Returned (exampleStarted singleTab) fx.
Proof. destruct singleTab; eexists; reflexivity. Qed.

Example exampleAttachPending_step :
  exists fx,
    reducer exampleEnv (exampleStarted true)
      (APP_TAB_DRAG_MOUSEOVER_OTHER_WINDOW_TAB 2 (Some 0))
    = Returned exampleAttachPending fx.
Proof. eexists; reflexivity. Qed.

Lemma C3_witness :
  reducer exampleEnv (exampleStarted false)
    (APP_TAB_DRAG_CHANGE_WINDOW_DISPLAY_INDEX 5 2 2 false)
  = Returned (exampleStarted false) [].
Proof.
  apply (C3_stale_window_guard exampleEnv (exampleStarted false) (exampleData false)
           5 2 2 false).
  - reflexivity.
  - simpl. discriminate.
Defined.

Lemma exampleAttachPending_reachable : reachable exampleAttachPending.
Proof.
  eapply reachable_reducer with
    (env := exampleEnv) (state := exampleStarted true)
    (action := APP_TAB_DRAG_MOUSEOVER_OTHER_WINDOW_TAB 2 (Some 0));
    [ | reflexivity ].
  eapply reachable_reducer with
    (env := exampleEnv) (state := exampleInitial)
    (action := APP_TAB_DRAG_STARTED (examplePayload true));
    [ | reflexivity ].
  apply reachable_init.
Defined.

Lemma C4_witness :
  reducer exampleEnv exampleAttachPending
    (APP_TAB_DRAG_CHANGE_WINDOW_DISPLAY_INDEX 1 2 2 false)
  = Returned exampleAttachPending []
  /\
  reducer exampleEnv exampleAttachPending (APP_TAB_DRAG_SINGLE_TAB_MOVED 0 0 1)
  = Returned exampleAttachPending [].
Proof.
  destruct (C4_requested_markers_defer_moves exampleAttachPending
              (set_bufferWindowId (Some 1)
                 (set_attachRequestedWindowId (Some 2)
                    (set_dragWindowClientY (Some 18%Q)
                       (set_dragWindowClientX (Some 532%Q) (exampleData true)))))
              exampleAttachPending_reachable eq_refl eq_refl exampleEnv)
    as [Hindex Hmove].
  split; [ apply Hindex | apply Hmove ].
Defined.

Lemma C5_witness :
  reducer exampleEnv (exampleStarted false) APP_TAB_ATTACHED
  = Returned (exampleStarted false) [].
Proof.
  apply (C5_tab_attached_redelivery_is_noop exampleEnv (exampleStarted false)
           (exampleData false) eq_refl eq_refl eq_refl).
Defined.








(** *** Further properties of the store *)

(** The reducer reads the table of tabs and never writes it, whatever the
    event and whatever the outcome of its guards. *)
Theorem reducer_keeps_tabs :
  forall env state action state' fx,
    reducer env state action = Returned state' fx ->
    tabs state' = tabs state.
Proof.
  intros env state action state' fx H.
  destruct action; unfold reducer, getSourceTabId, getDragData,
    getDragDetachedWindowId, delete in H;
    repeat break_match_hyp H; try discriminate; returned H;
    try reflexivity; unfold updateIn;
    repeat match goal with
           | E : tabDragData _ = _ |- _ => rewrite E
           end; reflexivity.
Qed.

Lemma reducer_keeps_tabs_witness :
  tabs (exampleStarted true) = tabs exampleInitial.
Proof.
  apply (reducer_keeps_tabs exampleEnv exampleInitial
           (APP_TAB_DRAG_STARTED (examplePayload true)) (exampleStarted true)
           [SetImmediate (ignoreMouseEventsAndBlur false 1)] eq_refl).
Defined.

(** Without a session, an index change, a tab-attached confirmation, a
    single-tab move, a mouse-over, a detach request and any unrelated action
    return the state as it is and issue nothing, in any world: no window is
    looked up, so nothing can throw. *)
Theorem no_session_no_effect :
  forall env state action,
    tabDragData state = None ->
    needsSession action = true ->
    reducer env state action = Returned state [].
Proof.
  intros env state action Hnone Hneeds.
  destruct action; try discriminate Hneeds;
    unfold reducer, getSourceTabId, getDragData; rewrite ?Hnone; reflexivity.
Qed.

Lemma no_session_no_effect_witness :
  reducer exampleEnv exampleInitial (APP_TAB_DRAG_DETACH_REQUESTED 40 6)
  = Returned exampleInitial [].
Proof.
  apply (no_session_no_effect exampleEnv exampleInitial
           (APP_TAB_DRAG_DETACH_REQUESTED 40 6) eq_refl eq_refl).
Defined.

(** As long as the session lives, what it was created with stays as it is:
    no event other than a new drag start rewrites the dragged tab, the window
    of origin, the origin of the pointer, the grab offsets, the tab width,
    the single-tab flag or the frame; and only a tab-attached confirmation
    changes the window the session takes for the current one. *)
Theorem session_identity_is_kept :
  forall env state action state' fx d d',
    reducer env state action = Returned state' fx ->
    isDragStarted action = false ->
    tabDragData state = Some d ->
    tabDragData state' = Some d' ->
    identity d' = identity d /\
    (isTabAttached action = false -> currentWindowId d' = currentWindowId d).
Proof.
  intros env state action state' fx d d' H Hns Hd Hd'.
  destruct action; try discriminate Hns;
    unfold reducer, getSourceTabId, getDragData, getDragDetachedWindowId, delete in H;
    rewrite ?Hd in H;
    repeat break_match_hyp H; try discriminate; returned H;
    try (simpl in Hd'; discriminate);
    try (rewrite (updateIn_some _ _ _ Hd) in Hd'; simpl in Hd';
         injection Hd' as <-; split; [ reflexivity | ];
         first [ reflexivity | intros; discriminate ]);
    try (rewrite Hd in Hd'; injection Hd' as <-; split; reflexivity).
Qed.

Lemma session_identity_is_kept_witness :
  identity
    (set_bufferWindowId (Some 1)
       (set_attachRequestedWindowId (Some 2)
          (set_dragWindowClientY (Some 18%Q)
             (set_dragWindowClientX (Some 532%Q) (exampleData true)))))
  = identity (exampleData true).
Proof.
  refine (proj1 (session_identity_is_kept exampleEnv (exampleStarted true)
                   (APP_TAB_DRAG_MOUSEOVER_OTHER_WINDOW_TAB 2 (Some 0))
                   exampleAttachPending
                   [SetImmediate
                      (attachToSenderWindow 7 {| ofFrame := Some 3; index := Some 0 |}
                         1 2)]
                   (exampleData true)
                   (set_bufferWindowId (Some 1)
                      (set_attachRequestedWindowId (Some 2)
                         (set_dragWindowClientY (Some 18%Q)
                            (set_dragWindowClientX (Some 532%Q) (exampleData true)))))
                   _ _ _ _)); vm_compute; reflexivity.
Defined.


(** A drag start needs the window it started in: without it the reducer
    throws before anything is written or issued.  With it, the session is
    built from the payload alone, whatever session was there before: nothing
    is pending and no index is requested, and either a buffer window is
    created (several tabs in the source window) or the source window itself
    is the detached window (single tab), never both. *)
Theorem drag_started_starts_afresh :
  forall env state p,
    (fromId env (DragSourceData.originalWindowId p) = None ->
     reducer env state (APP_TAB_DRAG_STARTED p) = Threw [])
    /\
    (fromId env (DragSourceData.originalWindowId p) <> None ->
     exists d fx,
       reducer env state (APP_TAB_DRAG_STARTED p)
       = Returned (set_tabDragData (Some d) state) fx /\
       reducer env (set_tabDragData None state) (APP_TAB_DRAG_STARTED p)
       = Returned (set_tabDragData (Some d) state) fx /\
       currentWindowId d = DragSourceData.currentWindowId p /\
       markers d = (None, None, None) /\
       displayIndexRequested d = None /\
       (if DragSourceData.originatedFromSingleTabWindow p
        then dragDetachedWindowId d = Some (DragSourceData.originalWindowId p) /\
             bufferWindowId d = None
        else bufferWindowId d = Some (createBufferWindow env) /\
             dragDetachedWindowId d = None /\
             In (CreateBufferWindow (createBufferWindow env)) fx)).
Proof.
  intros env state p. unfold reducer. split.
  - intros ->. reflexivity.
  - destruct (fromId env (DragSourceData.originalWindowId p)) as [w | ];
      [ intros _ | congruence ].
    destruct (getPosition w) as [winX winY].
    destruct (DragSourceData.originatedFromSingleTabWindow p); simpl;
      eexists; eexists; (split; [ reflexivity | ]); (split; [ reflexivity | ]);
      simpl; repeat split; try reflexivity. now left.
Qed.

Lemma drag_started_starts_afresh_witness :
  reducer exampleEnv exampleAttachPending
    (APP_TAB_DRAG_STARTED
       {| DragSourceData.sourceTabId := Some 7;
          DragSourceData.originalWindowId := 9;
          DragSourceData.currentWindowId := 9;
          DragSourceData.originClientX := 300;
          DragSourceData.originClientY := 20;
          DragSourceData.originScreenX := 408;
          DragSourceData.originScreenY := 122;
          DragSourceData.relativeXDragStart := 35;
          DragSourceData.relativeYDragStart := 12;
          DragSourceData.tabWidth := 180;
          DragSourceData.originatedFromSingleTabWindow := false;
          DragSourceData.frame := 3 |})
  = Threw [].
Proof.
  apply (proj1 (drag_started_starts_afresh exampleEnv exampleAttachPending _)).
  reflexivity.
Defined.

(** An index change is carried out (it schedules something) exactly when
    there is a session with a source tab, neither an attach nor a detach is
    pending, and the sender is the session's current window.  It then records
    the destination display index as requested, changes no marker, and
    schedules one thing: the move of the source tab to the destination frame
    index. *)
Theorem change_index_carried_out_iff :
  forall env state senderWindowId destinationDisplayIndex destinationFrameIndex
         requiresMouseUpdate state' fx,
    reducer env state
      (APP_TAB_DRAG_CHANGE_WINDOW_DISPLAY_INDEX senderWindowId destinationDisplayIndex
         destinationFrameIndex requiresMouseUpdate)
    = Returned state' fx ->
    (fx <> [] <->
     exists d t,
       tabDragData state = Some d /\ sourceTabId d = Some t /\
       attachOrDetachPending d = false /\ senderWindowId = currentWindowId d)
    /\
    (fx <> [] ->
     exists d t d' callback,
       tabDragData state = Some d /\ sourceTabId d = Some t /\
       tabDragData state' = Some d' /\
       displayIndexRequested d' = Some destinationDisplayIndex /\
       markers d' = markers d /\
       (requiresMouseUpdate = false ->
        d' = set_displayIndexRequested (Some destinationDisplayIndex) d) /\
       fx = [SetImmediate callback] /\
       forall env', callback env' = Some [SetTabIndex t destinationFrameIndex]).
Proof.
  intros env state sender ddi dfi rmu state' fx H. unfold reducer in H.
  destruct (tabDragData state) as [d | ] eqn:Hd.
  2: { returned H. split; [ split; [ congruence | ] | congruence ].
       intros (d & t & Hd' & _). discriminate. }
  destruct (sourceTabId d) as [t | ] eqn:Ht.
  2: { returned H. split; [ split; [ congruence | ] | congruence ].
       intros (d0 & t & [= <-] & Ht' & _). congruence. }
  fold (attachOrDetachPending d) in H.
  destruct (attachOrDetachPending d) eqn:Hp.
  { returned H. split; [ split; [ congruence | ] | congruence ].
    intros (d0 & t0 & [= <-] & _ & Hp' & _). congruence. }
  destruct (sender =? currentWindowId d) eqn:Hs; simpl in H.
  2: { returned H. split; [ split; [ congruence | ] | congruence ].
       intros (d0 & t0 & [= <-] & _ & _ & Hs'). apply Z.eqb_neq in Hs. congruence. }
  apply Z.eqb_eq in Hs.
  assert (Hyes : exists d0 t0,
             Some d = Some d0 /\ sourceTabId d0 = Some t0 /\
             attachOrDetachPending d0 = false /\ sender = currentWindowId d0)
    by (exists d, t; auto).
  destruct rmu.
  - break_match_hyp H; [ | discriminate H ].
    returned H. split; [ split; [ intros _; exact Hyes | intros _; discriminate ] | ].
    intros _. rewrite (updateIn_some _ _ _ Hd). simpl.
    eexists d, t, _, _. repeat split; try reflexivity; try assumption.
    intros Hf; discriminate Hf.
  - returned H. split; [ split; [ intros _; exact Hyes | intros _; discriminate ] | ].
    intros _. rewrite (updateIn_some _ _ _ Hd). simpl.
    eexists d, t, _, _. repeat split; try reflexivity; assumption.
Qed.

Lemma change_index_carried_out_iff_witness :
  [SetImmediate (fun _ : Env => Some [SetTabIndex 7 3])] <> [] <->
  exists d t,
    tabDragData (exampleStarted false) = Some d /\ sourceTabId d = Some t /\
    attachOrDetachPending d = false /\ 1 = currentWindowId d.
Proof.
  apply (proj1 (change_index_carried_out_iff exampleEnv (exampleStarted false)
                  1 3 3 false _ _ eq_refl)).
Defined.

(** A tab-attached confirmation that comes while the tab is not yet in the
    window the session waits for (the target of the attach, or of the detach
    when no attach is pending) is dropped: same state, nothing issued. *)
Theorem tab_attached_waits_for_target :
  forall env state d target,
    tabDragData state = Some d ->
    attachRequestedWindowId d = Some target \/
    attachRequestedWindowId d = None /\ detachToRequestedWindowId d = Some target ->
    getWindowId state (sourceTabId d) <> target ->
    reducer env state APP_TAB_ATTACHED = Returned state [].
Proof.
  intros env state d target Hd Hwait Hne. apply Z.eqb_neq in Hne.
  unfold reducer. rewrite Hd.
  destruct Hwait as [-> | [-> ->]]; now rewrite Hne.
Qed.

Lemma tab_attached_waits_for_target_witness :
  reducer exampleEnv exampleAttachPending APP_TAB_ATTACHED
  = Returned exampleAttachPending [].
Proof.
  apply (tab_attached_waits_for_target exampleEnv exampleAttachPending _ 2 eq_refl).
  - left. reflexivity.
  - simpl. discriminate.
Defined.


Lemma getWindowId_withTabs tabs' state t w :
  lookupTab tabs' t = Some w ->
  getWindowId (withTabs tabs' state) (Some t) = w.
Proof. intros H. unfold getWindowId. simpl. now rewrite H. Qed.

(** A mouse-over asks for an attach exactly when a single-tab window is being
    dragged on its own (a session with a source tab, nothing pending, a
    detached window) and the event names the frame index of the tab under the
    mouse; a mouse-over without a frame index, or while the tab is not in a
    detached window, changes nothing. *)
Theorem mouseover_requests_attach_iff :
  forall env state senderWindowId frameIndex state' fx,
    reducer env state
      (APP_TAB_DRAG_MOUSEOVER_OTHER_WINDOW_TAB senderWindowId frameIndex)
    = Returned state' fx ->
    (fx <> [] <->
     exists d t detached i,
       tabDragData state = Some d /\ draggingDetached d t detached /\
       frameIndex = Some i)
    /\
    (fx = [] -> state' = state).
Proof.
  intros env state sender frameIndex state' fx H.
  unfold reducer, getSourceTabId, getDragData, getDragDetachedWindowId in H.
  unfold draggingDetached.
  destruct (tabDragData state) as [d | ] eqn:Hd.
  2: { returned H. split; [ split; [ congruence | ] | reflexivity ].
       intros (d & t & w & i & Hd' & _). discriminate. }
  destruct (sourceTabId d) as [t | ] eqn:Ht.
  2: { returned H. split; [ split; [ congruence | ] | reflexivity ].
       intros (d0 & t & w & i & [= <-] & (Ht' & _) & _). congruence. }
  destruct (attachRequestedWindowId d) as [a | ] eqn:Ha; simpl in H.
  { returned H. split; [ split; [ congruence | ] | reflexivity ].
    intros (d0 & t0 & w & i & [= <-] & (_ & Ha' & _) & _). congruence. }
  destruct (detachToRequestedWindowId d) as [b | ] eqn:Hb; simpl in H.
  { returned H. split; [ split; [ congruence | ] | reflexivity ].
    intros (d0 & t0 & w & i & [= <-] & (_ & _ & Hb' & _) & _). congruence. }
  destruct (dragDetachedWindowId d) as [detached | ] eqn:Hdet.
  2: { returned H. split; [ split; [ congruence | ] | reflexivity ].
       intros (d0 & t0 & w & i & [= <-] & (_ & _ & _ & Hdet') & _). congruence. }
  destruct frameIndex as [i | ].
  2: { returned H. split; [ split; [ congruence | ] | reflexivity ].
       intros (d0 & t0 & w & i & _ & _ & Hi). discriminate. }
  break_match_hyp H; [ | discriminate H ].
  returned H. split; [ split | discriminate ].
  - intros _. exists d, t, detached, i. repeat split; assumption.
  - intros _. discriminate.
Qed.

Lemma mouseover_requests_attach_iff_witness :
  [SetImmediate
     (attachToSenderWindow 7 {| ofFrame := Some 3; index := Some 0 |} 1 2)] <> [] <->
  exists d t detached i,
    tabDragData (exampleStarted true) = Some d /\ draggingDetached d t detached /\
    Some 0 = Some i.
Proof.
  apply (proj1 (mouseover_requests_attach_iff exampleEnv (exampleStarted true) 2 (Some 0)
                  exampleAttachPending _ eq_refl)).
Defined.

Lemma mouseover_applied env state d t detached sender i pt :
  tabDragData state = Some d ->
  draggingDetached d t detached ->
  getWindowClientPointAtCursor env sender = Some pt ->
  reducer env state (APP_TAB_DRAG_MOUSEOVER_OTHER_WINDOW_TAB sender (Some i))
  = Returned
      (set_tabDragData
         (Some (set_bufferWindowId (Some detached)
                  (set_attachRequestedWindowId (Some sender)
                     (set_dragWindowClientY (Some (y pt))
                        (set_dragWindowClientX (Some (x pt)) d)))))
         state)
      [SetImmediate
         (attachToSenderWindow t {| ofFrame := Some (frame d); index := Some i |}
            detached sender)].
Proof.
  intros Hd (Ht & Ha & Hb & Hdet) Hpt.
  unfold reducer, getSourceTabId, getDragData, getDragDetachedWindowId.
  rewrite Hd, Ht, Ha, Hb, Hdet, Hpt. cbn [has].
  unfold sourceFrame. rewrite (updateIn_some _ _ _ Hd). reflexivity.
Qed.

Lemma change_index_applied env state d t sender ddi dfi :
  tabDragData state = Some d ->
  sourceTabId d = Some t ->
  attachRequestedWindowId d = None ->
  detachToRequestedWindowId d = None ->
  currentWindowId d = sender ->
  reducer env state (APP_TAB_DRAG_CHANGE_WINDOW_DISPLAY_INDEX sender ddi dfi false)
  = Returned (set_tabDragData (Some (set_displayIndexRequested (Some ddi) d)) state)
      [SetImmediate (fun _ : Env => Some [SetTabIndex t dfi])].
Proof.
  intros Hd Ht Ha Hb <-. unfold reducer.
  rewrite Hd, Ht, Ha, Hb, Z.eqb_refl. cbn [has orb negb].
  now rewrite (updateIn_some _ _ _ Hd).
Qed.

Lemma mouseover_not_detached env state d w i :
  tabDragData state = Some d ->
  dragDetachedWindowId d = None ->
  reducer env state (APP_TAB_DRAG_MOUSEOVER_OTHER_WINDOW_TAB w i) = Returned state [].
Proof.
  intros Hd Hdet. unfold reducer, getSourceTabId, getDragData, getDragDetachedWindowId.
  rewrite Hd, Hdet.
  destruct (sourceTabId d); [ | reflexivity ].
  destruct (has (attachRequestedWindowId d)); [ reflexivity | ].
  destruct (has (detachToRequestedWindowId d)); reflexivity.
Qed.

Lemma single_tab_moved_applied env state d mx my :
  tabDragData state = Some d ->
  attachRequestedWindowId d = None ->
  detachRequestedWindowId d = None ->
  detachToRequestedWindowId d = None ->
  currentWindowId d = getWindowId state (sourceTabId d) ->
  reducer env state (APP_TAB_DRAG_SINGLE_TAB_MOVED mx my (currentWindowId d))
  = Returned state [SetImmediate (moveSingleTabWindow d mx my)].
Proof.
  intros Hd Ha Hr Hb Hw. unfold reducer.
  rewrite Hd, Ha, Hr, Hb, <- Hw, Z.eqb_refl. reflexivity.
Qed.

(** Attaching, from the request to the confirmation.  A single-tab window is
    dragged over a tab of window [sender]: the mouse-over marks the attach as
    requested and schedules one callback; when it runs and the detached window
    still exists, it marks that window as drag buffer, lets it take mouse
    events again, focuses [sender] and moves the tab to [sender], to the frame
    index of the tab under the mouse; when the window is gone it throws.  Once
    the tab is
    in that window, the tab-attached confirmation makes [sender] the current
    window, clears the attach marker, the requested index and the detached
    window, and keeps the old window as buffer.  From then on an index change
    sent by [sender] is carried out, and a further mouse-over is ignored. *)
Theorem attach_request_then_confirmation :
  forall env env' state d t detached sender frameIndex pt pt' tabs',
    tabDragData state = Some d ->
    draggingDetached d t detached ->
    getWindowClientPointAtCursor env sender = Some pt ->
    getWindowClientPointAtCursor env' sender = Some pt' ->
    lookupTab tabs' t = Some sender ->
    exists requested attached d',
      reducer env state
        (APP_TAB_DRAG_MOUSEOVER_OTHER_WINDOW_TAB sender (Some frameIndex))
      = Returned requested
          [SetImmediate
             (attachToSenderWindow t
                {| ofFrame := Some (frame d); index := Some frameIndex |}
                detached sender)] /\
      (forall env1,
          fromId env1 detached = None ->
          attachToSenderWindow t {| ofFrame := Some (frame d); index := Some frameIndex |}
            detached sender env1 = None) /\
      (forall env1,
          fromId env1 detached <> None ->
          exists done,
            attachToSenderWindow t {| ofFrame := Some (frame d); index := Some frameIndex |}
              detached sender env1
            = Some [SetWindowIsDragBuffer detached;
                    SetIgnoreMouseEvents detached false;
                    SetAlwaysOnTop detached false;
                    FocusWindow sender;
                    MoveTo (Some t) {| ofFrame := Some (frame d); index := Some frameIndex |}
                      None sender done] /\
            forall env2 senderWindow,
              fromId env2 sender = Some senderWindow ->
              done env2
              = Some [SetSize detached (fst (getSize senderWindow))
                        (snd (getSize senderWindow));
                      SetPosition detached (fst (getPosition senderWindow))
                        (snd (getPosition senderWindow))]) /\
      reducer env' (withTabs tabs' requested) APP_TAB_ATTACHED = Returned attached [] /\
      tabDragData attached = Some d' /\
      currentWindowId d' = sender /\
      attachRequestedWindowId d' = None /\
      detachToRequestedWindowId d' = None /\
      dragDetachedWindowId d' = None /\
      bufferWindowId d' = Some detached /\
      displayIndexRequested d' = None /\
      dragWindowClientX d' = Some (x pt') /\
      dragWindowClientY d' = Some (y pt') /\
      identity d' = identity d /\
      (forall env'' ddi dfi,
          exists after,
            reducer env'' attached
              (APP_TAB_DRAG_CHANGE_WINDOW_DISPLAY_INDEX sender ddi dfi false)
            = Returned after
                [SetImmediate (fun _ : Env => Some [SetTabIndex t dfi])]) /\
      (forall env'' w i,
          reducer env'' attached (APP_TAB_DRAG_MOUSEOVER_OTHER_WINDOW_TAB w i)
          = Returned attached []).
Proof.
  intros env env' state d t detached sender frameIndex pt pt' tabs'
         Hd Hdrag Hpt Hpt' Htabs.
  pose proof (mouseover_applied env state d t detached sender frameIndex pt
                Hd Hdrag Hpt) as Hreq.
  destruct Hdrag as (Ht & Ha & Hb & Hdet).
  remember (set_bufferWindowId (Some detached)
              (set_attachRequestedWindowId (Some sender)
                 (set_dragWindowClientY (Some (y pt))
                    (set_dragWindowClientX (Some (x pt)) d)))) as d1 eqn:Ed1.
  assert (Ht1 : sourceTabId d1 = Some t) by (rewrite Ed1; exact Ht).
  assert (Ha1 : attachRequestedWindowId d1 = Some sender) by (rewrite Ed1; reflexivity).
  assert (Hb1 : detachToRequestedWindowId d1 = None) by (rewrite Ed1; exact Hb).
  assert (Hbuf1 : bufferWindowId d1 = Some detached) by (rewrite Ed1; reflexivity).
  assert (Hid1 : identity d1 = identity d) by (rewrite Ed1; reflexivity).
  clear Ed1.
  remember (withTabs tabs' (set_tabDragData (Some d1) state)) as state1 eqn:Es1.
  assert (Hd1 : tabDragData state1 = Some d1) by (rewrite Es1; reflexivity).
  assert (Hw1 : getWindowId state1 (sourceTabId d1) = sender).
  { rewrite Ht1, Es1. now apply getWindowId_withTabs. }
  pose proof (attach_confirmation_applied env' state1 d1 sender pt' Hd1 Ha1 Hw1 Hpt')
    as Hconf.
  remember (set_dragWindowClientY (Some (y pt'))
              (set_dragWindowClientX (Some (x pt'))
                 (set_currentWindowId sender
                    (set_dragDetachedWindowId None
                       (set_displayIndexRequested None
                          (set_attachRequestedWindowId None d1)))))) as d2 eqn:Ed2.
  assert (Ht2 : sourceTabId d2 = Some t) by (rewrite Ed2; exact Ht1).
  assert (Ha2 : attachRequestedWindowId d2 = None) by (rewrite Ed2; reflexivity).
  assert (Hb2 : detachToRequestedWindowId d2 = None) by (rewrite Ed2; exact Hb1).
  assert (Hcur2 : currentWindowId d2 = sender) by (rewrite Ed2; reflexivity).
  assert (Hdet2 : dragDetachedWindowId d2 = None) by (rewrite Ed2; reflexivity).
  assert (Hbuf2 : bufferWindowId d2 = Some detached) by (rewrite Ed2; exact Hbuf1).
  assert (Hidx2 : displayIndexRequested d2 = None) by (rewrite Ed2; reflexivity).
  assert (Hx2 : dragWindowClientX d2 = Some (x pt')) by (rewrite Ed2; reflexivity).
  assert (Hy2 : dragWindowClientY d2 = Some (y pt')) by (rewrite Ed2; reflexivity).
  assert (Hid2 : identity d2 = identity d) by (rewrite Ed2, <- Hid1; reflexivity).
  clear Ed2.
  exists (set_tabDragData (Some d1) state), (set_tabDragData (Some d2) state1), d2.
  rewrite <- Es1.
  split; [ assumption | ].
  split.
  { intros env1 Hgone. unfold attachToSenderWindow. now rewrite Hgone. }
  split.
  { intros env1 Hthere. unfold attachToSenderWindow.
    destruct (fromId env1 detached); [ | congruence ].
    eexists. split; [ reflexivity | ].
    intros env2 senderWindow Hsender. cbv beta. rewrite Hsender.
    destruct (getPosition senderWindow), (getSize senderWindow). reflexivity. }
  repeat (split; [ assumption || reflexivity | ]).
  split.
  - intros env'' ddi dfi. eexists.
    apply change_index_applied with (d := d2); try assumption. reflexivity.
  - intros env'' w i. apply mouseover_not_detached with (d := d2);
      [ reflexivity | assumption ].
Qed.

Lemma attach_request_then_confirmation_witness :
  exists attached d',
    reducer exampleEnv (withTabs [(7, 2)] exampleAttachPending) APP_TAB_ATTACHED
    = Returned attached [] /\
    tabDragData attached = Some d' /\ currentWindowId d' = 2.
Proof.
  destruct (attach_request_then_confirmation exampleEnv exampleEnv (exampleStarted true)
              (exampleData true) 7 1 2 0 {| x := 532; y := 18 |} {| x := 532; y := 18 |}
              [(7, 2)] eq_refl)
    as (requested & attached & d' & Hreq & _ & _ & Hconf & Hd' & Hcur & _).
  - repeat split.
  - reflexivity.
  - reflexivity.
  - reflexivity.
  - exists attached, d'. injection Hreq as <-. auto.
Defined.

(** Detaching, from the request to the confirmation.  With a buffer window
    at hand and no attach pending, a detach request marks the detach and
    schedules the move of the tab to the buffer window.  Once the tab is in
    that window, the tab-attached confirmation makes the buffer window the
    current and the detached window and clears both detach markers and the
    requested index.  From then on a single-tab move sent by that window is
    carried out. *)
Theorem detach_request_then_confirmation :
  forall env env' state d t bufferWindow w tabX tabY tabs',
    tabDragData state = Some d ->
    sourceTabId d = Some t ->
    attachRequestedWindowId d = None ->
    detachRequestedWindowId d = None ->
    getDragBufferWindow env = Some (bufferWindow, w) ->
    lookupTab tabs' t = Some bufferWindow ->
    exists requested fx detached d',
      reducer env state (APP_TAB_DRAG_DETACH_REQUESTED tabX tabY)
      = Returned requested fx /\
      reducer env' (withTabs tabs' requested) APP_TAB_ATTACHED = Returned detached [] /\
      tabDragData detached = Some d' /\
      currentWindowId d' = bufferWindow /\
      dragDetachedWindowId d' = Some bufferWindow /\
      markers d' = (None, None, None) /\
      displayIndexRequested d' = None /\
      detachedFromTabX d' = Some tabX /\
      detachedFromTabY d' = Some tabY /\
      identity d' = identity d /\
      (forall env'' mx my,
          reducer env'' detached (APP_TAB_DRAG_SINGLE_TAB_MOVED mx my bufferWindow)
          = Returned detached [SetImmediate (moveSingleTabWindow d' mx my)]).
Proof.
  intros env env' state d t bufferWindow w tabX tabY tabs'
         Hd Ht Ha Hr Hbuf Htabs.
  assert (Hreq : reducer env state (APP_TAB_DRAG_DETACH_REQUESTED tabX tabY)
                 = Returned
                     (set_tabDragData
                        (Some (set_detachToRequestedWindowId (Some bufferWindow)
                                 (set_detachedFromWindowId
                                    (Some (getWindowId state (sourceTabId d)))
                                    (set_detachedFromTabY (Some tabY)
                                       (set_detachedFromTabX (Some tabX) d)))))
                        state)
                     [ClearWindowIsDragBuffer;
                      SetImmediate
                        (moveToBufferWindow (isWindows env) d tabX
                           (Some (bufferWindow, w)))]).
  { unfold reducer. rewrite Hd, Hbuf. now rewrite (updateIn_some _ _ _ Hd). }
  remember (set_detachToRequestedWindowId (Some bufferWindow)
              (set_detachedFromWindowId (Some (getWindowId state (sourceTabId d)))
                 (set_detachedFromTabY (Some tabY)
                    (set_detachedFromTabX (Some tabX) d)))) as d1 eqn:Ed1.
  assert (Ht1 : sourceTabId d1 = Some t) by (rewrite Ed1; exact Ht).
  assert (Ha1 : attachRequestedWindowId d1 = None) by (rewrite Ed1; exact Ha).
  assert (Hr1 : detachRequestedWindowId d1 = None) by (rewrite Ed1; exact Hr).
  assert (Hb1 : detachToRequestedWindowId d1 = Some bufferWindow)
    by (rewrite Ed1; reflexivity).
  assert (Hx1 : detachedFromTabX d1 = Some tabX) by (rewrite Ed1; reflexivity).
  assert (Hy1 : detachedFromTabY d1 = Some tabY) by (rewrite Ed1; reflexivity).
  assert (Hid1 : identity d1 = identity d) by (rewrite Ed1; reflexivity).
  clear Ed1.
  remember (withTabs tabs' (set_tabDragData (Some d1) state)) as state1 eqn:Es1.
  assert (Hd1 : tabDragData state1 = Some d1) by (rewrite Es1; reflexivity).
  assert (Hw1 : getWindowId state1 (sourceTabId d1) = bufferWindow).
  { rewrite Ht1, Es1. now apply getWindowId_withTabs. }
  pose proof (detach_confirmation_applied env' state1 d1 bufferWindow Hd1 Ha1 Hb1 Hw1)
    as Hconf.
  remember (set_dragDetachedWindowId (Some bufferWindow)
              (set_currentWindowId bufferWindow
                 (set_displayIndexRequested None
                    (set_detachToRequestedWindowId None
                       (set_detachedFromWindowId None d1))))) as d2 eqn:Ed2.
  assert (Ht2 : sourceTabId d2 = Some t) by (rewrite Ed2; exact Ht1).
  assert (Ha2 : attachRequestedWindowId d2 = None) by (rewrite Ed2; exact Ha1).
  assert (Hr2 : detachRequestedWindowId d2 = None) by (rewrite Ed2; exact Hr1).
  assert (Hb2 : detachToRequestedWindowId d2 = None) by (rewrite Ed2; reflexivity).
  assert (Hf2 : detachedFromWindowId d2 = None) by (rewrite Ed2; reflexivity).
  assert (Hcur2 : currentWindowId d2 = bufferWindow) by (rewrite Ed2; reflexivity).
  assert (Hdet2 : dragDetachedWindowId d2 = Some bufferWindow)
    by (rewrite Ed2; reflexivity).
  assert (Hidx2 : displayIndexRequested d2 = None) by (rewrite Ed2; reflexivity).
  assert (Hx2 : detachedFromTabX d2 = Some tabX) by (rewrite Ed2; exact Hx1).
  assert (Hy2 : detachedFromTabY d2 = Some tabY) by (rewrite Ed2; exact Hy1).
  assert (Hid2 : identity d2 = identity d) by (rewrite Ed2, <- Hid1; reflexivity).
  clear Ed2.
  eexists (set_tabDragData (Some d1) state), _,
    (set_tabDragData (Some d2) state1), d2.
  rewrite <- Es1.
  split; [ exact Hreq | ].
  split; [ exact Hconf | ].
  split; [ reflexivity | ].
  split; [ exact Hcur2 | ].
  split; [ exact Hdet2 | ].
  split; [ unfold markers; now rewrite Ha2, Hb2, Hf2 | ].
  split; [ exact Hidx2 | ].
  split; [ exact Hx2 | ].
  split; [ exact Hy2 | ].
  split; [ exact Hid2 | ].
  intros env'' mx my. rewrite <- Hcur2.
  apply single_tab_moved_applied; try assumption.
  - reflexivity.
  - rewrite Hcur2, Ht2. unfold getWindowId. cbn [tabs set_tabDragData].
    rewrite Es1. cbn [tabs withTabs]. now rewrite Htabs.
Qed.

Lemma detach_request_then_confirmation_witness :
  exists requested fx detached d',
    reducer exampleEnv (exampleStarted false) (APP_TAB_DRAG_DETACH_REQUESTED 40 6)
    = Returned requested fx /\
    reducer exampleEnv (withTabs [(7, 2)] requested) APP_TAB_ATTACHED
    = Returned detached [] /\
    tabDragData detached = Some d' /\ currentWindowId d' = 2.
Proof.
  destruct (detach_request_then_confirmation exampleEnv exampleEnv (exampleStarted false)
              (exampleData false) 7 2 exampleWindow 40 6 [(7, 2)]
              eq_refl eq_refl eq_refl eq_refl eq_refl eq_refl)
    as (requested & fx & detached & d' & Hreq & Hconf & Hd' & Hcur & _).
  exists requested, fx, detached, d'. auto.
Defined.


Lemma reducer_detachMarkersTogether env state action state' fx :
  reducer env state action = Returned state' fx ->
  detachMarkersTogether state -> detachMarkersTogether state'.
Proof.
  intros H Inv d' Hd'.
  destruct action; unfold reducer, getSourceTabId, getDragData,
    getDragDetachedWindowId, delete in H;
    repeat break_match_hyp H; try discriminate; returned H;
    try (now apply Inv);
    try (erewrite updateIn_some in Hd' by eassumption);
    simpl in Hd'; try discriminate;
    try (injection Hd' as <-; simpl; try reflexivity; try congruence;
         try (now apply Inv)).
Qed.

Lemma reachable_detachMarkersTogether state :
  reachable state -> detachMarkersTogether state.
Proof.
  induction 1 as [tabs0 | env state action state' fx _ IH Hstep | state tabs' _ IH].
  - intros d Hd. discriminate.
  - eapply reducer_detachMarkersTogether; eassumption.
  - intros d Hd. simpl in Hd. now apply IH.
Qed.

(** In every state the store can reach, the session carries
    [detachedFromWindowId] exactly when it carries
    [detachToRequestedWindowId]: a detach request writes both, the
    confirmation of the detach deletes both, and nothing else touches
    either. *)
Theorem detach_markers_come_and_go_together :
  forall state d,
    reachable state ->
    tabDragData state = Some d ->
    (detachedFromWindowId d <> None <-> detachToRequestedWindowId d <> None).
Proof.
  intros state d Hreach Hd.
  rewrite <- !has_true_iff.
  now rewrite (reachable_detachMarkersTogether state Hreach d Hd).
Qed.

Lemma detach_markers_come_and_go_together_witness :
  detachedFromWindowId
    (set_bufferWindowId (Some 1)
       (set_attachRequestedWindowId (Some 2)
          (set_dragWindowClientY (Some 18%Q)
             (set_dragWindowClientX (Some 532%Q) (exampleData true))))) <> None
  <->
  detachToRequestedWindowId
    (set_bufferWindowId (Some 1)
       (set_attachRequestedWindowId (Some 2)
          (set_dragWindowClientY (Some 18%Q)
             (set_dragWindowClientX (Some 532%Q) (exampleData true))))) <> None.
Proof.
  apply (detach_markers_come_and_go_together exampleAttachPending _
           exampleAttachPending_reachable eq_refl).
Defined.

End StoreFacts.

(** * Properties of the drag controller *)

Module DragControllerFacts.
Import DragController.

Local Open Scope Q_scope.

Lemma Qlt_bool_iff a b : Qlt_bool a b = true <-> a < b.
Proof.
  unfold Qlt_bool. rewrite negb_true_iff, <- not_true_iff_false, Qle_bool_iff.
  split; [ apply Qnot_le_lt | apply Qlt_not_le ].
Qed.

Lemma translate_idempotent e :
  translateEventFromSendMouseMoveInput (translateEventFromSendMouseMoveInput e)
  = translateEventFromSendMouseMoveInput e.
Proof.
  destruct e as [ex ey cx cy sx sy | cx cy]; simpl; [ | reflexivity ].
  destruct (Qeq_bool ex 1 && Qeq_bool ey 99) eqn:E; simpl; [ reflexivity | ].
  now rewrite E.
Qed.

(** C10: a mouse move with [x] equal to 1 and [y] equal to 99 reaches the
    drag computation as the point [(screenX, screenY)]: the handler does for
    it exactly what it does for the object [{ clientX: screenX, clientY:
    screenY }]; a genuine pointer event of the DOM at client position
    (1, 99), whose [x] and [y] are its [clientX] and [clientY], is treated
    the same way.  Any other event is handed on as it is.  In every case the
    handler depends on the event only through its translation. *)
Theorem C10_send_mouse_move_input_translation :
  forall onDragChangeIndex props t,
    (forall ex ey cx cy sx sy,
        ex == 1 -> ey == 99 ->
        translateEventFromSendMouseMoveInput (DomMouseEvent ex ey cx cy sx sy)
        = ClientPoint sx sy /\
        onTabDraggingMouseMove onDragChangeIndex props t
          (DomMouseEvent ex ey cx cy sx sy)
        = onTabDraggingMouseMove onDragChangeIndex props t (ClientPoint sx sy))
    /\
    (forall sx sy,
        clientX (translateEventFromSendMouseMoveInput (DomMouseEvent 1 99 1 99 sx sy))
        = sx /\
        clientY (translateEventFromSendMouseMoveInput (DomMouseEvent 1 99 1 99 sx sy))
        = sy)
    /\
    (forall ex ey cx cy sx sy,
        ~ (ex == 1 /\ ey == 99) ->
        translateEventFromSendMouseMoveInput (DomMouseEvent ex ey cx cy sx sy)
        = DomMouseEvent ex ey cx cy sx sy)
    /\
    (forall cx cy,
        translateEventFromSendMouseMoveInput (ClientPoint cx cy) = ClientPoint cx cy)
    /\
    (forall e e',
        translateEventFromSendMouseMoveInput e = translateEventFromSendMouseMoveInput e' ->
        onTabDraggingMouseMove onDragChangeIndex props t e
        = onTabDraggingMouseMove onDragChangeIndex props t e').
Proof.
  intros reply props t.
  assert (Hdep : forall e e',
             translateEventFromSendMouseMoveInput e
             = translateEventFromSendMouseMoveInput e' ->
             onTabDraggingMouseMove reply props t e
             = onTabDraggingMouseMove reply props t e').
  { intros e e' Heq. unfold onTabDraggingMouseMove. now rewrite Heq. }
  assert (Htr : forall ex ey cx cy sx sy,
             ex == 1 -> ey == 99 ->
             translateEventFromSendMouseMoveInput (DomMouseEvent ex ey cx cy sx sy)
             = ClientPoint sx sy).
  { intros ex ey cx cy sx sy Hx Hy. simpl.
    apply Qeq_bool_iff in Hx, Hy. now rewrite Hx, Hy. }
  repeat split.
  - now apply Htr.
  - apply Hdep. now rewrite Htr.
  - intros ex ey cx cy sx sy Hnot. simpl.
    destruct (Qeq_bool ex 1) eqn:Ex; [ | reflexivity ].
    destruct (Qeq_bool ey 99) eqn:Ey; [ | reflexivity ].
    exfalso. apply Hnot. split; now apply Qeq_bool_iff.
  - exact Hdep.
Qed.

Lemma C10_witness :
  onTabDraggingMouseMove TabStrip.reply exampleProps exampleTab
    (DomMouseEvent 1 99 1 99 640 120)
  = onTabDraggingMouseMove TabStrip.reply exampleProps exampleTab
      (ClientPoint 640 120).
Proof.
  destruct (C10_send_mouse_move_input_translation TabStrip.reply
              exampleProps exampleTab) as [Hforwarded _].
  apply (Hforwarded 1 99 1 99 640 120); reflexivity.
Defined.

(** *** The destination index *)

Lemma detectDragIndexPosition_inRange props rect tabWidth dragTabWidth tabLeft :
  pageOk props ->
  inRange props (detectDragIndexPosition props rect tabWidth dragTabWidth tabLeft).
Proof.
  unfold pageOk, inRange, detectDragIndexPosition. intros Hpage.
  destruct (Qlt_bool tabLeft (Number.sub 0 DRAG_PAGEMOVE_PX_THRESHOLD)); [ lia | ].
  destruct (Qlt_bool (Number.add (width rect) DRAG_PAGEMOVE_PX_THRESHOLD)
              (Number.add tabLeft dragTabWidth));
    lia.
Qed.

Lemma detectSortChange_asks reply props t rect tabWidth dragTabWidth tabLeft :
  snd (detectSortChange reply props t rect tabWidth dragTabWidth tabLeft)
  = [OnDragChangeIndex props
       (detectDragIndexPosition props rect tabWidth dragTabWidth tabLeft)].
Proof. reflexivity. Qed.

Lemma truthy_nonzero o w : truthy o = Some w -> ~ w == 0.
Proof.
  unfold truthy. destruct o as [v | ]; [ | discriminate ].
  destruct (Qeq_bool v 0) eqn:E; [ discriminate | ].
  intros [= <-]. now apply Qeq_bool_neq.
Qed.

Lemma sort_change_asks reply props t e p d :
  In (OnDragChangeIndex p d)
     (snd (onTabDraggingMouseMoveDetectSortChange reply props t e)) ->
  p = props /\ computedBy props d.
Proof.
  unfold onTabDraggingMouseMoveDetectSortChange.
  destruct (parentClientRect t) as [rect | ]; [ | intros [] ].
  destruct (truthy (draggingTabWidth t)) as [dragTabWidth | ] eqn:Edrag; [ | intros [] ].
  destruct (suspendOrderChangeUntilUpdate t); [ intros [] | ].
  assert (Hw : ~ match truthy (nonDraggingTabWidth t) with
                 | Some w => w
                 | None => dragTabWidth
                 end == 0).
  { destruct (truthy (nonDraggingTabWidth t)) eqn:Enon;
      eauto using truthy_nonzero. }
  assert (Hasked : forall t0 tabLeft,
             In (OnDragChangeIndex p d)
                (snd (detectSortChange reply props t0 rect
                        match truthy (nonDraggingTabWidth t) with
                        | Some w => w
                        | None => dragTabWidth
                        end dragTabWidth tabLeft)) ->
             p = props /\ computedBy props d).
  { intros t0 tabLeft Hin. rewrite detectSortChange_asks in Hin.
    destruct Hin as [Heq | []]. injection Heq as <- <-.
    split; [ reflexivity | ]. unfold computedBy. eauto 10. }
  destruct (dragCanDetach props); [ | apply Hasked ].
  destruct (isOutsideBounds rect (draggingDetachThreshold t) e); [ | apply Hasked ].
  destruct (draggingDetachTimeout t); intros [].
Qed.

(** Whatever index a step hands to the consumer was computed by
    [detectDragIndexPosition] for the props of that step, with a tab width
    that is not zero. *)
Lemma step_asks reply props t ev p d :
  In (OnDragChangeIndex p d) (snd (step reply props t ev)) ->
  p = props /\ computedBy props d.
Proof.
  destruct ev as [e | e | | | details]; simpl.
  - unfold onTabDraggingMouseMove.
    set (e' := translateEventFromSendMouseMoveInput e).
    set (framed := if negb (dragSingleTab props)
                   then if dragTabMouseMoveFrame t then (t, [])
                        else (set_dragTabMouseMoveFrame true t, [RequestAnimationFrame e'])
                   else (t, [])).
    assert (Hframe : forall c, In c (snd framed) -> c = RequestAnimationFrame e').
    { subst framed. destruct (negb (dragSingleTab props));
        [ destruct (dragTabMouseMoveFrame t) | ]; simpl; intros c Hin;
        intuition congruence. }
    destruct framed as [t0 frame]. simpl in Hframe.
    destruct (dragProcessMoves props).
    + destruct (negb (dragSingleTab props)).
      * destruct (negb (hasRequestedDetach t0)).
        -- destruct (onTabDraggingMouseMoveDetectSortChange reply props t0 e')
             as [t1 asked] eqn:Esort.
           simpl. intros Hin. apply in_app_or in Hin as [Hin | Hin].
           ++ apply Hframe in Hin. discriminate.
           ++ apply (sort_change_asks reply props t0 e'). now rewrite Esort.
        -- simpl. rewrite app_nil_r. intros Hin. apply Hframe in Hin. discriminate.
      * unfold onTabDraggingMoveSingleTabWindow.
        destruct (elementRef t0); simpl; intros Hin; apply in_app_or in Hin as [Hin | Hin];
          try (apply Hframe in Hin; discriminate);
          simpl in Hin; intuition discriminate.
    + simpl. rewrite app_nil_r. intros Hin. apply Hframe in Hin. discriminate.
  - unfold dragTab. simpl.
    destruct (elementRef t), (parentClientRect t); simpl; intuition discriminate.
  - destruct (detachTimer t); simpl; [ | intros [] ].
    unfold detachTimeoutCallback. simpl.
    destruct (parentClientRect t); simpl; intuition discriminate.
  - unfold displayIndexChanged.
    destruct (truthy (currentMouseX t)); simpl; [ | intros [] ].
    unfold dragTab. simpl.
    destruct (elementRef t), (parentClientRect t); simpl; intuition discriminate.
  - intros [].
Qed.

Lemma run_asks reply events : forall t p d,
  In (OnDragChangeIndex p d) (snd (run reply t events)) ->
  In p (map fst events) /\ computedBy p d.
Proof.
  induction events as [ | [props ev] events IH]; intros t p d; simpl; [ intros [] | ].
  destruct (step reply props t ev) as [t1 asked1] eqn:Estep.
  destruct (run reply t1 events) as [t2 asked2] eqn:Erun.
  simpl. intros Hin. apply in_app_or in Hin as [Hin | Hin].
  - destruct (step_asks reply props t ev p d) as [-> Hd]; [ now rewrite Estep | ].
    split; [ now left | exact Hd ].
  - destruct (IH t1 p d) as [Hp Hd]; [ now rewrite Erun | ].
    split; [ now right | exact Hd ].
Qed.


(** What the strip forwards to the store for a destination in range, when
    the page shows at least one tab (the dragged one). *)
Lemma onDragChangeIndex_forwards_inRange now props d timeout :
  pageOk props -> inRange props d -> (1 <= displayedTabCount props)%N ->
  Forall (inRange props)
    (TabStrip.changesIndexTo (snd (TabStrip.onDragChangeIndex now props d timeout))).
Proof.
  unfold pageOk, inRange, TabStrip.onDragChangeIndex. intros Hpage Hd Hshown.
  destruct (negb (displayIndex props =? d)%Z).
  - destruct ((d <? firstTabDisplayIndex props)%Z) eqn:Eprev;
      destruct ((d >? firstTabDisplayIndex props + Z.of_N (displayedTabCount props) - 1)%Z)
        eqn:Enext;
      destruct timeout; simpl;
      repeat match goal with
             | |- context [negb (?a =? ?b)%Z] => destruct (negb (a =? b)%Z)
             end; simpl;
      repeat constructor; unfold inRange; lia.
  - destruct timeout; simpl; constructor.
Qed.

(** C1: the destination index that the index detection produces lies in
    [0, totalTabCount - 1], for every pointer position, every positive tab
    width and every page description with
    [0 <= firstTabDisplayIndex <= totalTabCount - 1]; so does every index that
    a dragging tab hands to its consumer, over every sequence of mouse moves,
    animation frames, timers and re-renders, whatever the consumer replies;
    and so does every index that the strip then forwards to the store, on a
    page that shows at least one tab. *)
Theorem C1_destination_index_in_range :
  (forall props rect tabWidth dragTabWidth tabLeft,
      0 < tabWidth ->
      pageOk props ->
      inRange props (detectDragIndexPosition props rect tabWidth dragTabWidth tabLeft))
  /\
  (forall onDragChangeIndex t events p d,
      Forall (fun pe => pageOk (fst pe)) events ->
      In (OnDragChangeIndex p d) (snd (run onDragChangeIndex t events)) ->
      inRange p d)
  /\
  (forall now props rect tabWidth dragTabWidth tabLeft timeout,
      0 < tabWidth ->
      pageOk props ->
      (1 <= displayedTabCount props)%N ->
      Forall (inRange props)
        (TabStrip.changesIndexTo
           (snd (TabStrip.onDragChangeIndex now props
                   (detectDragIndexPosition props rect tabWidth dragTabWidth tabLeft)
                   timeout)))).
Proof.
  split; [ | split ].
  - intros. now apply detectDragIndexPosition_inRange.
  - intros reply t events p d Hall Hin.
    destruct (run_asks reply events t p d Hin)
      as [Hp (rect & tabWidth & dragTabWidth & tabLeft & _ & ->)].
    apply detectDragIndexPosition_inRange.
    apply in_map_iff in Hp as ([p' ev] & <- & Hpe).
    rewrite Forall_forall in Hall. exact (Hall _ Hpe).
  - intros. apply onDragChangeIndex_forwards_inRange; try assumption.
    now apply detectDragIndexPosition_inRange.
Qed.

Lemma C1_witness :
  inRange exampleProps (detectDragIndexPosition exampleProps exampleRect 180 180 5000).
Proof.
  apply (proj1 C1_destination_index_in_range exampleProps exampleRect 180 180 5000).
  - reflexivity.
  - unfold pageOk. simpl. lia.
Defined.


(** *** Detaching *)

Lemma detachIntents_app asked asked' :
  detachIntents (asked ++ asked') = (detachIntents asked + detachIntents asked')%nat.
Proof. unfold detachIntents. now rewrite filter_app, length_app. Qed.

Lemma minus_threshold_x : Number.sub 0 DRAG_DETACH_PX_THRESHOLD_X = - (60).
Proof. vm_compute. reflexivity. Qed.

Lemma isOutsideBounds_iff rect threshold e :
  isOutsideBounds rect threshold e = true <->
  clientX e < - (60) \/ Number.add (windowWidth rect) 60 < clientX e \/
  clientY e < Number.sub (y rect) threshold \/
  Number.add (Number.add (y rect) (height rect)) threshold < clientY e.
Proof.
  unfold isOutsideBounds. rewrite minus_threshold_x. unfold DRAG_DETACH_PX_THRESHOLD_X.
  rewrite !orb_true_iff, !Qlt_bool_iff. intuition.
Qed.

Lemma run_cons reply t props ev events :
  run reply t ((props, ev) :: events)
  = (fst (run reply (fst (step reply props t ev)) events),
     snd (step reply props t ev) ++ snd (run reply (fst (step reply props t ev)) events)).
Proof.
  simpl. destruct (step reply props t ev) as [t1 asked1].
  simpl. now destruct (run reply t1 events).
Qed.

Lemma run_app reply events events' : forall t,
  run reply t (events ++ events')
  = (fst (run reply (fst (run reply t events)) events'),
     snd (run reply t events) ++ snd (run reply (fst (run reply t events)) events')).
Proof.
  induction events as [ | [props ev] events IH]; intros t.
  - simpl. now destruct (run reply t events').
  - rewrite <- app_comm_cons, !run_cons, IH. simpl. now rewrite app_assoc.
Qed.

(** A mouse move of a tab that sorts and detaches and has not asked for a
    detach goes to the sort-change detection. *)
Lemma mouse_move_detects reply props t e :
  sortsAndDetaches props ->
  hasRequestedDetach t = false ->
  exists t0 frame,
    detachIntents frame = 0%nat /\
    parentClientRect t0 = parentClientRect t /\
    draggingTabWidth t0 = draggingTabWidth t /\
    nonDraggingTabWidth t0 = nonDraggingTabWidth t /\
    suspendOrderChangeUntilUpdate t0 = suspendOrderChangeUntilUpdate t /\
    draggingDetachThreshold t0 = draggingDetachThreshold t /\
    draggingDetachTimeout t0 = draggingDetachTimeout t /\
    hasRequestedDetach t0 = false /\
    detachTimer t0 = detachTimer t /\
    step reply props t (MouseMove e)
    = (fst (onTabDraggingMouseMoveDetectSortChange reply props t0
              (translateEventFromSendMouseMoveInput e)),
       frame ++ snd (onTabDraggingMouseMoveDetectSortChange reply props t0
                       (translateEventFromSendMouseMoveInput e))).
Proof.
  intros (Hsingle & Hmoves & _) Hreq. simpl. unfold onTabDraggingMouseMove.
  rewrite Hsingle, Hmoves. simpl.
  destruct (dragTabMouseMoveFrame t).
  - exists t, []. rewrite Hreq. simpl.
    destruct (onTabDraggingMouseMoveDetectSortChange reply props t
                (translateEventFromSendMouseMoveInput e)).
    repeat split; assumption.
  - eexists (set_dragTabMouseMoveFrame true t), [_]. simpl. rewrite Hreq. simpl.
    destruct (onTabDraggingMouseMoveDetectSortChange reply props
                (set_dragTabMouseMoveFrame true t)
                (translateEventFromSendMouseMoveInput e)).
    repeat split; try assumption; reflexivity.
Qed.

(** Outside the bounds: the timer is started, or left running. *)
Lemma move_outside reply props rect threshold t e :
  sortsAndDetaches props ->
  idle rect threshold t \/ armed rect threshold t ->
  outsideOf rect threshold e = true ->
  exists t' asked,
    step reply props t (MouseMove e) = (t', asked) /\
    detachIntents asked = 0%nat /\
    armed rect threshold t' /\
    (idle rect threshold t ->
     detachTimer t'
     = Some (Number.sub
               (Number.sub (clientX (translateEventFromSendMouseMoveInput e)) (left rect))
               (relativeXDragStart props))) /\
    (armed rect threshold t -> detachTimer t' = detachTimer t).
Proof.
  intros Hprops Hstate Hout.
  assert (Hready : ready rect threshold t) by (destruct Hstate as [[H _] | [H _]]; exact H).
  destruct Hready as (Hrect & Hwidth & Hsusp & Hthr & Hreq).
  destruct (mouse_move_detects reply props t e Hprops Hreq)
    as (t0 & frame & Hframe & Erect & Edrag & Enon & Esusp & Ethr & Etimeout & Ereq0
        & Etimer & ->).
  unfold onTabDraggingMouseMoveDetectSortChange.
  rewrite Erect, Edrag, Hrect, Esusp, Hsusp, Ethr, Hthr.
  destruct (truthy (draggingTabWidth t)) as [dragTabWidth | ] eqn:Etr; [ | congruence ].
  destruct Hprops as (_ & _ & ->). unfold outsideOf in Hout. rewrite Hout.
  rewrite Etimeout.
  destruct Hstate as [(_ & Hto & Htm) | (_ & Hto & Htm)]; rewrite Hto; simpl.
  - eexists _, _. split; [ reflexivity | ]. rewrite app_nil_r.
    split; [ exact Hframe | ]. split; [ | split ].
    + repeat split; simpl; try congruence; rewrite Edrag, Etr; congruence.
    + intros _. reflexivity.
    + intros (_ & Hto' & _). congruence.
  - eexists _, _. split; [ reflexivity | ]. rewrite app_nil_r.
    split; [ exact Hframe | ]. split; [ | split ].
    + repeat split; simpl; try congruence; rewrite Edrag, Etr; congruence.
    + intros (_ & Hto' & _). congruence.
    + intros _. exact Etimer.
Qed.

Lemma moves_outside reply props rect threshold moves : forall t,
  sortsAndDetaches props ->
  armed rect threshold t ->
  Forall (fun e => outsideOf rect threshold e = true) moves ->
  exists t' asked,
    run reply t (mouseMoves props moves) = (t', asked) /\
    detachIntents asked = 0%nat /\
    armed rect threshold t' /\
    detachTimer t' = detachTimer t.
Proof.
  induction moves as [ | e moves IH]; intros t Hprops Harmed Hall.
  - exists t, []. repeat split; try reflexivity; apply Harmed.
  - inversion Hall as [ | ? ? He Hall']; subst.
    destruct (move_outside reply props rect threshold t e Hprops (or_intror Harmed) He)
      as (t1 & asked1 & Hstep & H0 & Harmed1 & _ & Hsame).
    destruct (IH t1 Hprops Harmed1 Hall') as (t2 & asked2 & Hrun & H0' & Harmed2 & Hsame').
    exists t2, (asked1 ++ asked2).
    change (mouseMoves props (e :: moves))
      with ((props, MouseMove e) :: mouseMoves props moves).
    rewrite run_cons, Hstep. simpl. rewrite Hrun.
    split; [ reflexivity | ]. rewrite detachIntents_app, H0, H0'.
    split; [ reflexivity | ]. split; [ exact Harmed2 | ].
    rewrite Hsame'. now apply Hsame.
Qed.

(** The timer runs out: the one detach request. *)
Lemma timeout_armed reply props rect threshold t :
  armed rect threshold t ->
  exists t' tabLeft,
    detachTimer t = Some tabLeft /\
    step reply props t DetachTimeout = (t', [OnRequestDetach tabLeft (top rect)]) /\
    detachRequested t'.
Proof.
  intros ((Hrect & _) & _ & Htimer).
  destruct (detachTimer t) as [tabLeft | ] eqn:E; [ | congruence ].
  eexists _, tabLeft. split; [ reflexivity | ].
  simpl. rewrite E. unfold detachTimeoutCallback. simpl. rewrite Hrect.
  split; [ reflexivity | ]. split; reflexivity.
Qed.

(** After that, nothing asks for a detach again. *)
Lemma step_detachRequested reply props t ev :
  detachRequested t ->
  detachRequested (fst (step reply props t ev)) /\
  detachIntents (snd (step reply props t ev)) = 0%nat.
Proof.
  intros [Hreq Htimer]. destruct ev as [e | e | | | details]; simpl.
  - unfold onTabDraggingMouseMove.
    destruct (negb (dragSingleTab props)) eqn:Esingle.
    + destruct (dragTabMouseMoveFrame t); simpl; rewrite Hreq; simpl;
        destruct (dragProcessMoves props); simpl; repeat split; assumption.
    + destruct (dragProcessMoves props); simpl; [ | repeat split; assumption ].
      unfold onTabDraggingMoveSingleTabWindow.
      destruct (elementRef t); simpl; repeat split; assumption.
  - unfold dragTab. simpl.
    destruct (elementRef t), (parentClientRect t); simpl; repeat split; assumption.
  - rewrite Htimer. simpl. repeat split; assumption.
  - unfold displayIndexChanged.
    destruct (truthy (currentMouseX t)); simpl; [ | repeat split; assumption ].
    unfold dragTab. simpl.
    destruct (elementRef t), (parentClientRect t); simpl; repeat split; assumption.
  - unfold evaluateDraggingTabWidth.
    destruct (elementRef t), details; simpl; repeat split; assumption.
Qed.

Lemma run_detachRequested reply events : forall t,
  detachRequested t ->
  detachIntents (snd (run reply t events)) = 0%nat.
Proof.
  induction events as [ | [props ev] events IH]; intros t Hdone; [ reflexivity | ].
  simpl. destruct (step_detachRequested reply props t ev Hdone) as [Hdone1 H0].
  destruct (step reply props t ev) as [t1 asked1]. simpl in Hdone1, H0.
  specialize (IH t1 Hdone1).
  destruct (run reply t1 events) as [t2 asked2]. simpl in *.
  now rewrite detachIntents_app, H0, IH.
Qed.


(** Inside the bounds: the timer, if any, is cleared, and the index is
    computed; the threshold widens when the index differs from the one the
    tab is displayed at. *)
Lemma move_inside reply props rect threshold t e :
  sortsAndDetaches props ->
  idle rect threshold t \/ armed rect threshold t ->
  outsideOf rect threshold e = false ->
  exists t' asked d,
    step reply props t (MouseMove e) = (t', asked) /\
    detachIntents asked = 0%nat /\
    In (OnDragChangeIndex props d) asked /\
    draggingDetachTimeout t' = false /\
    detachTimer t' = None /\
    hasRequestedDetach t' = false /\
    draggingDetachThreshold t'
    = (if (displayIndex props =? d)%Z then threshold
       else DRAG_DETACH_PX_THRESHOLD_POSTSORT).
Proof.
  intros Hprops Hstate Hin.
  assert (Hready : ready rect threshold t) by (destruct Hstate as [[H _] | [H _]]; exact H).
  destruct Hready as (Hrect & Hwidth & Hsusp & Hthr & Hreq).
  destruct (mouse_move_detects reply props t e Hprops Hreq)
    as (t0 & frame & Hframe & Erect & Edrag & Enon & Esusp & Ethr & Etimeout & Ereq0
        & Etimer & ->).
  unfold onTabDraggingMouseMoveDetectSortChange.
  rewrite Erect, Edrag, Hrect, Esusp, Hsusp, Ethr, Hthr.
  destruct (truthy (draggingTabWidth t)) as [dragTabWidth | ] eqn:Etr; [ | congruence ].
  destruct Hprops as (_ & _ & ->). unfold outsideOf in Hin. rewrite Hin.
  rewrite Etimeout. unfold detectSortChange.
  set (tabWidth := match truthy (nonDraggingTabWidth t0) with
                   | Some w => w
                   | None => dragTabWidth
                   end).
  set (d := detectDragIndexPosition props rect tabWidth dragTabWidth
              (Number.sub
                 (Number.sub (clientX (translateEventFromSendMouseMoveInput e))
                    (left rect))
                 (relativeXDragStart props))).
  exists (fst (let t1 := if draggingDetachTimeout t
                         then set_detachTimer None (set_draggingDetachTimeout false t0)
                         else t0 in
               let t2 := if reply props d
                         then set_suspendOrderChangeUntilUpdate true t1 else t1 in
               let t3 := if negb (displayIndex props =? d)%Z
                         then set_draggingDetachThreshold
                                DRAG_DETACH_PX_THRESHOLD_POSTSORT t2
                         else t2 in
               (t3, [OnDragChangeIndex props d]))),
    (frame ++ [OnDragChangeIndex props d]), d.
  split; [ reflexivity | ].
  split; [ rewrite detachIntents_app, Hframe; reflexivity | ].
  split; [ apply in_or_app; right; now left | ].
  destruct Hstate as [(_ & Hto & Htm) | (_ & Hto & Htm)]; rewrite Hto;
    destruct (reply props d); destruct (displayIndex props =? d)%Z; simpl;
    repeat split; congruence.
Qed.

(** Without mouse moves no timer is started, and one that is not waiting
    cannot run out. *)
Lemma step_quiet reply props t ev :
  isMouseMove (props, ev) = false ->
  detachTimer t = None ->
  detachTimer (fst (step reply props t ev)) = None /\
  detachIntents (snd (step reply props t ev)) = 0%nat.
Proof.
  intros Hev Htimer. destruct ev as [e | e | | | details]; try discriminate Hev; simpl.
  - unfold dragTab. simpl.
    destruct (elementRef t), (parentClientRect t); simpl; split; auto.
  - rewrite Htimer. simpl. split; auto.
  - unfold displayIndexChanged.
    destruct (truthy (currentMouseX t)); simpl; [ | split; auto ].
    unfold dragTab. simpl.
    destruct (elementRef t), (parentClientRect t); simpl; split; auto.
  - unfold evaluateDraggingTabWidth.
    destruct (elementRef t), details; simpl; split; auto.
Qed.

Lemma run_quiet reply events : forall t,
  Forall (fun pe => isMouseMove pe = false) events ->
  detachTimer t = None ->
  detachIntents (snd (run reply t events)) = 0%nat.
Proof.
  induction events as [ | [props ev] events IH]; intros t Hall Htimer; [ reflexivity | ].
  inversion Hall as [ | ? ? Hev Hall']; subst.
  destruct (step_quiet reply props t ev Hev Htimer) as [Htimer1 H0].
  rewrite run_cons. simpl. rewrite detachIntents_app, H0.
  now rewrite (IH _ Hall' Htimer1).
Qed.

(** C7, as the code has it.  A tab that is not pinned and not alone in its
    window is dragged in the window that processes the moves; its sizes are
    measured, it waits for no index change, no detach timer is waiting and no
    detach has been asked for.  The pointer leaves the bounds: further than
    60 px to the left or right of the window, or further than the detach
    threshold above or below the strip (the sums and differences being those
    of binary64 numbers).  The threshold is 44 px once the handlers are
    attached and 80 px after a move that asked for an index other than the
    one the tab is displayed at.  While the pointer stays outside, the
    zero-delay timer is started once; when it runs out, one detach request is
    made, for the position the tab had when the pointer left, and whatever
    happens later makes no second one.  If the pointer returns inside the
    bounds before the timer runs out, the timer is cleared, and no detach
    request is made however often the timers are given a turn. *)
Theorem C7_detach_after_leaving_bounds :
  forall onDragChangeIndex props rect threshold t e moves,
    sortsAndDetaches props ->
    idle rect threshold t ->
    outsideOf rect threshold e = true ->
    Forall (fun e' => outsideOf rect threshold e' = true) moves ->
    let leaving := mouseMoves props (e :: moves) in
    let tabLeft :=
      Number.sub
        (Number.sub (clientX (translateEventFromSendMouseMoveInput e)) (left rect))
        (relativeXDragStart props) in
    (forall later,
        let asked :=
          snd (run onDragChangeIndex t (leaving ++ (props, DetachTimeout) :: later)) in
        detachIntents asked = 1%nat /\
        In (OnRequestDetach tabLeft (top rect)) asked)
    /\
    (forall back later,
        outsideOf rect threshold back = false ->
        Forall (fun pe => isMouseMove pe = false) later ->
        let returned :=
          fst (run onDragChangeIndex t (leaving ++ [(props, MouseMove back)])) in
        detachTimer returned = None /\
        draggingDetachTimeout returned = false /\
        detachIntents
          (snd (run onDragChangeIndex t
                  (leaving ++ (props, MouseMove back) :: later))) = 0%nat)
    /\
    (forall e',
        outsideOf rect threshold e' = true <->
        let pointer := translateEventFromSendMouseMoveInput e' in
        clientX pointer < - (60) \/
        Number.add (windowWidth rect) 60 < clientX pointer \/
        clientY pointer < Number.sub (y rect) threshold \/
        Number.add (Number.add (y rect) (height rect)) threshold < clientY pointer)
    /\
    (forall props0 t0,
        draggingDetachThreshold (fst (attachDragSortHandlers props0 t0)) = 44)
    /\
    (forall back,
        outsideOf rect threshold back = false ->
        exists d,
          In (OnDragChangeIndex props d)
             (snd (step onDragChangeIndex props t (MouseMove back))) /\
          draggingDetachThreshold (fst (step onDragChangeIndex props t (MouseMove back)))
          = (if (displayIndex props =? d)%Z then threshold else 80)).
Proof.
  intros reply props rect threshold t e moves Hprops Hidle He Hmoves leaving tabLeft.
  destruct (move_outside reply props rect threshold t e Hprops (or_introl Hidle) He)
    as (t1 & asked1 & Hstep1 & H01 & Harmed1 & Htimer1 & _).
  specialize (Htimer1 Hidle).
  destruct (moves_outside reply props rect threshold moves t1 Hprops Harmed1 Hmoves)
    as (t2 & asked2 & Hrun2 & H02 & Harmed2 & Htimer2).
  assert (Hleaving : run reply t leaving = (t2, asked1 ++ asked2)).
  { subst leaving.
    change (mouseMoves props (e :: moves))
      with ((props, MouseMove e) :: mouseMoves props moves).
    rewrite run_cons, Hstep1. simpl. now rewrite Hrun2. }
  split; [ | split; [ | split; [ | split ] ] ].
  - intros later asked. subst asked.
    destruct (timeout_armed reply props rect threshold t2 Harmed2)
      as (t3 & tabLeft' & Htl & Hfire & Hdone).
    assert (tabLeft' = tabLeft) as -> by (subst tabLeft; congruence).
    rewrite run_app, Hleaving. cbn [fst snd].
    rewrite run_cons, Hfire. cbn [fst snd].
    split.
    + rewrite !detachIntents_app, H01, H02, (run_detachRequested reply later t3 Hdone).
      reflexivity.
    + apply in_or_app. right. now left.
  - intros back later Hback Hlater returned.
    destruct (move_inside reply props rect threshold t2 back Hprops (or_intror Harmed2)
                Hback)
      as (t3 & asked3 & d & Hstep3 & H03 & _ & Hto3 & Htm3 & _ & _).
    assert (Hreturned : returned = t3).
    { subst returned. rewrite run_app, Hleaving. cbn [fst snd].
      rewrite run_cons, Hstep3. reflexivity. }
    rewrite Hreturned. split; [ exact Htm3 | ]. split; [ exact Hto3 | ].
    rewrite run_app, Hleaving. cbn [fst snd].
    rewrite run_cons, Hstep3. cbn [fst snd].
    now rewrite !detachIntents_app, H01, H02, H03, (run_quiet reply later t3 Hlater Htm3).
  - intros e'. unfold outsideOf. apply isOutsideBounds_iff.
  - intros props0 t0. reflexivity.
  - intros back Hback.
    destruct (move_inside reply props rect threshold t back Hprops (or_introl Hidle) Hback)
      as (t3 & asked3 & d & Hstep3 & _ & Hin & _ & _ & _ & Hthr).
    exists d. rewrite Hstep3. split; [ exact Hin | exact Hthr ].
Qed.


Lemma C7_witness :
  detachIntents
    (snd (run TabStrip.reply exampleTab
            (mouseMoves exampleProps [ClientPoint 400 200]
             ++ [(exampleProps, DetachTimeout)]))) = 1%nat
  /\
  detachIntents
    (snd (run TabStrip.reply exampleTab
            (mouseMoves exampleProps [ClientPoint 400 200]
             ++ [(exampleProps, MouseMove (ClientPoint 400 110));
                 (exampleProps, DetachTimeout)]))) = 0%nat.
Proof.
  destruct (C7_detach_after_leaving_bounds TabStrip.reply exampleProps exampleRect 44
              exampleTab (ClientPoint 400 200) [])
    as (Hone & Hzero & _).
  - repeat split.
  - repeat split. simpl. discriminate.
  - vm_compute. reflexivity.
  - constructor.
  - split.
    + exact (proj1 (Hone [])).
    + refine (proj2 (proj2 (Hzero (ClientPoint 400 110) [(exampleProps, DetachTimeout)]
                              _ _))).
      * vm_compute. reflexivity.
      * repeat constructor.
Defined.

(** C7 as worded fails three times.  With the horizontal bounds of the
    strip: 130 px to the right of the last tab, but within 60 px of the
    window's right edge and level with the strip, the pointer is outside the
    strip by more than 60 px, yet no timer is started and no detach request
    is made.  While dragging an unpinned tab as such: after a move inside the
    bounds that asked the strip for another index, the tab waits for the
    render, and a pointer that then leaves the bounds and stays outside, with
    the timers given their turn, brings no detach request.  And the threshold
    does not wait for a successful reorder: dragged past the end of the page
    from the last index of the page, the strip moves nothing (it only starts
    its pause), and the threshold is 80 px all the same. *)
Lemma C7_counterexample :
  (outsideStripBounds exampleRect 44 (ClientPoint 1100 110)
   /\
   detachIntents
     (snd (run TabStrip.reply exampleTab
             [(exampleProps, MouseMove (ClientPoint 1100 110));
              (exampleProps, DetachTimeout)])) = 0%nat)
  /\
  (outsideOf exampleRect 44 (ClientPoint 400 110) = false
   /\
   outsideOf exampleRect 80 (ClientPoint 400 300) = true
   /\
   detachIntents
     (snd (run TabStrip.reply exampleTab
             [(exampleProps, MouseMove (ClientPoint 400 110));
              (exampleProps, MouseMove (ClientPoint 400 300));
              (exampleProps, DetachTimeout);
              (exampleProps, MouseMove (ClientPoint 400 300));
              (exampleProps, DetachTimeout)])) = 0%nat)
  /\
  (TabStrip.changesIndexTo
     (snd (TabStrip.onDragChangeIndex 0 examplePropsAtPageEnd 5 None)) = []
   /\
   snd (step TabStrip.reply examplePropsAtPageEnd exampleTab
          (MouseMove (ClientPoint 900 110)))
   = [RequestAnimationFrame (ClientPoint 900 110);
      OnDragChangeIndex examplePropsAtPageEnd 5]
   /\
   draggingDetachThreshold exampleTab = 44
   /\
   draggingDetachThreshold
     (fst (step TabStrip.reply examplePropsAtPageEnd exampleTab
             (MouseMove (ClientPoint 900 110)))) = 80).
Proof.
  split; [ | split ].
  - split; [ | vm_compute; reflexivity ].
    right. left. reflexivity.
  - repeat split; vm_compute; reflexivity.
  - repeat split; vm_compute; reflexivity.
Qed.


(** *** Further properties of the drag controller *)

Lemma filter_nil_app {A : Type} (f : A -> bool) (l l' : list A) :
  filter f l = [] -> filter f l' = [] -> filter f (l ++ l') = [].
Proof. intros H H'. now rewrite filter_app, H, H'. Qed.



(** What a mouse move does to a tab that sorts: the animation frame aside,
    it is the sort-change detection, unless a detach was asked for. *)
Lemma mouse_move_sorts reply props t e :
  dragSingleTab props = false ->
  exists t0 frame,
    (frame = [] \/ frame = [RequestAnimationFrame (translateEventFromSendMouseMoveInput e)]) /\
    (dragTabMouseMoveFrame t = true -> frame = []) /\
    dragTabMouseMoveFrame t0 = true /\
    parentClientRect t0 = parentClientRect t /\
    draggingTabWidth t0 = draggingTabWidth t /\
    nonDraggingTabWidth t0 = nonDraggingTabWidth t /\
    suspendOrderChangeUntilUpdate t0 = suspendOrderChangeUntilUpdate t /\
    draggingDetachThreshold t0 = draggingDetachThreshold t /\
    draggingDetachTimeout t0 = draggingDetachTimeout t /\
    hasRequestedDetach t0 = hasRequestedDetach t /\
    detachTimer t0 = detachTimer t /\
    step reply props t (MouseMove e)
    = if dragProcessMoves props && negb (hasRequestedDetach t)
      then (fst (onTabDraggingMouseMoveDetectSortChange reply props t0
                   (translateEventFromSendMouseMoveInput e)),
            frame ++ snd (onTabDraggingMouseMoveDetectSortChange reply props t0
                            (translateEventFromSendMouseMoveInput e)))
      else (t0, frame).
Proof.
  intros Hsingle. simpl. unfold onTabDraggingMouseMove. rewrite Hsingle. simpl.
  destruct (dragTabMouseMoveFrame t) eqn:Eframe.
  - exists t, []. repeat split; auto.
    destruct (dragProcessMoves props); simpl; [ | reflexivity ].
    destruct (hasRequestedDetach t); simpl; [ reflexivity | ].
    now destruct (onTabDraggingMouseMoveDetectSortChange reply props t
                    (translateEventFromSendMouseMoveInput e)).
  - exists (set_dragTabMouseMoveFrame true t), [RequestAnimationFrame
                                                   (translateEventFromSendMouseMoveInput e)].
    repeat split; auto; try discriminate.
    destruct (dragProcessMoves props); simpl; [ | reflexivity ].
    destruct (hasRequestedDetach t); simpl; [ reflexivity | ].
    now destruct (onTabDraggingMouseMoveDetectSortChange reply props
                    (set_dragTabMouseMoveFrame true t)
                    (translateEventFromSendMouseMoveInput e)).
Qed.

(** The sort-change detection leaves the animation-frame flag alone. *)
Lemma sort_change_keeps_flag reply props t e :
  dragTabMouseMoveFrame
    (fst (onTabDraggingMouseMoveDetectSortChange reply props t e))
  = dragTabMouseMoveFrame t.
Proof.
  unfold onTabDraggingMouseMoveDetectSortChange, detectSortChange.
  destruct (parentClientRect t); [ | reflexivity ].
  destruct (truthy (draggingTabWidth t)); [ | reflexivity ].
  destruct (suspendOrderChangeUntilUpdate t); [ reflexivity | ].
  destruct (dragCanDetach props).
  - destruct (isOutsideBounds _ _ _).
    + destruct (draggingDetachTimeout t); reflexivity.
    + destruct (draggingDetachTimeout t);
        match goal with |- context [reply ?p ?d] => destruct (reply p d) end;
        match goal with |- context [negb ?b] => destruct b end; reflexivity.
  - match goal with |- context [reply ?p ?d] => destruct (reply p d) end;
      match goal with |- context [negb ?b] => destruct b end; reflexivity.
Qed.

(** Between two animation frames the tab asks for at most one: however many
    mouse moves come in, one request is made if none was outstanding, and
    none otherwise. *)
Theorem one_animation_frame_at_a_time :
  forall onDragChangeIndex props moves t,
    let asked := snd (run onDragChangeIndex t (mouseMoves props moves)) in
    (length (filter isAnimationFrameRequest asked) <= 1)%nat /\
    (dragTabMouseMoveFrame t = true -> filter isAnimationFrameRequest asked = []).
Proof.
  intros reply props moves t asked. subst asked.
  assert (Hnone_sort : forall t0 e,
             filter isAnimationFrameRequest
               (snd (onTabDraggingMouseMoveDetectSortChange reply props t0 e)) = []).
  { intros t0 e. unfold onTabDraggingMouseMoveDetectSortChange, detectSortChange.
    destruct (parentClientRect t0); [ | reflexivity ].
    destruct (truthy (draggingTabWidth t0)); [ | reflexivity ].
    destruct (suspendOrderChangeUntilUpdate t0); [ reflexivity | ].
    destruct (dragCanDetach props); [ | reflexivity ].
    destruct (isOutsideBounds _ _ _); [ | reflexivity ].
    destruct (draggingDetachTimeout t0); reflexivity. }
  assert (Hstep : forall t0 e,
             (dragTabMouseMoveFrame t0 = true ->
              filter isAnimationFrameRequest (snd (step reply props t0 (MouseMove e))) = []
              /\ dragTabMouseMoveFrame (fst (step reply props t0 (MouseMove e))) = true)
             /\
             (length (filter isAnimationFrameRequest
                        (snd (step reply props t0 (MouseMove e)))) <= 1)%nat
             /\
             (filter isAnimationFrameRequest (snd (step reply props t0 (MouseMove e))) <> [] ->
              dragTabMouseMoveFrame (fst (step reply props t0 (MouseMove e))) = true)).
  { intros t0 e. destruct (dragSingleTab props) eqn:Esingle.
    - assert (E : step reply props t0 (MouseMove e)
                  = if dragProcessMoves props
                    then onTabDraggingMoveSingleTabWindow props t0
                    else (t0, [])).
      { simpl. unfold onTabDraggingMouseMove. rewrite Esingle. simpl.
        destruct (dragProcessMoves props); [ | reflexivity ].
        now destruct (onTabDraggingMoveSingleTabWindow props t0). }
      rewrite E. unfold onTabDraggingMoveSingleTabWindow.
      destruct (dragProcessMoves props); [ destruct (elementRef t0) | ];
        simpl; (split; [ intros Hset; split; [ reflexivity | exact Hset ]
                       | split; [ lia | intros Hne; congruence ] ]).
    - destruct (mouse_move_sorts reply props t0 e Esingle)
        as (t1 & frame & Hframe & Hflag & Hflag1 & _ & _ & _ & _ & _ & _ & _ & _ & ->).
      destruct (dragProcessMoves props && negb (hasRequestedDetach t0)); cbn [fst snd].
      + rewrite filter_app, Hnone_sort, app_nil_r, sort_change_keeps_flag.
        split; [ | split ].
        * intros Hset. rewrite (Hflag Hset). split; [ reflexivity | exact Hflag1 ].
        * destruct Hframe as [-> | ->]; simpl; lia.
        * intros _. exact Hflag1.
      + split; [ | split ].
        * intros Hset. rewrite (Hflag Hset). split; [ reflexivity | exact Hflag1 ].
        * destruct Hframe as [-> | ->]; simpl; lia.
        * intros _. exact Hflag1. }
  assert (Hset : forall moves0 t0,
             dragTabMouseMoveFrame t0 = true ->
             filter isAnimationFrameRequest
               (snd (run reply t0 (mouseMoves props moves0))) = []).
  { induction moves0 as [ | e moves0 IH]; intros t0 Hflag; [ reflexivity | ].
    change (mouseMoves props (e :: moves0))
      with ((props, MouseMove e) :: mouseMoves props moves0).
    rewrite run_cons. cbn [snd].
    destruct (Hstep t0 e) as [Hwhen _]. destruct (Hwhen Hflag) as [Hnil Hflag'].
    apply filter_nil_app; [ exact Hnil | now apply IH ]. }
  split; [ | apply Hset ].
  revert t. induction moves as [ | e moves IH]; intros t; [ simpl; lia | ].
  change (mouseMoves props (e :: moves))
    with ((props, MouseMove e) :: mouseMoves props moves).
  rewrite run_cons. cbn [snd]. rewrite filter_app, length_app.
  destruct (Hstep t e) as (_ & Hle & Hthen).
  destruct (filter isAnimationFrameRequest (snd (step reply props t (MouseMove e))))
    as [ | c rest] eqn:Efilter.
  - simpl. apply IH.
  - rewrite (Hset moves _ (Hthen ltac:(discriminate))). simpl in *. lia.
Qed.


Lemma one_animation_frame_at_a_time_witness :
  filter isAnimationFrameRequest
    (snd (run TabStrip.reply (set_dragTabMouseMoveFrame true exampleTab)
            (mouseMoves exampleProps [ClientPoint 400 110; ClientPoint 410 110]))) = [].
Proof.
  apply (proj2 (one_animation_frame_at_a_time TabStrip.reply exampleProps
                  [ClientPoint 400 110; ClientPoint 410 110]
                  (set_dragTabMouseMoveFrame true exampleTab))).
  reflexivity.
Defined.

(** What the sort-change detection leaves alone when it starts no timer. *)
Lemma sort_change_without_detach reply props t e :
  dragCanDetach props = false ->
  detachTimer (fst (onTabDraggingMouseMoveDetectSortChange reply props t e))
  = detachTimer t /\
  detachIntents (snd (onTabDraggingMouseMoveDetectSortChange reply props t e)) = 0%nat.
Proof.
  intros Hcan. unfold onTabDraggingMouseMoveDetectSortChange, detectSortChange.
  rewrite Hcan.
  destruct (parentClientRect t); [ | split; reflexivity ].
  destruct (truthy (draggingTabWidth t)); [ | split; reflexivity ].
  destruct (suspendOrderChangeUntilUpdate t); [ split; reflexivity | ].
  match goal with |- context [reply ?p ?d] => destruct (reply p d) end;
    match goal with |- context [negb ?b] => destruct b end; split; reflexivity.
Qed.

(** A pinned tab is never detached by dragging: as long as the props say
    that the tab cannot detach, no detach timer is started and no detach is
    asked for, wherever the pointer goes and whatever else happens. *)
Theorem pinned_tab_never_detaches :
  forall onDragChangeIndex events t,
    detachTimer t = None ->
    Forall (fun pe => dragCanDetach (fst pe) = false) events ->
    detachTimer (fst (run onDragChangeIndex t events)) = None /\
    detachIntents (snd (run onDragChangeIndex t events)) = 0%nat.
Proof.
  intros reply events.
  induction events as [ | [props ev] events IH]; intros t Htimer Hall.
  - split; [ exact Htimer | reflexivity ].
  - inversion Hall as [ | ? ? Hcan Hall']; subst. simpl in Hcan.
    assert (Hstep : detachTimer (fst (step reply props t ev)) = None /\
                    detachIntents (snd (step reply props t ev)) = 0%nat).
    { destruct ev as [e | e | | | details].
      - destruct (dragSingleTab props) eqn:Esingle.
        + simpl. unfold onTabDraggingMouseMove. rewrite Esingle. simpl.
          destruct (dragProcessMoves props); simpl; [ | split; auto ].
          unfold onTabDraggingMoveSingleTabWindow.
          destruct (elementRef t); simpl; split; auto.
        + destruct (mouse_move_sorts reply props t e Esingle)
            as (t0 & frame & Hframe & _ & _ & _ & _ & _ & _ & _ & _ & _ & Htimer0 & ->).
          assert (Hframe0 : detachIntents frame = 0%nat)
            by (destruct Hframe as [-> | ->]; reflexivity).
          destruct (dragProcessMoves props && negb (hasRequestedDetach t)); cbn [fst snd].
          * destruct (sort_change_without_detach reply props t0
                        (translateEventFromSendMouseMoveInput e) Hcan) as [Hkeep H0].
            rewrite Hkeep, detachIntents_app, Hframe0, H0. split; [ congruence | reflexivity ].
          * split; congruence.
      - apply step_quiet; [ reflexivity | exact Htimer ].
      - apply step_quiet; [ reflexivity | exact Htimer ].
      - apply step_quiet; [ reflexivity | exact Htimer ].
      - apply step_quiet; [ reflexivity | exact Htimer ]. }
    destruct Hstep as [Htimer1 H0].
    destruct (IH _ Htimer1 Hall') as [Htimer2 H0'].
    rewrite run_cons. cbn [fst snd].
    split; [ exact Htimer2 | ]. now rewrite detachIntents_app, H0, H0'.
Qed.

Lemma pinned_tab_never_detaches_witness :
  detachIntents
    (snd (run TabStrip.reply exampleTab
            [({| dragSingleTab := false; dragProcessMoves := true; dragCanDetach := false;
                 relativeXDragStart := 35; detachedFromTabX := None;
                 displayIndex := 1; totalTabCount := 12;
                 firstTabDisplayIndex := 0; displayedTabCount := 5; tabPageIndex := 0 |},
              MouseMove (ClientPoint 400 900));
             ({| dragSingleTab := false; dragProcessMoves := true; dragCanDetach := false;
                 relativeXDragStart := 35; detachedFromTabX := None;
                 displayIndex := 1; totalTabCount := 12;
                 firstTabDisplayIndex := 0; displayedTabCount := 5; tabPageIndex := 0 |},
              DetachTimeout)])) = 0%nat.
Proof.
  apply (pinned_tab_never_detaches TabStrip.reply _ exampleTab eq_refl).
  repeat constructor.
Defined.

(** While the tab waits for the render that shows its new index, mouse moves
    compute nothing: no index is asked for, no detach timer is started or
    cleared, no detach is asked for, and the tab goes on waiting.  The wait
    begins when the consumer replies that it will make the change, and it
    ends when the tab is rendered at another display index. *)
Theorem index_requests_wait_for_the_render :
  forall onDragChangeIndex props moves t,
    dragSingleTab props = false ->
    suspendOrderChangeUntilUpdate t = true ->
    let result := run onDragChangeIndex t (mouseMoves props moves) in
    filter isChangeIndex (snd result) = [] /\
    detachIntents (snd result) = 0%nat /\
    detachTimer (fst result) = detachTimer t /\
    draggingDetachTimeout (fst result) = draggingDetachTimeout t /\
    suspendOrderChangeUntilUpdate (fst result) = true /\
    suspendOrderChangeUntilUpdate
      (fst (step onDragChangeIndex props (fst result) DisplayIndexChanged)) = false /\
    (forall t0 e d,
        In (OnDragChangeIndex props d)
           (snd (step onDragChangeIndex props t0 (MouseMove e))) ->
        onDragChangeIndex props d = true ->
        suspendOrderChangeUntilUpdate
          (fst (step onDragChangeIndex props t0 (MouseMove e))) = true).
Proof.
  intros reply props moves t Hsingle Hwait result. subst result.
  assert (Hsort : forall t0 e,
             suspendOrderChangeUntilUpdate t0 = true ->
             onTabDraggingMouseMoveDetectSortChange reply props t0 e = (t0, [])).
  { intros t0 e Hw. unfold onTabDraggingMouseMoveDetectSortChange. rewrite Hw.
    destruct (parentClientRect t0); [ | reflexivity ].
    destruct (truthy (draggingTabWidth t0)); reflexivity. }
  assert (Hrun : forall moves0 t0,
             suspendOrderChangeUntilUpdate t0 = true ->
             filter isChangeIndex (snd (run reply t0 (mouseMoves props moves0))) = [] /\
             detachIntents (snd (run reply t0 (mouseMoves props moves0))) = 0%nat /\
             detachTimer (fst (run reply t0 (mouseMoves props moves0))) = detachTimer t0 /\
             draggingDetachTimeout (fst (run reply t0 (mouseMoves props moves0)))
             = draggingDetachTimeout t0 /\
             suspendOrderChangeUntilUpdate (fst (run reply t0 (mouseMoves props moves0)))
             = true).
  { induction moves0 as [ | e moves0 IH]; intros t0 Hw.
    - repeat split; auto.
    - change (mouseMoves props (e :: moves0))
        with ((props, MouseMove e) :: mouseMoves props moves0).
      rewrite run_cons.
      destruct (mouse_move_sorts reply props t0 e Hsingle)
        as (t1 & frame & Hframe & _ & _ & _ & _ & _ & Hw1 & _ & Hto1 & _ & Htimer1 & ->).
      rewrite Hw in Hw1.
      rewrite (Hsort t1 _ Hw1). cbn [fst snd]. rewrite app_nil_r.
      assert (Hsame : (if dragProcessMoves props && negb (hasRequestedDetach t0)
                       then (t1, frame) else (t1, frame)) = (t1, frame))
        by (destruct (dragProcessMoves props && negb (hasRequestedDetach t0)); reflexivity).
      rewrite Hsame. cbn [fst snd].
      destruct (IH t1 Hw1) as (Hidx & H0 & Htimer & Hto & Hw').
      assert (Hframe1 : filter isChangeIndex frame = [] /\ detachIntents frame = 0%nat)
        by (destruct Hframe as [-> | ->]; split; reflexivity).
      destruct Hframe1 as [Hf1 Hf2].
      split; [ now apply filter_nil_app | ].
      split; [ now rewrite detachIntents_app, Hf2, H0 | ].
      split; [ congruence | ]. split; [ congruence | exact Hw' ]. }
  destruct (Hrun moves t Hwait) as (Hidx & H0 & Htimer & Hto & Hw').
  repeat (split; [ assumption | ]).
  split.
  - simpl. unfold displayIndexChanged.
    destruct (truthy (currentMouseX (fst (run reply t (mouseMoves props moves)))));
      [ | reflexivity ].
    now destruct (dragTab props (fst (run reply t (mouseMoves props moves)))
                    (ClientPoint q 0)).
  - intros t0 e d Hin Hreply.
    destruct (mouse_move_sorts reply props t0 e Hsingle)
      as (t1 & frame & Hframe & _ & _ & _ & _ & _ & _ & _ & _ & _ & _ & E).
    rewrite E in Hin |- *.
    destruct (dragProcessMoves props && negb (hasRequestedDetach t0)); cbn [fst snd] in *.
    2: { destruct Hframe as [-> | ->]; simpl in Hin; intuition discriminate. }
    apply in_app_or in Hin as [Hin | Hin].
    { destruct Hframe as [-> | ->]; simpl in Hin; intuition discriminate. }
    revert Hin. unfold onTabDraggingMouseMoveDetectSortChange, detectSortChange.
    destruct (parentClientRect t1); [ | intros [] ].
    destruct (truthy (draggingTabWidth t1)); [ | intros [] ].
    destruct (suspendOrderChangeUntilUpdate t1); [ intros [] | ].
    destruct (dragCanDetach props).
    + destruct (isOutsideBounds _ _ _).
      * destruct (draggingDetachTimeout t1); intros [].
      * cbn [fst snd]. intros [Hin | []]. injection Hin as <-. rewrite Hreply.
        match goal with |- context [negb ?b] => destruct b end;
          destruct (draggingDetachTimeout t1); reflexivity.
    + cbn [fst snd]. intros [Hin | []]. injection Hin as <-. rewrite Hreply.
      match goal with |- context [negb ?b] => destruct b end; reflexivity.
Qed.

Lemma index_requests_wait_for_the_render_witness :
  filter isChangeIndex
    (snd (run TabStrip.reply (set_suspendOrderChangeUntilUpdate true exampleTab)
            (mouseMoves exampleProps [ClientPoint 400 110; ClientPoint 700 110]))) = [].
Proof.
  apply (index_requests_wait_for_the_render TabStrip.reply exampleProps
           [ClientPoint 400 110; ClientPoint 700 110]
           (set_suspendOrderChangeUntilUpdate true exampleTab) eq_refl eq_refl).
Defined.


Lemma sort_change_timerHasHandle reply props t e :
  timerHasHandle t ->
  timerHasHandle (fst (onTabDraggingMouseMoveDetectSortChange reply props t e)).
Proof.
  unfold timerHasHandle, onTabDraggingMouseMoveDetectSortChange, detectSortChange.
  intros Inv.
  destruct (parentClientRect t); [ | exact Inv ].
  destruct (truthy (draggingTabWidth t)); [ | exact Inv ].
  destruct (suspendOrderChangeUntilUpdate t); [ exact Inv | ].
  destruct (dragCanDetach props).
  - destruct (isOutsideBounds _ _ _).
    + destruct (draggingDetachTimeout t) eqn:Eto; cbn; intros Hn; congruence.
    + destruct (draggingDetachTimeout t) eqn:Eto;
        match goal with |- context [reply ?p ?d] => destruct (reply p d) end;
        match goal with |- context [negb ?b] => destruct b end;
        cbn; intros Hn; try congruence; specialize (Inv Hn); congruence.
  - match goal with |- context [reply ?p ?d] => destruct (reply p d) end;
      match goal with |- context [negb ?b] => destruct b end; exact Inv.
Qed.

(** The handle and the timer stay in step: through every mouse move,
    animation frame, timer, render and measurement, a detach callback is
    waiting only
    while the component holds the handle of its timer, so that clearing by
    handle clears whatever is waiting. *)
Theorem timer_waits_only_with_handle :
  forall onDragChangeIndex events t,
    timerHasHandle t ->
    timerHasHandle (fst (run onDragChangeIndex t events)).
Proof.
  intros reply events.
  induction events as [ | [props ev] events IH]; intros t Inv; [ exact Inv | ].
  rewrite run_cons. cbn [fst]. apply IH.
  destruct ev as [e | e | | | details].
  - destruct (dragSingleTab props) eqn:Esingle.
    + simpl. unfold onTabDraggingMouseMove. rewrite Esingle. simpl.
      destruct (dragProcessMoves props); simpl; [ | exact Inv ].
      unfold onTabDraggingMoveSingleTabWindow.
      destruct (elementRef t); simpl; exact Inv.
    + destruct (mouse_move_sorts reply props t e Esingle)
        as (t0 & frame & _ & _ & _ & _ & _ & _ & _ & _ & Hto0 & _ & Htimer0 & ->).
      assert (Inv0 : timerHasHandle t0)
        by (unfold timerHasHandle in *; rewrite Hto0, Htimer0; exact Inv).
      destruct (dragProcessMoves props && negb (hasRequestedDetach t)); cbn [fst];
        [ now apply sort_change_timerHasHandle | exact Inv0 ].
  - simpl. unfold dragTab. simpl.
    destruct (elementRef t), (parentClientRect t); exact Inv.
  - simpl. destruct (detachTimer t) eqn:Etimer; [ | exact Inv ].
    unfold detachTimeoutCallback. simpl.
    destruct (parentClientRect t); simpl; unfold timerHasHandle; simpl; congruence.
  - simpl. unfold displayIndexChanged.
    destruct (truthy (currentMouseX t)); [ | exact Inv ].
    unfold dragTab. simpl.
    destruct (elementRef t), (parentClientRect t); exact Inv.
  - simpl. unfold evaluateDraggingTabWidth.
    destruct (elementRef t), details; exact Inv.
Qed.

Lemma timer_waits_only_with_handle_witness :
  timerHasHandle
    (fst (run TabStrip.reply exampleTab
            (mouseMoves exampleProps [ClientPoint 400 200; ClientPoint 400 110]))).
Proof.
  apply (timer_waits_only_with_handle TabStrip.reply _ exampleTab).
  intros Hwaiting. exfalso. apply Hwaiting. reflexivity.
Defined.

(** Tearing the handlers down forgets the sizes and clears a waiting detach
    timer, so that whatever is still delivered afterwards (a replayed mouse
    move, a timer, an animation frame of [dragTab], a render) asks for no
    detach and for no index change, as long as the tab is not measured again.
    The teardown does not cancel an animation frame of
    [evaluateDraggingTabWidth] that was requested before it: when that frame
    runs and the element is still there, the sizes are back. *)
Theorem teardown_stops_requests_until_remeasured :
  forall onDragChangeIndex events t,
    timerHasHandle t ->
    Forall (fun pe => isEvaluateFrame pe = false) events ->
    let removed := removeDragSortHandlers t in
    parentClientRect removed = None /\
    detachTimer removed = None /\
    detachIntents (snd (run onDragChangeIndex removed events)) = 0%nat /\
    filter isChangeIndex (snd (run onDragChangeIndex removed events)) = [] /\
    (forall props details,
        elementRef t <> None ->
        parentClientRect
          (fst (step onDragChangeIndex props removed (EvaluateFrame (Some details))))
        = sizeParentClientRect details).
Proof.
  intros reply events t Inv Hall removed.
  assert (Hrect : parentClientRect removed = None).
  { subst removed. unfold removeDragSortHandlers. simpl.
    destruct (draggingDetachTimeout t); reflexivity. }
  assert (Htimer : detachTimer removed = None).
  { subst removed. unfold removeDragSortHandlers. simpl.
    destruct (draggingDetachTimeout t) eqn:Eto; simpl; [ reflexivity | ].
    destruct (detachTimer t) eqn:Etimer; [ | reflexivity ].
    unfold timerHasHandle in Inv. rewrite Etimer in Inv.
    assert (draggingDetachTimeout t = true) by (apply Inv; discriminate). congruence. }
  assert (Helement : elementRef removed = elementRef t).
  { subst removed. unfold removeDragSortHandlers. simpl.
    destruct (draggingDetachTimeout t); reflexivity. }
  split; [ exact Hrect | ]. split; [ exact Htimer | ].
  assert (Hlast : forall props details,
             elementRef t <> None ->
             parentClientRect
               (fst (step reply props removed (EvaluateFrame (Some details))))
             = sizeParentClientRect details).
  { intros props details Hel. cbn [step fst]. unfold evaluateDraggingTabWidth.
    rewrite Helement. destruct (elementRef t); [ reflexivity | congruence ]. }
  cut (detachIntents (snd (run reply removed events)) = 0%nat /\
       filter isChangeIndex (snd (run reply removed events)) = []).
  { intros [H1 H2]. repeat split; assumption. }
  clear Hlast Helement.
  clearbody removed. clear Inv t. revert removed Hrect Htimer.
  induction events as [ | [props ev] events IH]; intros t Hrect Htimer;
    [ split; reflexivity | ].
  inversion Hall as [ | ? ? Hev Hall']; subst.
  assert (Hstep : parentClientRect (fst (step reply props t ev)) = None /\
                  detachTimer (fst (step reply props t ev)) = None /\
                  detachIntents (snd (step reply props t ev)) = 0%nat /\
                  filter isChangeIndex (snd (step reply props t ev)) = []).
  { destruct ev as [e | e | | | details]; [ | | | | discriminate Hev ].
    - destruct (dragSingleTab props) eqn:Esingle.
      + simpl. unfold onTabDraggingMouseMove. rewrite Esingle. simpl.
        destruct (dragProcessMoves props); simpl; [ | repeat split; assumption ].
        unfold onTabDraggingMoveSingleTabWindow.
        destruct (elementRef t); simpl; repeat split; assumption.
      + destruct (mouse_move_sorts reply props t e Esingle)
          as (t0 & frame & Hframe & _ & _ & Hrect0 & _ & _ & _ & _ & _ & _ & Htimer0 & ->).
        assert (Hsort : onTabDraggingMouseMoveDetectSortChange reply props t0
                          (translateEventFromSendMouseMoveInput e) = (t0, [])).
        { unfold onTabDraggingMouseMoveDetectSortChange.
          now rewrite Hrect0, Hrect. }
        rewrite Hsort. cbn [fst snd]. rewrite app_nil_r.
        assert (Hsame : (if dragProcessMoves props && negb (hasRequestedDetach t)
                         then (t0, frame) else (t0, frame)) = (t0, frame))
          by (destruct (dragProcessMoves props && negb (hasRequestedDetach t));
              reflexivity).
        rewrite Hsame. cbn [fst snd].
        repeat split; try congruence; destruct Hframe as [-> | ->]; reflexivity.
    - simpl. unfold dragTab. simpl. rewrite Hrect.
      destruct (elementRef t); simpl; repeat split; assumption.
    - simpl. rewrite Htimer. simpl. repeat split; assumption.
    - simpl. unfold displayIndexChanged.
      destruct (truthy (currentMouseX t)); simpl; [ | repeat split; assumption ].
      unfold dragTab. simpl. rewrite Hrect.
      destruct (elementRef t); simpl; repeat split; assumption. }
  destruct Hstep as (Hrect1 & Htimer1 & H0 & Hidx).
  destruct (IH Hall' _ Hrect1 Htimer1) as [H0' Hidx'].
  rewrite run_cons. cbn [snd]. split.
  - now rewrite detachIntents_app, H0, H0'.
  - now apply filter_nil_app.
Qed.

Lemma teardown_stops_requests_until_remeasured_witness :
  detachIntents
    (snd (run TabStrip.reply
            (removeDragSortHandlers
               (fst (run TabStrip.reply exampleTab
                       (mouseMoves exampleProps [ClientPoint 400 200]))))
            [(exampleProps, DetachTimeout)])) = 0%nat.
Proof.
  refine (proj1 (proj2 (proj2
            (teardown_stops_requests_until_remeasured TabStrip.reply
               [(exampleProps, DetachTimeout)]
               (fst (run TabStrip.reply exampleTab
                       (mouseMoves exampleProps [ClientPoint 400 200]))) _ _)))).
  - intros _. vm_compute. reflexivity.
  - repeat constructor.
Defined.

(** In a window that does not process the moves of the drag (it is not the
    session's current window, or a transition is in flight), the dragged tab
    only follows the mouse: a mouse move asks for nothing but the animation
    frame and touches neither the detach timer nor the wait for an index
    change. *)
Theorem moves_elsewhere_only_move_the_tab :
  forall onDragChangeIndex props moves t,
    dragProcessMoves props = false ->
    let result := run onDragChangeIndex t (mouseMoves props moves) in
    Forall (fun c => isAnimationFrameRequest c = true) (snd result) /\
    detachTimer (fst result) = detachTimer t /\
    draggingDetachTimeout (fst result) = draggingDetachTimeout t /\
    suspendOrderChangeUntilUpdate (fst result) = suspendOrderChangeUntilUpdate t /\
    draggingDetachThreshold (fst result) = draggingDetachThreshold t.
Proof.
  intros reply props moves t Hmoves result. subst result. revert t.
  induction moves as [ | e moves IH]; intros t.
  - repeat split. constructor.
  - change (mouseMoves props (e :: moves))
      with ((props, MouseMove e) :: mouseMoves props moves).
    rewrite run_cons. cbn [fst snd].
    assert (Hstep : exists t1 frame,
               step reply props t (MouseMove e) = (t1, frame) /\
               Forall (fun c => isAnimationFrameRequest c = true) frame /\
               detachTimer t1 = detachTimer t /\
               draggingDetachTimeout t1 = draggingDetachTimeout t /\
               suspendOrderChangeUntilUpdate t1 = suspendOrderChangeUntilUpdate t /\
               draggingDetachThreshold t1 = draggingDetachThreshold t).
    { simpl. unfold onTabDraggingMouseMove. rewrite Hmoves.
      destruct (negb (dragSingleTab props)); [ destruct (dragTabMouseMoveFrame t) | ];
        simpl; eexists _, _; (split; [ reflexivity | ]); repeat split;
        repeat constructor. }
    destruct Hstep as (t1 & frame & -> & Hframe & Htimer & Hto & Hw & Hthr).
    cbn [fst snd].
    destruct (IH t1) as (Hall & Htimer' & Hto' & Hw' & Hthr').
    split; [ apply Forall_app; split; assumption | ].
    repeat split; congruence.
Qed.

Lemma moves_elsewhere_only_move_the_tab_witness :
  Forall (fun c => isAnimationFrameRequest c = true)
    (snd (run TabStrip.reply exampleTab
            (mouseMoves
               {| dragSingleTab := false; dragProcessMoves := false; dragCanDetach := true;
                  relativeXDragStart := 35; detachedFromTabX := None;
                  displayIndex := 1; totalTabCount := 12;
                  firstTabDisplayIndex := 0; displayedTabCount := 5; tabPageIndex := 0 |}
               [ClientPoint 400 200; ClientPoint 700 110]))).
Proof.
  apply (moves_elsewhere_only_move_the_tab TabStrip.reply
           {| dragSingleTab := false; dragProcessMoves := false; dragCanDetach := true;
              relativeXDragStart := 35; detachedFromTabX := None;
              displayIndex := 1; totalTabCount := 12;
              firstTabDisplayIndex := 0; displayedTabCount := 5; tabPageIndex := 0 |}
           [ClientPoint 400 200; ClientPoint 700 110] exampleTab eq_refl).
Defined.

End DragControllerFacts.


(** * Properties of the tab strip coordinator *)

Module TabStripFacts.
Import DragController TabStrip.

Lemma run_timers events : forall timeout,
  timeout = None ->
  Forall (fun ev => isTimers ev = true) events ->
  run timeout events = (None, []).
Proof.
  induction events as [ | [now ev] events IH]; intros timeout -> Hall; [ reflexivity | ].
  inversion Hall as [ | ? ? Hev Hall']; subst.
  destruct ev; [ discriminate Hev | ].
  simpl. now rewrite (IH None eq_refl Hall').
Qed.

(** C6: the page shows the tabs 0 to 4, the dragged tab is one of them, and
    no page change is pending.  Asking for destination 7 at time [t0] moves
    the tab to display index 4, marks the strip as pausing for the next page
    and leaves a page change to 7 pending that is due at [t0 + 1000]: before
    that the timers do nothing, from then on they carry it out.  If index 3
    is asked for at a time [t1] before [t0 + 1000], the pending page change
    is dropped and the pause lifted, the tab is moved to display index 3 in
    the same step, and no later turn of the timers dispatches anything. *)
Theorem C6_page_change_debounce :
  forall t0 t1 props props',
    firstTabDisplayIndex props = 0 -> displayedTabCount props = 5%N ->
    0 <= displayIndex props <= 4 ->
    firstTabDisplayIndex props' = 0 -> displayedTabCount props' = 5%N ->
    0 <= displayIndex props' <= 4 ->
    t0 <= t1 < t0 + 1000 ->
    let pending := Some {| due := t0 + 1000; destination := 7 |} in
    let dispatched1 :=
      (if displayIndex props =? 4 then []
       else [tabDragChangeGroupDisplayIndex false 4])
      ++ [tabDragPausingForPageChange (tabPageIndex props + 1)] in
    let dispatched2 :=
      tabDragNotPausingForPageChange
      :: (if displayIndex props' =? 3 then []
          else [tabDragChangeGroupDisplayIndex false 3]) in
    step t0 None (DragChangeIndex props 7) = (pending, dispatched1) /\
    displayIndexAfter (displayIndex props) dispatched1 = 4 /\
    (forall now, now < t0 + 1000 -> step now pending Timers = (pending, [])) /\
    (forall now, t0 + 1000 <= now ->
                 step now pending Timers
                 = (None, [tabDragNotPausingForPageChange;
                           tabDragChangeGroupDisplayIndex false 7])) /\
    step t1 pending (DragChangeIndex props' 3) = (None, dispatched2) /\
    displayIndexAfter (displayIndex props') dispatched2 = 3 /\
    (forall between later,
        Forall (fun ev => isTimers ev = true /\ fst ev < t0 + 1000) between ->
        Forall (fun ev => isTimers ev = true) later ->
        run None ((t0, DragChangeIndex props 7) :: between
                  ++ (t1, DragChangeIndex props' 3) :: later)
        = (None, dispatched1 ++ dispatched2)).
Proof.
  intros t0 t1 props props' Hfirst Hshown Hidx Hfirst' Hshown' Hidx' Ht
         pending dispatched1 dispatched2.
  assert (Hstep1 : step t0 None (DragChangeIndex props 7) = (pending, dispatched1)).
  { subst pending dispatched1. simpl. unfold onDragChangeIndex.
    rewrite Hfirst, Hshown. simpl.
    replace (displayIndex props =? 7) with false by (symmetry; apply Z.eqb_neq; lia).
    simpl. destruct (displayIndex props =? 4); reflexivity. }
  assert (Hquiet : forall now, now < t0 + 1000 -> step now pending Timers = (pending, [])).
  { intros now Hnow. subst pending. unfold step. cbn [due].
    destruct (Z.leb_spec (t0 + 1000) now); [ lia | reflexivity ]. }
  assert (Hstep2 : step t1 pending (DragChangeIndex props' 3) = (None, dispatched2)).
  { subst pending dispatched2. simpl. unfold onDragChangeIndex.
    rewrite Hfirst', Hshown'. simpl.
    destruct (displayIndex props' =? 3); reflexivity. }
  split; [ exact Hstep1 | ].
  split.
  { subst dispatched1. destruct (displayIndex props =? 4) eqn:E; simpl; [ | reflexivity ].
    now apply Z.eqb_eq in E. }
  split; [ exact Hquiet | ].
  split.
  { intros now Hnow. subst pending. unfold step. cbn [due].
    destruct (Z.leb_spec (t0 + 1000) now); [ reflexivity | lia ]. }
  split; [ exact Hstep2 | ].
  split.
  { subst dispatched2. destruct (displayIndex props' =? 3) eqn:E; simpl; [ | reflexivity ].
    now apply Z.eqb_eq in E. }
  intros between later Hbetween Hlater.
  assert (Hrun : forall events,
             Forall (fun ev => isTimers ev = true /\ fst ev < t0 + 1000) events ->
             run pending (events ++ (t1, DragChangeIndex props' 3) :: later)
             = (None, dispatched2)).
  { induction events as [ | [now ev] events IH]; intros Hall.
    - change (run pending ([] ++ (t1, DragChangeIndex props' 3) :: later))
        with (let '(timeout1, d1) := step t1 pending (DragChangeIndex props' 3) in
              let '(timeout2, d2) := run timeout1 later in
              (timeout2, d1 ++ d2)).
      rewrite Hstep2, (run_timers later None eq_refl Hlater). now rewrite app_nil_r.
    - inversion Hall as [ | ? ? [Hev Hnow] Hall']; subst.
      destruct ev; [ discriminate Hev | ].
      change (run pending (((now, Timers) :: events)
                           ++ (t1, DragChangeIndex props' 3) :: later))
        with (let '(timeout1, d1) := step now pending Timers in
              let '(timeout2, d2) :=
                run timeout1 (events ++ (t1, DragChangeIndex props' 3) :: later) in
              (timeout2, d1 ++ d2)).
      rewrite (Hquiet now Hnow), (IH Hall'). reflexivity. }
  change (run None ((t0, DragChangeIndex props 7) :: between
                    ++ (t1, DragChangeIndex props' 3) :: later))
    with (let '(timeout1, d1) := step t0 None (DragChangeIndex props 7) in
          let '(timeout2, d2) :=
            run timeout1 (between ++ (t1, DragChangeIndex props' 3) :: later) in
          (timeout2, d1 ++ d2)).
  rewrite Hstep1, (Hrun between Hbetween). reflexivity.
Qed.

Lemma C6_witness :
  run None [(0, DragChangeIndex exampleProps 7);
            (400, Timers);
            (600, DragChangeIndex exampleProps 3);
            (5000, Timers)]
  = (None,
     [tabDragChangeGroupDisplayIndex false 4; tabDragPausingForPageChange 1;
      tabDragNotPausingForPageChange; tabDragChangeGroupDisplayIndex false 3]).
Proof.
  assert (Hidx : 0 <= displayIndex exampleProps <= 4) by (simpl; lia).
  assert (Ht : 0 <= 600 < 0 + 1000) by lia.
  destruct (C6_page_change_debounce 0 600 exampleProps exampleProps
              eq_refl eq_refl Hidx eq_refl eq_refl Hidx Ht)
    as (_ & _ & _ & _ & _ & _ & Hrun).
  apply (Hrun [(400, Timers)] [(5000, Timers)]).
  - repeat constructor.
  - repeat constructor.
Defined.


(** *** Further properties of the tab strip coordinator *)

(** The strip tells the drag controller to wait for a render exactly when it
    has dispatched an index change for the tab; the reply depends on neither
    the time nor the pending page change. *)
Theorem reply_iff_index_change_dispatched :
  forall now props destinationIndex timeout,
    fst (fst (onDragChangeIndex now props destinationIndex timeout))
    = reply props destinationIndex
    /\
    (reply props destinationIndex = true <->
     changesIndexTo (snd (onDragChangeIndex now props destinationIndex timeout)) <> []).
Proof.
  intros now props d timeout. unfold reply, onDragChangeIndex.
  destruct (negb (displayIndex props =? d)).
  - destruct ((d <? firstTabDisplayIndex props)
              || (d >? firstTabDisplayIndex props + Z.of_N (displayedTabCount props) - 1)).
    + destruct ((d >? firstTabDisplayIndex props + Z.of_N (displayedTabCount props) - 1)
                && negb (displayIndex props
                         =? firstTabDisplayIndex props
                            + Z.of_N (displayedTabCount props) - 1)).
      * destruct timeout; simpl; split; try reflexivity; split; congruence.
      * destruct ((d <? firstTabDisplayIndex props)
                  && negb (displayIndex props =? firstTabDisplayIndex props));
          destruct timeout; simpl; split; try reflexivity; split; congruence.
    + destruct timeout; simpl; split; try reflexivity; split; congruence.
  - destruct timeout; simpl; split; try reflexivity; split; congruence.
Qed.

Lemma step_pausing_balance now timeout ev :
  (pausings (snd (step now timeout ev)) + waiting timeout
   = notPausings (snd (step now timeout ev)) + waiting (fst (step now timeout ev)))%nat.
Proof.
  destruct ev as [props d | ].
  - unfold step, onDragChangeIndex.
    destruct (negb (displayIndex props =? d)).
    + destruct ((d <? firstTabDisplayIndex props)
                || (d >? firstTabDisplayIndex props + Z.of_N (displayedTabCount props) - 1)).
      * destruct ((d >? firstTabDisplayIndex props + Z.of_N (displayedTabCount props) - 1)
                  && negb (displayIndex props
                           =? firstTabDisplayIndex props
                              + Z.of_N (displayedTabCount props) - 1)).
        -- destruct timeout; reflexivity.
        -- destruct ((d <? firstTabDisplayIndex props)
                     && negb (displayIndex props =? firstTabDisplayIndex props));
             destruct timeout; reflexivity.
      * destruct timeout; reflexivity.
    + destruct timeout; reflexivity.
  - unfold step. destruct timeout as [pending | ]; [ | reflexivity ].
    destruct (due pending <=? now); reflexivity.
Qed.

(** The pause marks are balanced.  Starting with no page change pending,
    after any sequence of requests and timer turns every "not pausing" was
    preceded by its "pausing", at most one pause is open, and one is open
    exactly when a page change is pending. *)
Theorem pause_marks_are_balanced :
  forall events,
    let result := run None events in
    (pausings (snd result) = notPausings (snd result) + waiting (fst result))%nat /\
    (fst result <> None <-> pausings (snd result) = S (notPausings (snd result))) /\
    (fst result = None <-> pausings (snd result) = notPausings (snd result)).
Proof.
  intros events result.
  assert (Hgen : forall evs timeout,
             (pausings (snd (run timeout evs)) + waiting timeout
              = notPausings (snd (run timeout evs)) + waiting (fst (run timeout evs)))%nat).
  { induction evs as [ | [now ev] evs IH]; intros timeout; [ reflexivity | ].
    simpl. pose proof (step_pausing_balance now timeout ev) as Hstep.
    destruct (step now timeout ev) as [timeout1 d1]. simpl in Hstep.
    specialize (IH timeout1).
    destruct (run timeout1 evs) as [timeout2 d2]. simpl in IH |- *.
    unfold pausings, notPausings in *.
    rewrite !filter_app, !length_app. lia. }
  specialize (Hgen events None). fold result in Hgen. simpl in Hgen.
  rewrite Nat.add_0_r in Hgen.
  split; [ exact Hgen | ].
  destruct (fst result); simpl in Hgen; split; split; intros; try congruence; lia.
Qed.

(** A pending page change is not replaced.  While one is pending, asking for
    a destination on another page (the same or a different one) leaves the
    timer as it is, with its due time and its destination, and dispatches no
    second pause mark; when the timer is due, the page change that is carried
    out is the one first asked for. *)
Theorem pending_page_change_is_kept :
  forall now props destinationIndex pending,
    displayIndex props <> destinationIndex ->
    onAnotherPage props destinationIndex ->
    fst (step now (Some pending) (DragChangeIndex props destinationIndex)) = Some pending /\
    pausings (snd (step now (Some pending) (DragChangeIndex props destinationIndex))) = 0%nat /\
    notPausings (snd (step now (Some pending) (DragChangeIndex props destinationIndex)))
    = 0%nat /\
    (forall later,
        due pending <= later ->
        step later (Some pending) Timers
        = (None, [tabDragNotPausingForPageChange;
                  tabDragChangeGroupDisplayIndex false (destination pending)])).
Proof.
  intros now props d pending Hne Hother.
  assert (Hstep : exists moved,
             step now (Some pending) (DragChangeIndex props d) = (Some pending, moved) /\
             pausings moved = 0%nat /\ notPausings moved = 0%nat).
  { unfold step, onDragChangeIndex.
    replace (displayIndex props =? d) with false by (symmetry; now apply Z.eqb_neq).
    replace ((d <? firstTabDisplayIndex props)
             || (d >? firstTabDisplayIndex props + Z.of_N (displayedTabCount props) - 1))
      with true.
    2: { symmetry. apply orb_true_iff. destruct Hother as [H | H]; [ left | right ].
         - now apply Z.ltb_lt.
         - apply Z.gtb_lt. exact H. }
    cbn [negb].
    destruct ((d >? firstTabDisplayIndex props + Z.of_N (displayedTabCount props) - 1)
              && negb (displayIndex props
                       =? firstTabDisplayIndex props + Z.of_N (displayedTabCount props) - 1)).
    - eexists. split; [ reflexivity | split; reflexivity ].
    - destruct ((d <? firstTabDisplayIndex props)
                && negb (displayIndex props =? firstTabDisplayIndex props));
        eexists; (split; [ reflexivity | split; reflexivity ]). }
  destruct Hstep as (moved & -> & Hp & Hn).
  repeat split; try assumption.
  intros later Hdue. unfold step.
  destruct (Z.leb_spec (due pending) later); [ reflexivity | lia ].
Qed.

Lemma pending_page_change_is_kept_witness :
  fst (step 300 (Some {| due := 1000; destination := 7 |})
         (DragChangeIndex exampleProps 9))
  = Some {| due := 1000; destination := 7 |}.
Proof.
  apply (pending_page_change_is_kept 300 exampleProps 9
           {| due := 1000; destination := 7 |}).
  - simpl. discriminate.
  - right. simpl. lia.
Defined.

End TabStripFacts.

(** * Properties of the pages of the tab strip *)

Module TabsPagingFacts.
Import TabsPaging.

Local Open Scope nat_scope.

Lemma ceilDiv_covers size n : 0 < n -> size <= ceilDiv size n * n.
Proof.
  intros Hn. unfold ceilDiv.
  pose proof (Nat.div_mod_eq (size + n - 1) n) as E.
  pose proof (Nat.mod_upper_bound (size + n - 1) n ltac:(lia)) as Hr.
  nia.
Qed.

Lemma ceilDiv_tight size n i : 0 < n -> (i < ceilDiv size n <-> i * n < size).
Proof.
  intros Hn. unfold ceilDiv.
  pose proof (Nat.div_mod_eq (size + n - 1) n) as E.
  pose proof (Nat.mod_upper_bound (size + n - 1) n ltac:(lia)) as Hr.
  split; intros H; nia.
Qed.

Lemma firstn_add {A : Type} (a b : nat) (l : list A) :
  firstn (a + b) l = firstn a l ++ firstn b (skipn a l).
Proof.
  revert l. induction a as [ | a IH]; intros l; [ reflexivity | ].
  destruct l as [ | x l]; simpl.
  - now rewrite firstn_nil.
  - now rewrite IH.
Qed.

Lemma currentTabs_mergeProps {A : Type} i n (tabs : list A) :
  currentTabs (mergeProps i n tabs) = firstn n (skipn (i * n) tabs).
Proof.
  unfold mergeProps, slice. simpl. f_equal. lia.
Qed.

(** The pages partition the tabs: for a positive number of tabs per page,
    the pages 0 to [totalPages - 1], one after the other, show every
    unpinned tab once and in order. *)
Theorem pages_partition_the_tabs :
  forall (A : Type) (tabsPerTabPage : nat) (unpinnedTabs : list A),
    0 < tabsPerTabPage ->
    concat
      (map (fun pageIndex => currentTabs (mergeProps pageIndex tabsPerTabPage unpinnedTabs))
         (seq 0 (totalPages (mergeProps 0 tabsPerTabPage unpinnedTabs))))
    = unpinnedTabs.
Proof.
  intros A n tabs Hn.
  assert (Hprefix : forall k,
             concat (map (fun i => currentTabs (mergeProps i n tabs)) (seq 0 k))
             = firstn (k * n) tabs).
  { induction k as [ | k IH]; [ reflexivity | ].
    rewrite seq_S, map_app, concat_app, IH. cbn [map concat Nat.add].
    rewrite app_nil_r, currentTabs_mergeProps.
    replace (S k * n) with (k * n + n) by lia. now rewrite firstn_add. }
  rewrite Hprefix. apply firstn_all2. simpl. now apply ceilDiv_covers.
Qed.

Lemma pages_partition_the_tabs_witness :
  concat
    (map (fun pageIndex => currentTabs (mergeProps pageIndex 3 [10; 11; 12; 13; 14; 15; 16]))
       (seq 0 (totalPages (mergeProps 0 3 [10; 11; 12; 13; 14; 15; 16]))))
  = [10; 11; 12; 13; 14; 15; 16].
Proof.
  apply (pages_partition_the_tabs nat 3 [10; 11; 12; 13; 14; 15; 16]). lia.
Defined.

(** Every tab the strip renders gets a sound page description.  For a
    positive number of tabs per page, the page shows at most that many tabs,
    the tab at position [j] of the page is the tab at index
    [firstTabDisplayIndex + j] of the window, and the props handed to it
    satisfy what the index detection of the drag controller relies on: the
    first index of the page is an index of the window, the page is not
    empty, and the tab's display index lies on the page. *)
Theorem rendered_tab_has_sound_page :
  forall (A : Type) (pageIndex tabsPerTabPage : nat) (unpinnedTabs : list A)
         (j : nat) (others : DragController.Props),
    0 < tabsPerTabPage ->
    let page := mergeProps pageIndex tabsPerTabPage unpinnedTabs in
    j < length (currentTabs page) ->
    let props := tabProps page j pageIndex others in
    length (currentTabs page) <= tabsPerTabPage /\
    firstTabDisplayIndex page + length (currentTabs page) <= totalTabCount page /\
    nth_error (currentTabs page) j = nth_error unpinnedTabs (firstTabDisplayIndex page + j) /\
    pageIndex < totalPages page /\
    DragController.pageOk props /\
    (1 <= DragController.displayedTabCount props)%N /\
    (DragController.firstTabDisplayIndex props <= DragController.displayIndex props
     <= DragController.firstTabDisplayIndex props
        + Z.of_N (DragController.displayedTabCount props) - 1)%Z.
Proof.
  intros A i n tabs j others Hn page Hj props.
  assert (Hcur : currentTabs page = firstn n (skipn (i * n) tabs))
    by apply currentTabs_mergeProps.
  assert (Hlen : length (currentTabs page) = Nat.min n (length tabs - i * n)).
  { rewrite Hcur, length_firstn, length_skipn. reflexivity. }
  assert (Hfirst : firstTabDisplayIndex page = i * n) by reflexivity.
  assert (Htotal : totalTabCount page = length tabs) by reflexivity.
  rewrite Hlen in Hj.
  split; [ rewrite Hlen; lia | ].
  split; [ rewrite Hlen, Hfirst, Htotal; lia | ].
  split.
  { rewrite Hcur, Hfirst, nth_error_firstn.
    replace (j <? n) with true by (symmetry; apply Nat.ltb_lt; lia).
    apply nth_error_skipn. }
  split; [ apply ceilDiv_tight; [ exact Hn | lia ] | ].
  assert (P1 : DragController.firstTabDisplayIndex props = Z.of_nat (i * n))
    by reflexivity.
  assert (P2 : DragController.totalTabCount props = N.of_nat (length tabs))
    by reflexivity.
  assert (P3 : DragController.displayedTabCount props
               = N.of_nat (length (currentTabs page))) by reflexivity.
  assert (P4 : DragController.displayIndex props = Z.of_nat (j + i * n))
    by reflexivity.
  unfold DragController.pageOk. rewrite P1, P2, P3, P4, Hlen.
  repeat split; lia.
Qed.

Lemma rendered_tab_has_sound_page_witness :
  DragController.pageOk
    (tabProps (mergeProps 1 3 [10; 11; 12; 13; 14; 15; 16]) 2 1 DragController.exampleProps).
Proof.
  refine (proj1 (proj2 (proj2 (proj2 (proj2
            (rendered_tab_has_sound_page nat 1 3 [10; 11; 12; 13; 14; 15; 16] 2
               DragController.exampleProps _ _)))))).
  - lia.
  - simpl. lia.
Defined.

(** The page buttons, for a positive number of tabs per page and a page
    index within the pages.  [mergeProps] offers the "next" button exactly
    when a later page exists (the test that the page shown is full adds
    nothing) and the "previous" button exactly when an earlier one does.
    When the handlers run with the page index the props were computed for, a
    click never leaves the range of the pages, does nothing exactly at either
    end, and "next" followed by "previous", or the reverse, comes back to the
    same page. *)
Theorem page_buttons_stay_in_range :
  forall (A : Type) (pageIndex tabsPerTabPage : nat) (unpinnedTabs : list A),
    0 < tabsPerTabPage ->
    let page := mergeProps pageIndex tabsPerTabPage unpinnedTabs in
    pageIndex < totalPages page ->
    (onNextPage page = true <-> pageIndex + 1 < totalPages page) /\
    (onPreviousPage page = true <-> 0 < pageIndex) /\
    (forall next, onNextPageClick pageIndex (totalPages page) = Some next ->
                  next < totalPages page /\ onPrevPage next = Some pageIndex) /\
    (forall previous, onPrevPage pageIndex = Some previous ->
                      previous < totalPages page /\
                      onNextPageClick previous (totalPages page) = Some pageIndex) /\
    (onNextPageClick pageIndex (totalPages page) = None <->
     pageIndex + 1 = totalPages page) /\
    (onPrevPage pageIndex = None <-> pageIndex = 0).
Proof.
  intros A i n tabs Hn page Hi.
  assert (Htotal : totalPages page = ceilDiv (length tabs) n) by reflexivity.
  split.
  { unfold page, mergeProps. cbn [onNextPage]. fold (ceilDiv (length tabs) n).
    rewrite andb_true_iff, Nat.leb_le, Nat.ltb_lt. rewrite <- Htotal.
    split; [ now intros [_ H] | intros H; split; [ | exact H ] ].
    unfold slice. rewrite length_firstn, length_skipn.
    rewrite Htotal in H. apply ceilDiv_tight in H; [ | exact Hn ]. lia. }
  split.
  { unfold page, mergeProps. cbn [onPreviousPage]. apply Nat.ltb_lt. }
  split.
  { intros next. unfold onNextPageClick, onPrevPage.
    destruct (Nat.eqb_spec (i + 1) (totalPages page)); [ discriminate | ].
    intros [= <-]. split; [ lia | ].
    destruct (Nat.eqb_spec (i + 1) 0); [ lia | ]. f_equal. lia. }
  split.
  { intros previous. unfold onNextPageClick, onPrevPage.
    destruct (Nat.eqb_spec i 0); [ discriminate | ].
    intros [= <-]. split; [ lia | ].
    destruct (Nat.eqb_spec (i - 1 + 1) (totalPages page)); [ lia | ]. f_equal. lia. }
  split.
  { unfold onNextPageClick.
    destruct (Nat.eqb_spec (i + 1) (totalPages page)); split; congruence. }
  unfold onPrevPage. destruct (Nat.eqb_spec i 0); split; congruence.
Qed.

Lemma page_buttons_stay_in_range_witness :
  onNextPage (mergeProps 1 3 [10; 11; 12; 13; 14; 15; 16]) = true <->
  1 + 1 < totalPages (mergeProps 1 3 [10; 11; 12; 13; 14; 15; 16]).
Proof.
  refine (proj1 (page_buttons_stay_in_range nat 1 3 [10; 11; 12; 13; 14; 15; 16] _ _)).
  - lia.
  - vm_compute. lia.
Defined.

End TabsPagingFacts.

(** * Properties of the drag props of a tab *)

Module DraggableTabFacts.
Import Store StoreFacts DraggableTab.

(** The guards of the renderer imply the guards of the store.  In every
    state the store can reach, whatever [tabState.isTabDragging] answers: if
    the props computed from the state let a tab of window [windowId] process
    the moves of the drag, then no tab of another window processes them,
    [windowId] is the window the session takes for the current one and it
    holds the tab, and an index-change event sent by [windowId] passes every
    guard of the reducer: the requested display index is recorded and the
    move of the dragged tab is scheduled. *)
Theorem processed_moves_are_carried_out :
  forall (isTabDragging : AppState -> TabId -> bool) state windowId tabId,
    reachable state ->
    dragProcessMoves isTabDragging state windowId tabId = true ->
    (forall windowId' tabId',
        dragProcessMoves isTabDragging state windowId' tabId' = true ->
        windowId' = windowId) /\
    dragIntendedWindowId state = Some windowId /\
    getWindowId state (Some tabId) = windowId /\
    (forall env sourceTabId destinationDisplayIndex destinationFrameIndex,
        getSourceTabId state = Some sourceTabId ->
        exists dragSourceData,
          tabDragData state = Some dragSourceData /\
          reducer env state
            (APP_TAB_DRAG_CHANGE_WINDOW_DISPLAY_INDEX windowId destinationDisplayIndex
               destinationFrameIndex false)
          = Returned
              (set_tabDragData
                 (Some (set_displayIndexRequested (Some destinationDisplayIndex)
                          dragSourceData)) state)
              [SetImmediate
                 (fun _ : Env => Some [SetTabIndex sourceTabId destinationFrameIndex])]).
Proof.
  intros isTabDragging state w t Hreach Hmoves.
  assert (Hinv : forall w0 t0,
             dragProcessMoves isTabDragging state w0 t0 = true ->
             exists d,
               tabDragData state = Some d /\
               attachRequestedWindowId d = None /\ detachedFromWindowId d = None /\
               currentWindowId d = w0 /\ getWindowId state (Some t0) = w0).
  { intros w0 t0. unfold dragProcessMoves.
    destruct (tabDragData state) as [d | ]; [ | discriminate ].
    destruct (isTabDragging state t0); [ | discriminate ].
    rewrite !andb_true_iff, !negb_true_iff, !has_false_iff, !Z.eqb_eq.
    intros [[[Ha Hf] Hc] Hw]. exists d. repeat split; try reflexivity; assumption. }
  destruct (Hinv w t Hmoves) as (d & Hd & Ha & Hf & Hc & Hw).
  split; [ | split; [ | split ] ].
  - intros w' t' Hmoves'.
    destruct (Hinv w' t' Hmoves') as (d' & Hd' & _ & _ & Hc' & _).
    rewrite Hd in Hd'. injection Hd' as <-. congruence.
  - unfold dragIntendedWindowId. rewrite Hd. now rewrite Hc.
  - exact Hw.
  - intros env source ddi dfi Hsource. exists d. split; [ exact Hd | ].
    unfold getSourceTabId in Hsource. rewrite Hd in Hsource.
    apply change_index_applied; try assumption.
    apply has_false_iff.
    rewrite <- (reachable_detachMarkersTogether state Hreach d Hd).
    now apply has_false_iff.
Qed.

Lemma processed_moves_are_carried_out_witness :
  dragIntendedWindowId (exampleStarted false) = Some 1.
Proof.
  refine (proj1 (proj2 (processed_moves_are_carried_out exampleIsTabDragging
                          (exampleStarted false) 1 7 _ _))).
  - eapply reachable_reducer with
      (env := exampleEnv) (state := exampleInitial)
      (action := APP_TAB_DRAG_STARTED (examplePayload false));
      [ apply reachable_init | reflexivity ].
  - reflexivity.
Defined.

End DraggableTabFacts.
